(** * NBA AI agents: the orchestration core, embedded from the Python sources

  Shallow embedding of
    - [tools/historical_patterns_tool.py]  (the discovery-side reader),
    - [tools/results_tracker_tool.py]      (the append path of the store),
    - [tools/analytics_tool.py]            (ROI scoring over the action log),
    - [agents/agent_8_approval_adk.py]     (the human approval gate),
    - [agents/agent_*_adk.py], [coordinator_full.py] (the static stage tree),
  followed by the properties proved about them.

  Python values are embedded as a small universe [pyval] of JSON-shaped
  data; a Python exception is an explicit [Raise] result.  Finite floats
  are represented by the rational they denote and arithmetic on them is
  exact (binary64 rounding and overflow are not modelled); [nan] and the
  two infinities are kept, since [json.load] accepts them.  Strings are
  byte strings; [lower]/[upper] act on ASCII letters only. *)

From Stdlib Require Import String Ascii List ZArith QArith Qround Bool Lia.
From Stdlib Require Import DecimalString.
Import ListNotations.
Open Scope string_scope.
Open Scope Z_scope.
Set Warnings "-register-all".


(* ================================================================== *)
(** * Python values, exceptions and the operations the sources use     *)
(* ================================================================== *)

Module Py.

Inductive pyfloat : Type :=
| FNan
| FInf (negative : bool)
| FFin (q : Q).

Inductive pyval : Type :=
| PNone
| PBool (b : bool)
| PInt (z : Z)
| PFloat (f : pyfloat)
| PStr (s : string)
| PList (l : list pyval)
| PDict (d : list (string * pyval)).

(** A Python dict is an association list in insertion order with
    unique keys. *)
Definition dict := list (string * pyval).

Inductive exn_kind : Type :=
| TypeError | AttributeError | KeyError | ZeroDivisionError
| OSError | FileNotFoundError | JSONDecodeError.

Record exn : Type := Exn { kind : exn_kind; str_of_exn : string }.

Inductive res (A : Type) : Type :=
| Ok (a : A)
| Raise (e : exn).
Arguments Ok {A} a.
Arguments Raise {A} e.

Definition bind {A B} (m : res A) (k : A -> res B) : res B :=
  match m with
  | Ok a => k a
  | Raise e => Raise e
  end.

(** [try: body  except Exception as e: handler e] *)
Definition try_except {A} (body : res A) (handler : exn -> res A) : res A :=
  match body with
  | Ok a => Ok a
  | Raise e => handler e
  end.

Definition type_name (v : pyval) : string :=
  match v with
  | PNone => "NoneType"
  | PBool _ => "bool"
  | PInt _ => "int"
  | PFloat _ => "float"
  | PStr _ => "str"
  | PList _ => "list"
  | PDict _ => "dict"
  end.

Definition no_attribute (v : pyval) (attr : string) : exn :=
  Exn AttributeError
      ("'" ++ type_name v ++ "' object has no attribute '" ++ attr ++ "'").

Definition type_error (msg : string) : exn := Exn TypeError msg.

(** ** Dictionaries *)

Fixpoint lookup (k : string) (d : dict) : option pyval :=
  match d with
  | [] => None
  | (k', v) :: d' => if String.eqb k k' then Some v else lookup k d'
  end.

Definition has_key (k : string) (d : dict) : bool :=
  match lookup k d with Some _ => true | None => false end.

Definition keys (d : dict) : list pyval := map (fun kv => PStr (fst kv)) d.

(** [d.get(k, default)] on a dict. *)
Definition get_or (d : dict) (k : string) (default : pyval) : pyval :=
  match lookup k d with Some v => v | None => default end.

(** [v.get(k, default)] on an arbitrary value: only dicts have [get]. *)
Definition py_get (v : pyval) (k : string) (default : pyval) : res pyval :=
  match v with
  | PDict d => Ok (get_or d k default)
  | _ => Raise (no_attribute v "get")
  end.

(** ** Strings *)

Definition lower_ascii (c : ascii) : ascii :=
  let n := nat_of_ascii c in
  if andb (Nat.leb 65 n) (Nat.leb n 90) then ascii_of_nat (n + 32) else c.

Definition upper_ascii (c : ascii) : ascii :=
  let n := nat_of_ascii c in
  if andb (Nat.leb 97 n) (Nat.leb n 122) then ascii_of_nat (n - 32) else c.

(** [s.lower()] on the letters A to Z; this is Python's [str.lower()]
    on ASCII strings, not beyond. *)
Fixpoint lower (s : string) : string :=
  match s with
  | EmptyString => EmptyString
  | String c s' => String (lower_ascii c) (lower s')
  end.

Fixpoint upper (s : string) : string :=
  match s with
  | EmptyString => EmptyString
  | String c s' => String (upper_ascii c) (upper s')
  end.

(** [needle in hay] for two strings. *)
Fixpoint contains (needle hay : string) : bool :=
  if String.prefix needle hay then true
  else match hay with
       | EmptyString => false
       | String _ hay' => contains needle hay'
       end.

(** [s * n] *)
Fixpoint repeat_string (s : string) (n : nat) : string :=
  match n with
  | O => EmptyString
  | S n' => s ++ repeat_string s n'
  end.

(** ** Comparison with a string literal: [v == 'lit'] *)
Definition eq_str (v : pyval) (lit : string) : bool :=
  match v with
  | PStr s => String.eqb s lit
  | _ => false
  end.

(** ** Truthiness *)
Definition truthy (v : pyval) : bool :=
  match v with
  | PNone => false
  | PBool b => b
  | PInt z => negb (z =? 0)
  | PFloat FNan => true
  | PFloat (FInf _) => true
  | PFloat (FFin q) => negb (Qeq_bool q 0)
  | PStr s => negb (String.eqb s "")
  | PList l => match l with [] => false | _ => true end
  | PDict d => match d with [] => false | _ => true end
  end.

(** ** Iteration: [for x in v] *)
Fixpoint chars (s : string) : list pyval :=
  match s with
  | EmptyString => []
  | String c s' => PStr (String c EmptyString) :: chars s'
  end.

Definition iter (v : pyval) : res (list pyval) :=
  match v with
  | PList l => Ok l
  | PDict d => Ok (keys d)
  | PStr s => Ok (chars s)
  | _ => Raise (type_error ("'" ++ type_name v ++ "' object is not iterable"))
  end.

(** [for x in l: ...] where the body may raise: left-to-right map. *)
Fixpoint mapM {A B} (f : A -> res B) (l : list A) : res (list B) :=
  match l with
  | [] => Ok []
  | x :: l' => bind (f x) (fun y => bind (mapM f l') (fun ys => Ok (y :: ys)))
  end.

(** A list comprehension [[a for a in l if p a]] whose test may raise. *)
Fixpoint filterM {A} (p : A -> res bool) (l : list A) : res (list A) :=
  match l with
  | [] => Ok []
  | x :: l' =>
      bind (p x) (fun b =>
      bind (filterM p l') (fun ys => Ok (if b then x :: ys else ys)))
  end.

(** [s in container] for a string [s]: key membership for a dict, element
    membership for a list, substring search for a string. *)
Definition contains_str (container : pyval) (s : string) : res bool :=
  match container with
  | PDict d => Ok (has_key s d)
  | PList l => Ok (existsb (fun x => eq_str x s) l)
  | PStr t => Ok (contains s t)
  | _ => Raise (type_error ("argument of type '" ++ type_name container
                            ++ "' is not iterable"))
  end.

(** [container[s]] for a string [s]. *)
Definition subscript_str (container : pyval) (s : string) : res pyval :=
  match container with
  | PDict d => match lookup s d with
               | Some v => Ok v
               | None => Raise (Exn KeyError ("'" ++ s ++ "'"))
               end
  | PList _ => Raise (type_error "list indices must be integers or slices, not str")
  | PStr _ => Raise (type_error "string indices must be integers, not 'str'")
  | _ => Raise (type_error ("'" ++ type_name container
                            ++ "' object is not subscriptable"))
  end.

(** [list(v.keys())] *)
Definition keys_of (v : pyval) : res (list pyval) :=
  match v with
  | PDict d => Ok (keys d)
  | _ => Raise (no_attribute v "keys")
  end.

(** [v.lower()] *)
Definition py_lower (v : pyval) : res string :=
  match v with
  | PStr s => Ok (lower s)
  | _ => Raise (no_attribute v "lower")
  end.

(** ** Numbers: [int] (with [bool] as 0/1) and [float] *)

Inductive num : Type :=
| NInt (z : Z)
| NFloat (f : pyfloat).

Definition as_num (v : pyval) : option num :=
  match v with
  | PBool b => Some (NInt (if b then 1 else 0))
  | PInt z => Some (NInt z)
  | PFloat f => Some (NFloat f)
  | _ => None
  end.

Definition of_num (n : num) : pyval :=
  match n with
  | NInt z => PInt z
  | NFloat f => PFloat f
  end.

Definition to_float (n : num) : pyfloat :=
  match n with
  | NInt z => FFin (inject_Z z)
  | NFloat f => f
  end.

Definition Qlt_bool (a b : Q) : bool := negb (Qle_bool b a).

(** [f < g] on floats; every comparison with [nan] is false. *)
Definition flt (f g : pyfloat) : bool :=
  match f, g with
  | FNan, _ | _, FNan => false
  | FInf true, FInf true => false
  | FInf true, _ => true
  | _, FInf true => false
  | FInf false, _ => false
  | _, FInf false => true
  | FFin a, FFin b => Qlt_bool a b
  end.

Definition feq (f g : pyfloat) : bool :=
  match f, g with
  | FFin a, FFin b => Qeq_bool a b
  | FInf s, FInf t => Bool.eqb s t
  | _, _ => false
  end.

Definition num_lt (a b : num) : bool :=
  match a, b with
  | NInt x, NInt y => x <? y
  | _, _ => flt (to_float a) (to_float b)
  end.

Definition num_eq (a b : num) : bool :=
  match a, b with
  | NInt x, NInt y => x =? y
  | _, _ => feq (to_float a) (to_float b)
  end.

Definition num_gt (a b : num) : bool := num_lt b a.
Definition num_ge (a b : num) : bool := num_lt b a || num_eq a b.

Definition unorderable (op : string) (v : pyval) (rhs : string) : exn :=
  type_error ("'" ++ op ++ "' not supported between instances of '"
              ++ type_name v ++ "' and '" ++ rhs ++ "'").

(** [v < z], [v > z], [v >= z], [v == z] for an integer literal [z]. *)
Definition lt_int (v : pyval) (z : Z) : res bool :=
  match as_num v with
  | Some n => Ok (num_lt n (NInt z))
  | None => Raise (unorderable "<" v "int")
  end.

Definition gt_int (v : pyval) (z : Z) : res bool :=
  match as_num v with
  | Some n => Ok (num_gt n (NInt z))
  | None => Raise (unorderable ">" v "int")
  end.

Definition ge_int (v : pyval) (z : Z) : res bool :=
  match as_num v with
  | Some n => Ok (num_ge n (NInt z))
  | None => Raise (unorderable ">=" v "int")
  end.

Definition eq_int (v : pyval) (z : Z) : bool :=
  match as_num v with
  | Some n => num_eq n (NInt z)
  | None => false
  end.

(** ** Arithmetic *)

Definition fadd (f g : pyfloat) : pyfloat :=
  match f, g with
  | FNan, _ | _, FNan => FNan
  | FInf s, FInf t => if Bool.eqb s t then FInf s else FNan
  | FInf s, FFin _ => FInf s
  | FFin _, FInf t => FInf t
  | FFin a, FFin b => FFin (Qred (a + b))
  end.

Definition fneg (f : pyfloat) : pyfloat :=
  match f with
  | FNan => FNan
  | FInf s => FInf (negb s)
  | FFin a => FFin (Qred (- a))
  end.

Definition num_add (a b : num) : num :=
  match a, b with
  | NInt x, NInt y => NInt (x + y)
  | _, _ => NFloat (fadd (to_float a) (to_float b))
  end.

Definition num_sub (a b : num) : num :=
  match a, b with
  | NInt x, NInt y => NInt (x - y)
  | _, _ => NFloat (fadd (to_float a) (fneg (to_float b)))
  end.

(** [x * z] and [x / z] for a float [x] and an integer [z]. *)
Definition fmul_int (f : pyfloat) (z : Z) : pyfloat :=
  match f with
  | FNan => FNan
  | FInf s => if z =? 0 then FNan else FInf (xorb s (z <? 0))
  | FFin a => FFin (Qred (a * inject_Z z))
  end.

Definition fdiv_int (f : pyfloat) (z : Z) : pyfloat :=
  match f with
  | FNan => FNan
  | FInf s => FInf (xorb s (z <? 0))
  | FFin a => FFin (Qred (a / inject_Z z))
  end.

(** True division [x / z]: the result is always a float.  An integer
    beyond float range, on which Python raises [OverflowError], is
    outside the embedding: arithmetic is exact here. *)
Definition truediv_int (x : num) (z : Z) : res num :=
  if z =? 0 then Raise (Exn ZeroDivisionError "division by zero")
  else Ok (NFloat (fdiv_int (to_float x) z)).

(** [max(a, b)] and [min(a, b)] keep the first argument unless the second
    is strictly greater (smaller). *)
Definition max2 (a b : num) : num := if num_gt b a then b else a.
Definition min2 (a b : num) : num := if num_lt b a then b else a.

(** Rounding a rational to the nearest integer, ties to even. *)
Definition round_half_even (q : Q) : Z :=
  let fl := Qfloor q in
  match Qcompare (q - inject_Z fl) (1 # 2) with
  | Lt => fl
  | Gt => fl + 1
  | Eq => if Z.even fl then fl else fl + 1
  end.

(** [round(x, ndigits)] for [ndigits >= 0]: an int is returned unchanged,
    a float is rounded to [ndigits] decimals. *)
Definition round_nd (x : num) (ndigits : nat) : num :=
  match x with
  | NInt z => NInt z
  | NFloat (FFin q) =>
      let scale := Z.pow 10 (Z.of_nat ndigits) in
      NFloat (FFin (Qred (inject_Z (round_half_even (q * inject_Z scale))
                          / inject_Z scale)))
  | NFloat f => NFloat f
  end.

End Py.

Import Py.

(* ================================================================== *)
(** * The [data/] directory                                            *)
(* ================================================================== *)

(** The tools keep their state in JSON files under [data/].  A file is
    represented by what [open] and [json.load] make of it; [json.dump]
    writes a text that decodes to the value dumped. *)
Module Data.

Inductive file_state : Type :=
| Absent                      (* no such file *)
| Unreadable (msg : string)   (* [open] fails with another OSError *)
| Garbled (msg : string)      (* not JSON: [json.load] raises JSONDecodeError *)
| Json (v : pyval).           (* a JSON text that decodes to [v] *)

(** What happens when the action log is opened for writing. *)
Inductive write_fault : Type :=
| OpenFails (msg : string)                       (* the file is left as it is *)
| DumpFails (msg : string) (leftover : file_state).  (* truncated, then failure *)

Record store : Type := Store {
  historical_actions : file_state;         (* data/historical_actions.json *)
  historical_actions_fault : option write_fault;
  historical_customer_data : file_state    (* data/historical_customer_data.json *)
}.

(** [os.path.exists(path)] *)
Definition exists_ (f : file_state) : bool :=
  match f with
  | Absent => false
  | _ => true
  end.

(** [with open(path, 'r') as f: json.load(f)] *)
Definition load (f : file_state) : res pyval :=
  match f with
  | Absent => Raise (Exn FileNotFoundError "[Errno 2] No such file or directory")
  | Unreadable msg => Raise (Exn OSError msg)
  | Garbled msg => Raise (Exn JSONDecodeError msg)
  | Json v => Ok v
  end.

(** [with open(actions_file, 'w') as f: json.dump(v, f, indent=2)] *)
Definition dump_actions (v : pyval) (st : store) : res unit * store :=
  match historical_actions_fault st with
  | None =>
      (Ok tt, Store (Json v) None (historical_customer_data st))
  | Some (OpenFails msg) =>
      (Raise (Exn OSError msg), st)
  | Some (DumpFails msg leftover) =>
      (Raise (Exn OSError msg),
       Store leftover (historical_actions_fault st) (historical_customer_data st))
  end.

End Data.

Import Data.

Definition half : pyval := PFloat (FFin (1 # 2)).

(* ================================================================== *)
(** * tools/historical_patterns_tool.py                                *)
(* ================================================================== *)

Module historical_patterns_tool.

(** [query_historical_patterns(segment=None, data_type="all")].
    Only [FileNotFoundError] and [json.JSONDecodeError] are handled; any
    other exception leaves the function. *)
Definition query_historical_patterns
    (st : store) (segment : option string) (data_type : string) : res pyval :=
  match load (historical_customer_data st) with
  | Raise (Exn FileNotFoundError _) =>
      Ok (PDict [("error", PStr "Historical data file not found")])
  | Raise (Exn JSONDecodeError _) =>
      Ok (PDict [("error", PStr "Error parsing historical data")])
  | Raise e => Raise e
  | Ok historical_data =>
      let by_segment :=
        match segment with
        | Some s => if String.eqb s "" then None else Some s
        | None => None
        end in
      match by_segment with
      | Some s =>
          bind (py_get historical_data "customer_segments" (PDict [])) (fun segments =>
          bind (contains_str segments s) (fun found =>
          if found then
            bind (subscript_str segments s) (fun data =>
            Ok (PDict [("segment", PStr s); ("data", data)]))
          else
            bind (keys_of segments) (fun ks =>
            Ok (PDict [("error", PStr ("Segment '" ++ s ++ "' not found"));
                       ("available_segments", PList ks)]))))
      | None =>
          if String.eqb data_type "segments" then
            bind (py_get historical_data "customer_segments" (PDict [])) (fun v =>
            Ok (PDict [("customer_segments", v)]))
          else if String.eqb data_type "behavioral_patterns" then
            bind (py_get historical_data "behavioral_patterns" (PDict [])) (fun v =>
            Ok (PDict [("behavioral_patterns", v)]))
          else if String.eqb data_type "product_insights" then
            bind (py_get historical_data "product_category_insights" (PDict [])) (fun v =>
            Ok (PDict [("product_category_insights", v)]))
          else Ok historical_data
      end
  end.

(** The argument of [find_similar_customer_segment] is a string; it is
    represented by the outcome of [json.loads] on it. *)
Inductive json_text : Type :=
| Malformed              (* [json.loads] raises JSONDecodeError *)
| Encodes (v : pyval).   (* [json.loads] returns [v] *)

(** Lines 71-75: a text that does not decode yields the empty profile. *)
Definition customer_profile_of (customer_profile_json : json_text) : pyval :=
  match customer_profile_json with
  | Encodes v => v
  | Malformed => PDict []
  end.

(** Lines 78-96: the five attributes and the cascade that picks the
    segment. *)
Definition matched_segment_of (customer_profile : pyval) : res string :=
  bind (py_get customer_profile "churn_risk" (PStr "low")) (fun churn_risk =>
  bind (py_get customer_profile "cart_status" (PStr "empty")) (fun cart_status =>
  bind (py_get customer_profile "segment" (PStr "medium_value")) (fun segment =>
  bind (py_get customer_profile "total_orders" (PInt 0)) (fun total_orders =>
  bind (py_get customer_profile "days_since_last_purchase" (PInt 0))
       (fun days_since_purchase =>
  if eq_str cart_status "abandoned" then Ok "price_sensitive_cart_abandoners"
  else if eq_str segment "vip" then Ok "vip_customers"
  else
    bind (if eq_str churn_risk "high" then Ok true
          else gt_int days_since_purchase 60) (fun churned =>
    if churned then Ok "high_churn_risk"
    else if eq_int total_orders 0 then Ok "first_time_browsers"
    else
      bind (ge_int total_orders 3) (fun repeat =>
      if repeat then Ok "repeat_buyers"
      else Ok "first_time_browsers"))))))).

Definition find_similar_customer_segment
    (st : store) (customer_profile_json : json_text) : res pyval :=
  let customer_profile := customer_profile_of customer_profile_json in
  bind (matched_segment_of customer_profile) (fun matched_segment =>
  bind (query_historical_patterns st (Some matched_segment) "all") (fun result =>
  bind (py_get result "data" (PDict [])) (fun segment_data =>
  Ok (PDict [("matched_segment", PStr matched_segment);
             ("segment_data", segment_data);
             ("confidence", PFloat (FFin (17 # 20)))])))).

(** The loop of [get_action_success_rate]: the first stored action whose
    name contains the action type decides. *)
Fixpoint first_matching_rate (needle : string) (actions : list pyval)
  : res pyval :=
  match actions with
  | [] => Ok half
  | action :: rest =>
      bind (py_get action "action" (PStr "")) (fun name =>
      bind (py_lower name) (fun lname =>
      if contains needle lname then py_get action "success_rate" half
      else first_matching_rate needle rest))
  end.

Definition get_action_success_rate
    (st : store) (action_type : string) (segment : string) : res pyval :=
  bind (query_historical_patterns st (Some segment) "all") (fun segment_data =>
  bind (contains_str segment_data "error") (fun is_error =>
  if is_error then Ok half
  else
    bind (py_get segment_data "data" (PDict [])) (fun data =>
    bind (py_get data "successful_actions" (PList [])) (fun successful_actions =>
    bind (iter successful_actions) (fun actions =>
    first_matching_rate (lower action_type) actions))))).

End historical_patterns_tool.

(* ================================================================== *)
(** * tools/results_tracker_tool.py                                    *)
(* ================================================================== *)

Module results_tracker_tool.

(** Code that reads and writes the store and may raise. *)
Definition io (A : Type) : Type := store -> res A * store.

Definition ret {A} (a : A) : io A := fun st => (Ok a, st).
Definition lift {A} (r : res A) : io A := fun st => (r, st).

Definition bind_io {A B} (m : io A) (k : A -> io B) : io B :=
  fun st =>
    match m st with
    | (Ok a, st') => k a st'
    | (Raise e, st') => (Raise e, st')
    end.

(** [try: body  except Exception as e: handler e]; what the body wrote
    before it raised stays written. *)
Definition try_except_io {A} (body : io A) (handler : exn -> io A) : io A :=
  fun st =>
    match body st with
    | (Ok a, st') => (Ok a, st')
    | (Raise e, st') => handler e st'
    end.

Notation "x <- m ;; k" := (bind_io m (fun x => k))
  (at level 61, m at next level, right associativity).

(** Lines 38-50.  [now] is [datetime.now().isoformat()]. *)
Definition action_record
    (now customer_id action_type action_status segment : string)
    (predicted_roi estimated_cost : pyval) (channel scenario : string) : pyval :=
  PDict [("timestamp", PStr now);
         ("customer_id", PStr customer_id);
         ("customer_segment", PStr segment);
         ("scenario_type", PStr scenario);
         ("action_type", PStr action_type);
         ("channel", PStr channel);
         ("estimated_cost", estimated_cost);
         ("predicted_roi", predicted_roi);
         ("action_status", PStr action_status);
         ("approved_by",
          PStr (if String.eqb action_status "scheduled"
                then "human" else "rejected"))].

(** [all_actions.append(x)]: only a list has [append]. *)
Definition append (all_actions x : pyval) : res pyval :=
  match all_actions with
  | PList l => Ok (PList (l ++ [x]))
  | _ => Raise (no_attribute all_actions "append")
  end.

(** [len(v)] *)
Definition len (v : pyval) : res Z :=
  match v with
  | PList l => Ok (Z.of_nat (length l))
  | PDict d => Ok (Z.of_nat (length d))
  | PStr s => Ok (Z.of_nat (String.length s))
  | _ => Raise (type_error ("object of type '" ++ type_name v ++ "' has no len()"))
  end.

Definition success_result
    (action_status segment scenario : string) (record : pyval) (total : Z)
  : pyval :=
  PDict [("status", PStr "success");
         ("message", PStr ("Action recorded as " ++ upper action_status));
         ("recorded_data", record);
         ("total_historical_actions", PInt total);
         ("learning_impact",
          PStr ("This data will improve future predictions for " ++ segment
                ++ " customers in " ++ scenario ++ " scenarios"))].

Definition error_result (e : exn) : pyval :=
  PDict [("status", PStr "error");
         ("message", PStr ("Failed to record action: " ++ str_of_exn e))].

(** [record_result(...)], lines 12-82.  [channel] and [scenario] default
    to ["email"] and ["general"] at the call site. *)
Definition record_result
    (now customer_id action_type action_status segment : string)
    (predicted_roi estimated_cost : pyval) (channel scenario : string)
  : io pyval :=
  let record :=
    action_record now customer_id action_type action_status segment
                  predicted_roi estimated_cost channel scenario in
  try_except_io
    (loaded <- (fun st =>
                  if exists_ (historical_actions st)
                  then (load (historical_actions st), st)
                  else (Ok (PList []), st)) ;;
     all_actions <- lift (append loaded record) ;;
     _ <- dump_actions all_actions ;;
     total <- lift (len all_actions) ;;
     ret (success_result action_status segment scenario record total))
    (fun e => ret (error_result e)).

End results_tracker_tool.

(* ================================================================== *)
(** * tools/analytics_tool.py                                          *)
(* ================================================================== *)

Module analytics_tool.

(** [a == b] on Python values: numbers compare by value across [bool],
    [int] and [float]; lists elementwise; dicts as finite maps. *)
Fixpoint py_eq (a b : pyval) {struct a} : bool :=
  match a, b with
  | PNone, PNone => true
  | PStr s, PStr t => String.eqb s t
  | PList l, PList m =>
      (fix all2 (l : list pyval) (m : list pyval) {struct l} : bool :=
         match l, m with
         | [], [] => true
         | x :: l', y :: m' => py_eq x y && all2 l' m'
         | _, _ => false
         end) l m
  | PDict d, PDict e =>
      Nat.eqb (length d) (length e)
      && (fix sub (d : list (string * pyval)) {struct d} : bool :=
            match d with
            | [] => true
            | (k, v) :: d' =>
                match lookup k e with
                | Some w => py_eq v w
                | None => false
                end && sub d'
            end) d
  | _, _ =>
      match as_num a, as_num b with
      | Some x, Some y => num_eq x y
      | _, _ => false
      end
  end.

(** [get_historical_actions(customer_id=None)]: only a missing file is
    handled. *)
Definition get_historical_actions
    (st : store) (customer_id : option string) : res pyval :=
  match load (historical_actions st) with
  | Raise (Exn FileNotFoundError _) => Ok (PList [])
  | Raise e => Raise e
  | Ok actions =>
      let wanted :=
        match customer_id with
        | Some c => if String.eqb c "" then None else Some c
        | None => None
        end in
      match wanted with
      | Some c =>
          bind (iter actions) (fun l =>
          bind (filterM (fun a => bind (py_get a "customer_id" PNone)
                                       (fun v => Ok (eq_str v c))) l)
               (fun r => Ok (PList r)))
      | None => Ok actions
      end
  end.

(** [sum(1 for a in filtered if a.get(key, False))] *)
Definition count_flag (key : string) (filtered : list pyval) : res Z :=
  bind (filterM (fun a => bind (py_get a key (PBool false))
                               (fun v => Ok (truthy v))) filtered)
       (fun hits => Ok (Z.of_nat (length hits))).

(** [sum(a.get('roi', 0) for a in filtered)] *)
Fixpoint sum_roi (acc : num) (filtered : list pyval) : res num :=
  match filtered with
  | [] => Ok acc
  | a :: rest =>
      bind (py_get a "roi" (PInt 0)) (fun v =>
      match as_num v with
      | Some n => sum_roi (num_add acc n) rest
      | None =>
          Raise (type_error ("unsupported operand type(s) for +: '"
                             ++ type_name (of_num acc) ++ "' and '"
                             ++ type_name v ++ "'"))
      end)
  end.

(** [round(count / total * 100, 2)] *)
Definition percentage (count total : Z) : res pyval :=
  bind (truediv_int (NInt count) total) (fun ratio =>
  Ok (of_num (round_nd (NFloat (fmul_int (to_float ratio) 100)) 2))).

Definition get_action_performance_by_type
    (st : store) (action_type : pyval) : res pyval :=
  bind (get_historical_actions st None) (fun actions =>
  bind (iter actions) (fun l =>
  bind (filterM (fun a => bind (py_get a "action_type" PNone)
                               (fun t => Ok (py_eq t action_type))) l)
       (fun filtered =>
  match filtered with
  | [] =>
      Ok (PDict [("action_type", action_type);
                 ("total_actions", PInt 0);
                 ("avg_roi", PInt 0);
                 ("conversion_rate", PInt 0);
                 ("open_rate", PInt 0);
                 ("click_rate", PInt 0)])
  | _ =>
      let total := Z.of_nat (length filtered) in
      bind (count_flag "converted" filtered) (fun conversions =>
      bind (count_flag "opened" filtered) (fun opens =>
      bind (count_flag "clicked" filtered) (fun clicks =>
      bind (sum_roi (NInt 0) filtered) (fun roi_total =>
      bind (truediv_int roi_total total) (fun avg_roi =>
      bind (percentage conversions total) (fun conversion_rate =>
      bind (percentage opens total) (fun open_rate =>
      bind (percentage clicks total) (fun click_rate =>
      Ok (PDict [("action_type", action_type);
                 ("total_actions", PInt total);
                 ("avg_roi", of_num (round_nd avg_roi 2));
                 ("conversion_rate", conversion_rate);
                 ("open_rate", open_rate);
                 ("click_rate", click_rate)])))))))))
  end))).

(** A value used as an operand of [/], [+], [min], [max]. *)
Definition operand (v : pyval) : res num :=
  match as_num v with
  | Some n => Ok n
  | None => Raise (type_error ("unsupported operand type: '"
                               ++ type_name v ++ "'"))
  end.

(** [min(10, max(1, x))] *)
Definition clamp (x : num) : num := min2 (NInt 10) (max2 (NInt 1) x).

(** [score_action(action)], lines 149-188. *)
Definition score_action (st : store) (action : dict) : res pyval :=
  let action_type := get_or action "action_type" (PStr "unknown") in
  let channel := get_or action "channel" (PStr "email") in
  let estimated_cost := get_or action "estimated_cost" (PInt 0) in
  bind (get_action_performance_by_type st action_type) (fun perf =>
  bind (py_get perf "conversion_rate" (PInt 0)) (fun conversion_rate =>
  bind (py_get perf "avg_roi" (PInt 0)) (fun avg_roi =>
  bind (operand avg_roi) (fun roi =>
  bind (truediv_int roi 2) (fun halved =>
  let score := clamp halved in
  bind (lt_int estimated_cost 50) (fun cheap =>
  bind (if cheap then Ok (num_add score (NInt 1))
        else bind (gt_int estimated_cost 500) (fun dear =>
             Ok (if dear then num_sub score (NInt 1) else score)))
       (fun score =>
  let score :=
    if eq_str channel "email" then num_add score (NFloat (FFin (1 # 2)))
    else score in
  Ok (PDict [("action_id", get_or action "action_id" PNone);
             ("roi_score", of_num (round_nd (clamp score) 1));
             ("predicted_roi", avg_roi);
             ("conversion_probability", conversion_rate);
             ("confidence", PStr "medium")])))))))).

End analytics_tool.

(* ================================================================== *)
(** * The agent framework objects the sources construct                *)
(* ================================================================== *)

Module adk.

(** [types.HttpRetryOptions(...)] *)
Record HttpRetryOptions : Type := {
  attempts : Z;
  exp_base : Z;
  initial_delay : Z;
  http_status_codes : list Z
}.

(** [Gemini(model=..., retry_options=...)] *)
Record Gemini : Type := {
  model_name : string;
  retry_options : HttpRetryOptions
}.

(** [Agent(name=..., model=..., output_key=..., tools=[...])]; the
    instruction text is left out, tools are named by their function. *)
Record Agent : Type := {
  name : string;
  model : Gemini;
  output_key : string;
  tools : list string
}.

(** The stage tree: an LLM agent is a leaf, [SequentialAgent] and
    [ParallelAgent] are the two composites. *)
Inductive BaseAgent : Type :=
| LlmAgent (a : Agent)
| SequentialAgent (name : string) (sub_agents : list BaseAgent)
                  (description : string)
| ParallelAgent (name : string) (sub_agents : list BaseAgent)
                (description : string).

(** The LLM agents of a tree, left to right. *)
Fixpoint leaves (t : BaseAgent) : list Agent :=
  match t with
  | LlmAgent a => [a]
  | SequentialAgent _ subs _ => flat_map leaves subs
  | ParallelAgent _ subs _ => flat_map leaves subs
  end.

(** [ToolConfirmation]: the decision the human recorded. *)
Record ToolConfirmation : Type := {
  hint : string;
  confirmed : bool;
  payload : pyval
}.

(** [ToolContext], as far as the approval tool touches it: the recorded
    decision, if any, and the confirmation requests issued so far. *)
Record ToolContext : Type := {
  tool_confirmation : option ToolConfirmation;
  requested_tool_confirmations : list (string * pyval)
}.

(** [tool_context.request_confirmation(hint=..., payload=...)] *)
Definition request_confirmation
    (tool_context : ToolContext) (hint : string) (payload : pyval)
  : ToolContext :=
  {| tool_confirmation := tool_confirmation tool_context;
     requested_tool_confirmations :=
       requested_tool_confirmations tool_context ++ [(hint, payload)] |}.

End adk.

Import adk.

(* ================================================================== *)
(** * agents/agent_*_adk.py                                            *)
(* ================================================================== *)

Module agent_0_proxy_adk.
Definition retry_config : HttpRetryOptions :=
  {| attempts := 5; exp_base := 7; initial_delay := 1;
     http_status_codes := [429; 500; 503; 504] |}.
Definition proxy_agent : Agent :=
  {| name := "ProxyCustomerAgent";
     model := {| model_name := "gemini-2.5-flash-lite";
                 retry_options := retry_config |};
     output_key := "generated_customer_profile";
     tools := [] |}.
End agent_0_proxy_adk.

Module agent_1_profiler_adk.
Definition retry_config : HttpRetryOptions :=
  {| attempts := 5; exp_base := 7; initial_delay := 1;
     http_status_codes := [429; 500; 503; 504] |}.
Definition customer_profiler_agent : Agent :=
  {| name := "CustomerProfilerAgent";
     model := {| model_name := "gemini-2.5-flash-lite";
                 retry_options := retry_config |};
     output_key := "customer_analysis";
     tools := [] |}.
End agent_1_profiler_adk.

Module agent_2_pattern_adk.
Definition retry_config : HttpRetryOptions :=
  {| attempts := 5; exp_base := 7; initial_delay := 1;
     http_status_codes := [429; 500; 503; 504] |}.
Definition pattern_matcher_agent : Agent :=
  {| name := "PatternMatcherAgent";
     model := {| model_name := "gemini-2.5-flash-lite";
                 retry_options := retry_config |};
     output_key := "historical_match";
     tools := ["query_historical_patterns"; "find_similar_customer_segment"] |}.
End agent_2_pattern_adk.

Module agent_3_generator_adk.
Definition retry_config : HttpRetryOptions :=
  {| attempts := 5; exp_base := 7; initial_delay := 1;
     http_status_codes := [429; 500; 503; 504] |}.
Definition action_generator_agent : Agent :=
  {| name := "ActionGeneratorAgent";
     model := {| model_name := "gemini-2.5-flash-lite";
                 retry_options := retry_config |};
     output_key := "generated_actions";
     tools := [] |}.
End agent_3_generator_adk.

Module agent_4_validator_adk.
Definition retry_config : HttpRetryOptions :=
  {| attempts := 5; exp_base := 7; initial_delay := 1;
     http_status_codes := [429; 500; 503; 504] |}.
Definition validator_agent : Agent :=
  {| name := "ValidatorAgent";
     model := {| model_name := "gemini-2.5-flash-lite";
                 retry_options := retry_config |};
     output_key := "validation_results";
     tools := [] |}.
End agent_4_validator_adk.

Module agent_5_scorer_adk.
Definition retry_config : HttpRetryOptions :=
  {| attempts := 5; exp_base := 7; initial_delay := 1;
     http_status_codes := [429; 500; 503; 504] |}.
Definition scorer_agent : Agent :=
  {| name := "ScorerAgent";
     model := {| model_name := "gemini-2.5-flash-lite";
                 retry_options := retry_config |};
     output_key := "scored_actions";
     tools := [] |}.
End agent_5_scorer_adk.

Module agent_6_timing_adk.
Definition retry_config : HttpRetryOptions :=
  {| attempts := 5; exp_base := 7; initial_delay := 1;
     http_status_codes := [429; 500; 503; 504] |}.
Definition timing_agent : Agent :=
  {| name := "TimingAgent";
     model := {| model_name := "gemini-2.5-flash-lite";
                 retry_options := retry_config |};
     output_key := "optimal_timing";
     tools := ["calculate_send_time"] |}.
End agent_6_timing_adk.

Module agent_7_content_adk.
Definition retry_config : HttpRetryOptions :=
  {| attempts := 5; exp_base := 7; initial_delay := 1;
     http_status_codes := [429; 500; 503; 504] |}.
Definition content_agent : Agent :=
  {| name := "ContentAgent";
     model := {| model_name := "gemini-2.5-flash-lite";
                 retry_options := retry_config |};
     output_key := "marketing_content";
     tools := [] |}.
End agent_7_content_adk.

Module agent_8_approval_adk.
Definition retry_config : HttpRetryOptions :=
  {| attempts := 5; exp_base := 7; initial_delay := 1;
     http_status_codes := [429; 500; 503; 504] |}.

Definition newline : string := String (ascii_of_nat 10) EmptyString.

(** What one call does besides returning: the tool context it leaves and
    the lines it printed. *)
Record outcome : Type := {
  returned : pyval;
  context : ToolContext;
  printed : list string
}.

(** [request_human_approval(action_summary, estimated_cost, expected_roi,
    tool_context)], lines 70-124. *)
Definition request_human_approval
    (action_summary estimated_cost expected_roi : string)
    (tool_context : ToolContext) : outcome :=
  match tool_confirmation tool_context with
  | None =>
      let rule := repeat_string "=" 60 in
      {| returned :=
           PDict [("status", PStr "pending");
                  ("message", PStr "Waiting for human approval")];
         context :=
           request_confirmation tool_context "Approve marketing action?"
             (PDict [("action", PStr action_summary);
                     ("cost", PStr estimated_cost);
                     ("roi", PStr expected_roi)]);
         printed :=
           [newline ++ rule;
            "HUMAN APPROVAL REQUIRED";
            rule;
            "Action: " ++ action_summary;
            "Cost: " ++ estimated_cost;
            "Expected ROI: " ++ expected_roi;
            rule ++ newline] |}
  | Some decision =>
      if confirmed decision then
        {| returned :=
             PDict [("status", PStr "approved");
                    ("message", PStr "Action approved by human reviewer");
                    ("approved", PBool true)];
           context := tool_context;
           printed := [] |}
      else
        {| returned :=
             PDict [("status", PStr "rejected");
                    ("message", PStr "Action rejected by human reviewer");
                    ("approved", PBool false)];
           context := tool_context;
           printed := [] |}
  end.

Definition approval_agent : Agent :=
  {| name := "HumanApprovalAgent";
     model := {| model_name := "gemini-2.5-flash-lite";
                 retry_options := retry_config |};
     output_key := "approval_status";
     tools := ["request_human_approval"] |}.
End agent_8_approval_adk.

Module agent_9_tracker_adk.
Definition retry_config : HttpRetryOptions :=
  {| attempts := 5; exp_base := 7; initial_delay := 1;
     http_status_codes := [429; 500; 503; 504] |}.
Definition tracker_agent : Agent :=
  {| name := "ResultsTrackerAgent";
     model := {| model_name := "gemini-2.5-flash-lite";
                 retry_options := retry_config |};
     output_key := "tracking_result";
     tools := ["record_result"] |}.
End agent_9_tracker_adk.

(* ================================================================== *)
(** * coordinator_full.py                                              *)
(* ================================================================== *)

Module coordinator_full.

Definition cluster_1_discovery : BaseAgent :=
  SequentialAgent "DiscoveryCluster"
    [LlmAgent agent_0_proxy_adk.proxy_agent;
     LlmAgent agent_1_profiler_adk.customer_profiler_agent;
     LlmAgent agent_2_pattern_adk.pattern_matcher_agent;
     LlmAgent agent_3_generator_adk.action_generator_agent]
    "Customer discovery and action generation pipeline".

Definition cluster_2_validation : BaseAgent :=
  ParallelAgent "ValidationCluster"
    [LlmAgent agent_4_validator_adk.validator_agent;
     LlmAgent agent_5_scorer_adk.scorer_agent]
    "Parallel validation and scoring of generated actions".

Definition cluster_3_execution : BaseAgent :=
  SequentialAgent "ExecutionCluster"
    [LlmAgent agent_6_timing_adk.timing_agent;
     LlmAgent agent_7_content_adk.content_agent;
     LlmAgent agent_8_approval_adk.approval_agent;
     LlmAgent agent_9_tracker_adk.tracker_agent]
    "Execution planning with human approval and tracking".

Definition nba_orchestrator : BaseAgent :=
  SequentialAgent "NbaOrchestrator"
    [cluster_1_discovery; cluster_2_validation; cluster_3_execution]
    "Complete Next Best Action Orchestrator (10 agents with HITL)".

End coordinator_full.

(* ================================================================== *)
(** * More of Python: ordering, [max]/[min], sums, float arithmetic    *)
(* ================================================================== *)

Module Builtins.

Import analytics_tool.

Definition incomparable (op : string) (a b : pyval) : exn :=
  type_error ("'" ++ op ++ "' not supported between instances of '"
              ++ type_name a ++ "' and '" ++ type_name b ++ "'").

(** [a > b]: numbers by value, strings and lists lexicographically (a
    list comparison looks at the first pair of unequal items); any other
    pair of types is not ordered. *)
Fixpoint py_gt (a b : pyval) {struct a} : res bool :=
  match a, b with
  | PStr s, PStr t => Ok (String.ltb t s)
  | PList l, PList m =>
      (fix lex (l : list pyval) (m : list pyval) {struct l} : res bool :=
         match l, m with
         | [], _ => Ok false
         | _ :: _, [] => Ok true
         | x :: l', y :: m' => if py_eq x y then lex l' m' else py_gt x y
         end) l m
  | _, _ =>
      match as_num a, as_num b with
      | Some x, Some y => Ok (num_gt x y)
      | _, _ => Raise (incomparable ">" a b)
      end
  end.

(** [a < b] *)
Fixpoint py_lt (a b : pyval) {struct a} : res bool :=
  match a, b with
  | PStr s, PStr t => Ok (String.ltb s t)
  | PList l, PList m =>
      (fix lex (l : list pyval) (m : list pyval) {struct l} : res bool :=
         match l, m with
         | _, [] => Ok false
         | [], _ :: _ => Ok true
         | x :: l', y :: m' => if py_eq x y then lex l' m' else py_lt x y
         end) l m
  | _, _ =>
      match as_num a, as_num b with
      | Some x, Some y => Ok (num_lt x y)
      | _, _ => Raise (incomparable "<" a b)
      end
  end.

(** How a value behaves under [if not v] followed by iteration. *)
Inductive sequence_view : Type :=
| Falsy                                      (* [not v] holds *)
| NonEmpty (first : pyval) (rest : list pyval)  (* truthy, items in order *)
| NotIterable (e : exn).                     (* truthy, [for x in v] raises *)

Definition view_sequence (v : pyval) : sequence_view :=
  match v with
  | PList [] => Falsy
  | PList (first :: rest) => NonEmpty first rest
  | PDict [] => Falsy
  | PDict ((k, _) :: d) => NonEmpty (PStr k) (keys d)
  | PStr EmptyString => Falsy
  | PStr (String c s) => NonEmpty (PStr (String c EmptyString)) (chars s)
  | _ =>
      if truthy v then
        NotIterable (type_error ("'" ++ type_name v
                                 ++ "' object is not iterable"))
      else Falsy
  end.

(** The loop of [max(items, key=key)] once the first item is taken: a
    later item replaces the best one only when its key is strictly
    greater. *)
Fixpoint max_loop {A} (key : A -> res pyval) (best : A) (best_key : pyval)
    (rest : list A) : res A :=
  match rest with
  | [] => Ok best
  | x :: rest' =>
      bind (key x) (fun k =>
      bind (py_gt k best_key) (fun greater =>
      if greater then max_loop key x k rest'
      else max_loop key best best_key rest'))
  end.

(** [max(items, key=key)] on a sequence that starts with [first]. *)
Definition max_by {A} (key : A -> res pyval) (first : A) (rest : list A)
  : res A :=
  bind (key first) (fun k => max_loop key first k rest).

Fixpoint min_loop {A} (key : A -> res pyval) (best : A) (best_key : pyval)
    (rest : list A) : res A :=
  match rest with
  | [] => Ok best
  | x :: rest' =>
      bind (key x) (fun k =>
      bind (py_lt k best_key) (fun smaller =>
      if smaller then min_loop key x k rest'
      else min_loop key best best_key rest'))
  end.

(** [min(items, key=key)] on a sequence that starts with [first]. *)
Definition min_by {A} (key : A -> res pyval) (first : A) (rest : list A)
  : res A :=
  bind (key first) (fun k => min_loop key first k rest).

(** [sum(items)]: the items are added to the integer 0 from the left. *)
Fixpoint sum_from (acc : num) (items : list pyval) : res num :=
  match items with
  | [] => Ok acc
  | v :: rest =>
      match as_num v with
      | Some n => sum_from (num_add acc n) rest
      | None =>
          Raise (type_error ("unsupported operand type(s) for +: '"
                             ++ type_name (of_num acc) ++ "' and '"
                             ++ type_name v ++ "'"))
      end
  end.

Definition py_sum (items : list pyval) : res num := sum_from (NInt 0) items.

(** ** Float multiplication and division *)

Definition is_zero (q : Q) : bool := Qeq_bool q 0.
Definition is_negative (q : Q) : bool := Qlt_bool q 0.

Definition fmul (f g : pyfloat) : pyfloat :=
  match f, g with
  | FNan, _ | _, FNan => FNan
  | FInf s, FInf t => FInf (xorb s t)
  | FInf s, FFin b => if is_zero b then FNan else FInf (xorb s (is_negative b))
  | FFin a, FInf t => if is_zero a then FNan else FInf (xorb t (is_negative a))
  | FFin a, FFin b => FFin (Qred (a * b))
  end.

(** [f / g] on floats; division by zero raises. *)
Definition fdiv (f g : pyfloat) : res pyfloat :=
  match f, g with
  | _, FFin b =>
      if is_zero b then Raise (Exn ZeroDivisionError "float division by zero")
      else Ok match f with
              | FNan => FNan
              | FInf s => FInf (xorb s (is_negative b))
              | FFin a => FFin (Qred (a / b))
              end
  | FNan, _ | _, FNan => Ok FNan
  | FInf _, FInf _ => Ok FNan
  | FFin _, FInf _ => Ok (FFin 0)
  end.

Definition num_mul (a b : num) : num :=
  match a, b with
  | NInt x, NInt y => NInt (x * y)
  | _, _ => NFloat (fmul (to_float a) (to_float b))
  end.

Definition binary_operand_error (op : string) (a b : pyval) : exn :=
  type_error ("unsupported operand type(s) for " ++ op ++ ": '"
              ++ type_name a ++ "' and '" ++ type_name b ++ "'").

(** [str(z)] for an integer. *)
Definition str_of_int (z : Z) : string :=
  DecimalString.NilZero.string_of_int (Z.to_int z).

End Builtins.

(* ================================================================== *)
(** * The lookup tables under [data/]                                  *)
(* ================================================================== *)

Module Tables.

(** The files the lookup tools read; none of them is ever written. *)
Record tables : Type := {
  sample_customers : file_state;      (* data/sample_customers.json *)
  product_catalog : file_state;       (* data/product_catalog.json *)
  timing_intelligence : file_state;   (* data/timing_intelligence.json *)
  action_templates : file_state       (* data/action_templates.json *)
}.

End Tables.

Import Builtins Tables.

(* ================================================================== *)
(** * tools/customer_data_tool.py                                      *)
(* ================================================================== *)

Module customer_data_tool.

(** The loop of [get_customer_data]: [customer['customer_id']] is a
    subscript, so a record without that key raises [KeyError]. *)
Fixpoint find_customer (customer_id : string) (customers : list pyval)
  : res pyval :=
  match customers with
  | [] =>
      Ok (PDict [("error", PStr ("Customer " ++ customer_id ++ " not found"))])
  | customer :: rest =>
      bind (subscript_str customer "customer_id") (fun v =>
      if eq_str v customer_id then Ok customer
      else find_customer customer_id rest)
  end.

(** [get_customer_data(customer_id)]: only a missing file is handled. *)
Definition get_customer_data (t : tables) (customer_id : string) : res pyval :=
  match load (sample_customers t) with
  | Raise (Exn FileNotFoundError _) =>
      Ok (PDict [("error", PStr "Customer database not found")])
  | Raise e => Raise e
  | Ok customers => bind (iter customers) (find_customer customer_id)
  end.

(** [get_all_customers()] *)
Definition get_all_customers (t : tables) : res pyval :=
  match load (sample_customers t) with
  | Raise (Exn FileNotFoundError _) => Ok (PList [])
  | Raise e => Raise e
  | Ok customers => Ok customers
  end.

(** [search_customers_by_segment(segment)] *)
Definition search_customers_by_segment (t : tables) (segment : string)
  : res pyval :=
  bind (get_all_customers t) (fun customers =>
  bind (iter customers) (fun l =>
  bind (filterM (fun c => bind (py_get c "segment" PNone)
                               (fun v => Ok (eq_str v segment))) l)
       (fun r => Ok (PList r)))).

End customer_data_tool.

(* ================================================================== *)
(** * tools/inventory_tool.py                                          *)
(* ================================================================== *)

Module inventory_tool.

Section Formatting.

(** Python's [str], used where a value is put into a message. *)
Variable str : pyval -> string.

(** The loop of [get_product_info]. *)
Fixpoint find_product (product_id : pyval) (products : list pyval)
  : res pyval :=
  match products with
  | [] =>
      Ok (PDict [("error", PStr ("Product " ++ str product_id ++ " not found"))])
  | product :: rest =>
      bind (subscript_str product "product_id") (fun v =>
      if analytics_tool.py_eq v product_id then Ok product
      else find_product product_id rest)
  end.

(** [get_product_info(product_id)].  The identifier is a string by its
    annotation; [find_similar_successful_actions] passes whatever the
    action record holds. *)
Definition get_product_info (t : tables) (product_id : pyval) : res pyval :=
  match load (product_catalog t) with
  | Raise (Exn FileNotFoundError _) =>
      Ok (PDict [("error", PStr "Product catalog not found")])
  | Raise e => Raise e
  | Ok products => bind (iter products) (find_product product_id)
  end.

(** [check_stock_availability(product_id, quantity=1)] *)
Definition check_stock_availability
    (t : tables) (product_id : pyval) (quantity : Z) : res bool :=
  bind (get_product_info t product_id) (fun product =>
  bind (contains_str product "error") (fun is_error =>
  if is_error then Ok false
  else
    bind (py_get product "stock_quantity" (PInt 0)) (fun stock =>
    ge_int stock quantity))).

(** [price * factor] and [x - cost] for a float [factor] and [x]. *)
Definition times_float (price : pyval) (factor : num) : res num :=
  match price with
  | PStr _ | PList _ =>
      Raise (type_error "can't multiply sequence by non-int of type 'float'")
  | _ =>
      match as_num price with
      | Some n => Ok (num_mul n factor)
      | None => Raise (binary_operand_error "*" price (of_num factor))
      end
  end.

Definition minus (x : num) (cost : pyval) : res num :=
  match as_num cost with
  | Some n => Ok (num_sub x n)
  | None => Raise (binary_operand_error "-" (of_num x) cost)
  end.

(** [calculate_margin(product_id, discount_percent=0)] *)
Definition calculate_margin
    (t : tables) (product_id : pyval) (discount_percent : num) : res pyval :=
  bind (get_product_info t product_id) (fun product =>
  bind (contains_str product "error") (fun is_error =>
  if is_error then Ok (PFloat (FFin 0))
  else
    bind (py_get product "price" (PInt 0)) (fun price =>
    bind (py_get product "cost" (PInt 0)) (fun cost =>
    bind (truediv_int discount_percent 100) (fun fraction =>
    bind (times_float price (num_sub (NInt 1) fraction)) (fun discounted_price =>
    bind (if num_gt discounted_price (NInt 0) then
            bind (minus discounted_price cost) (fun gain =>
            bind (fdiv (to_float gain) (to_float discounted_price)) (fun ratio =>
            Ok (NFloat (fmul ratio (FFin (inject_Z 100))))))
          else Ok (NInt 0)) (fun margin =>
    Ok (of_num (round_nd margin 2))))))))).

End Formatting.

(** [get_products_by_category(category)] *)
Definition get_products_by_category (t : tables) (category : string)
  : res pyval :=
  match load (product_catalog t) with
  | Raise (Exn FileNotFoundError _) => Ok (PList [])
  | Raise e => Raise e
  | Ok products =>
      bind (iter products) (fun l =>
      bind (filterM (fun p => bind (py_get p "category" PNone)
                                   (fun v => Ok (eq_str v category))) l)
           (fun r => Ok (PList r)))
  end.

End inventory_tool.

(* ================================================================== *)
(** * tools/historical_patterns_tool.py, continued                     *)
(* ================================================================== *)

Module historical_patterns_tool_rest.

Import historical_patterns_tool.

(** The [key] of the [max] in [get_best_performing_action]. *)
Definition success_rate_of (x : pyval) : res pyval :=
  py_get x "success_rate" (PInt 0).

(** [get_best_performing_action(segment)], lines 133-162. *)
Definition get_best_performing_action (st : store) (segment : string)
  : res pyval :=
  bind (query_historical_patterns st (Some segment) "all") (fun segment_data =>
  bind (contains_str segment_data "error") (fun is_error =>
  if is_error then Ok (PDict [("error", PStr "Segment not found")])
  else
    bind (py_get segment_data "data" (PDict [])) (fun data =>
    bind (py_get data "successful_actions" (PList [])) (fun actions =>
    match view_sequence actions with
    | Falsy => Ok (PDict [("error", PStr "No historical actions found")])
    | NotIterable e => Raise e
    | NonEmpty first rest =>
        bind (max_by success_rate_of first rest) (fun best_action =>
        bind (py_get best_action "action" PNone) (fun action =>
        bind (py_get best_action "success_rate" PNone) (fun success_rate =>
        bind (py_get best_action "avg_order_value" PNone) (fun avg_order_value =>
        bind (py_get best_action "optimal_timing" PNone) (fun optimal_timing =>
        bind (py_get best_action "sample_size" PNone) (fun sample_size =>
        Ok (PDict [("best_action", action);
                   ("success_rate", success_rate);
                   ("avg_order_value", avg_order_value);
                   ("optimal_timing", optimal_timing);
                   ("sample_size", sample_size)])))))))
    end)))).

End historical_patterns_tool_rest.

(* ================================================================== *)
(** * tools/analytics_tool.py, continued                               *)
(* ================================================================== *)

Module analytics_tool_rest.

Import analytics_tool customer_data_tool.

(** [next((c for c in customers if c['customer_id'] == wanted), None)]
    where [wanted] is computed inside the generator, once per customer
    and after the customer's own subscript. *)
Fixpoint next_customer (wanted : res pyval) (customers : list pyval)
  : res pyval :=
  match customers with
  | [] => Ok PNone
  | c :: rest =>
      bind (subscript_str c "customer_id") (fun v =>
      bind wanted (fun w =>
      if py_eq v w then Ok c else next_customer wanted rest))
  end.

Section Formatting.

Variable str : pyval -> string.

(** One round of the loop of [find_similar_successful_actions]: whether
    the action is kept. *)
Definition is_similar (t : tables) (customer_segment product_category : string)
    (action : pyval) : res bool :=
  bind (py_get action "converted" (PBool false)) (fun converted =>
  if negb (truthy converted) then Ok false
  else
    bind (py_get action "customer_id" PNone) (fun customer_id =>
    bind (get_all_customers t) (fun customers =>
    bind (iter customers) (fun cs =>
    bind (next_customer (Ok customer_id) cs) (fun customer =>
    bind (if truthy customer then
            bind (py_get customer "segment" PNone) (fun s =>
            Ok (eq_str s customer_segment))
          else Ok false) (fun same_segment =>
    if same_segment then
      bind (py_get action "product_recommended" PNone) (fun product_id =>
      bind (inventory_tool.get_product_info str t product_id) (fun product =>
      match product with
      | PDict _ =>
          bind (contains_str product "error") (fun is_error =>
          if is_error then Ok false
          else
            bind (py_get product "category" PNone) (fun category =>
            Ok (eq_str category product_category)))
      | _ => Ok false
      end))
    else Ok false)))))).

(** [find_similar_successful_actions(customer_segment, product_category)] *)
Definition find_similar_successful_actions
    (st : store) (t : tables) (customer_segment product_category : string)
  : res pyval :=
  bind (get_historical_actions st None) (fun actions =>
  bind (iter actions) (fun l =>
  bind (filterM (is_similar t customer_segment product_category) l)
       (fun similar_actions => Ok (PList similar_actions)))).

End Formatting.

(** The test of the loop of [calculate_best_discount_range]; the
    customers are iterated anew for every action. *)
Definition in_converted_segment (customers : pyval)
    (customer_segment : string) (action : pyval) : res bool :=
  bind (iter customers) (fun cs =>
  bind (next_customer (subscript_str action "customer_id") cs)
       (fun customer =>
  if truthy customer then
    bind (py_get customer "segment" PNone) (fun s =>
    if eq_str s customer_segment then
      bind (py_get action "converted" PNone) (fun converted =>
      Ok (truthy converted))
    else Ok false)
  else Ok false)).

Definition identity_key (x : pyval) : res pyval := Ok x.

Definition discount_of (a : pyval) : res pyval :=
  py_get a "discount_percentage" (PInt 0).

(** [calculate_best_discount_range(customer_segment)] *)
Definition calculate_best_discount_range
    (st : store) (t : tables) (customer_segment : string) : res pyval :=
  bind (get_historical_actions st None) (fun actions =>
  bind (get_all_customers t) (fun customers =>
  bind (iter actions) (fun l =>
  bind (filterM (in_converted_segment customers customer_segment) l)
       (fun segment_actions =>
  match segment_actions with
  | [] =>
      Ok (PDict [("min_discount", PInt 10);
                 ("max_discount", PInt 20);
                 ("avg_discount", PInt 15)])
  | a :: rest =>
      bind (discount_of a) (fun d =>
      bind (mapM discount_of rest) (fun ds =>
      bind (min_by identity_key d ds) (fun lowest =>
      bind (max_by identity_key d ds) (fun highest =>
      bind (py_sum (d :: ds)) (fun total =>
      bind (truediv_int total (Z.of_nat (length (d :: ds)))) (fun mean =>
      Ok (PDict [("min_discount", lowest);
                 ("max_discount", highest);
                 ("avg_discount", of_num (round_nd mean 1))])))))))
  end)))).

End analytics_tool_rest.

(* ================================================================== *)
(** * tools/business_rules_tool.py                                     *)
(* ================================================================== *)

Module business_rules_tool.

(** [d[k] = v]: an existing key keeps its place. *)
Fixpoint dict_set (d : dict) (k : string) (v : pyval) : dict :=
  match d with
  | [] => [(k, v)]
  | (k', v') :: d' =>
      if String.eqb k k' then (k, v) :: d' else (k', v') :: dict_set d' k v
  end.

(** [table.get(key, default)] for a table with string keys and any
    key: a list or a dict cannot be hashed, any other non-string is
    simply not a key of the table. *)
Definition table_get (table : dict) (key default : pyval) : res pyval :=
  match key with
  | PStr s => Ok (get_or table s default)
  | PList _ | PDict _ =>
      Raise (type_error ("unhashable type: '" ++ type_name key ++ "'"))
  | _ => Ok default
  end.

Definition float_of (q : Q) : pyval := PFloat (FFin q).

Section Formatting.

(** Python's [str], used where a value is put into a message. *)
Variable str : pyval -> string.

(** The generator of [next(...)] in [check_inventory_rules]. *)
Fixpoint next_product (product_id : pyval) (products : list pyval)
  : res pyval :=
  match products with
  | [] => Ok PNone
  | p :: rest =>
      bind (py_get p "product_id" PNone) (fun v =>
      if analytics_tool.py_eq v product_id then Ok p
      else next_product product_id rest)
  end.

(** [check_inventory_rules(product_id=None, **kwargs)] *)
Definition check_inventory_rules (t : tables) (product_id : pyval)
  : res pyval :=
  if negb (truthy product_id) then
    Ok (PDict [("valid", PBool true);
               ("message", PStr "No product check required")])
  else
    match load (product_catalog t) with
    | Raise (Exn FileNotFoundError _) =>
        Ok (PDict [("valid", PBool true);
                   ("message",
                    PStr "Product catalog not found, assuming available")])
    | Raise e => Raise e
    | Ok products =>
        bind (iter products) (fun l =>
        bind (next_product product_id l) (fun product =>
        if negb (truthy product) then
          Ok (PDict [("valid", PBool false);
                     ("message",
                      PStr ("Product " ++ str product_id ++ " not found"))])
        else
          bind (py_get product "stock_quantity" (PInt 0)) (fun stock =>
          bind (gt_int stock 0) (fun in_stock =>
          if in_stock then
            Ok (PDict [("valid", PBool true);
                       ("message",
                        PStr ("Product in stock (" ++ str stock ++ " units)"));
                       ("stock_quantity", stock)])
          else
            Ok (PDict [("valid", PBool false);
                       ("message", PStr "Product out of stock");
                       ("stock_quantity", PInt 0)])))))
    end.

Definition MAX_SPEND_PER_CUSTOMER_PER_MONTH : Q := 10.
Definition TOTAL_MONTHLY_BUDGET : Q := 50000.
Definition CURRENT_MONTH_SPEND : Q := 23450.

(** [v > limit] for a float limit. *)
Definition gt_float (v : pyval) (limit : Q) : res bool :=
  match as_num v with
  | Some n => Ok (num_gt n (NFloat (FFin limit)))
  | None => Raise (unorderable ">" v "float")
  end.

(** [check_budget_rules(action_cost=0, customer_id=None, **kwargs)].
    The remaining budget is 50000.00 - 23450.00, printed with two
    decimals. *)
Definition check_budget_rules (action_cost : pyval) : res pyval :=
  bind (gt_float action_cost MAX_SPEND_PER_CUSTOMER_PER_MONTH) (fun over_limit =>
  if over_limit then
    Ok (PDict [("valid", PBool false);
               ("message",
                PStr ("Action cost ($" ++ str action_cost
                      ++ ") exceeds per-customer limit ($"
                      ++ str (float_of MAX_SPEND_PER_CUSTOMER_PER_MONTH)
                      ++ ")"))])
  else
    let remaining_budget := Qred (TOTAL_MONTHLY_BUDGET - CURRENT_MONTH_SPEND) in
    bind (gt_float action_cost remaining_budget) (fun over_budget =>
    if over_budget then
      Ok (PDict [("valid", PBool false);
                 ("message", PStr "Insufficient budget. Remaining: $26550.00");
                 ("remaining_budget", float_of remaining_budget)])
    else
      Ok (PDict [("valid", PBool true);
                 ("message",
                  PStr ("Within budget. Cost: $" ++ str action_cost
                        ++ ", Remaining: $26550.00"));
                 ("remaining_budget", float_of remaining_budget)]))).

Definition CHANNEL_PERMISSIONS : dict :=
  [("email", PBool true);
   ("sms", PBool true);
   ("push", PBool false);
   ("whatsapp", PBool false)].

(** [check_permission_rules(action_type=None, channel=None, **kwargs)];
    past [channel.lower()] the channel is a string. *)
Definition check_permission_rules (channel : pyval) : res pyval :=
  if negb (truthy channel) then
    Ok (PDict [("valid", PBool true);
               ("message", PStr "No channel specified")])
  else
    match channel with
    | PStr name =>
        let has_permission :=
          get_or CHANNEL_PERMISSIONS (lower name) (PBool false) in
        if truthy has_permission then
          Ok (PDict [("valid", PBool true);
                     ("message", PStr ("Customer has opted in to " ++ name))])
        else
          Ok (PDict [("valid", PBool false);
                     ("message",
                      PStr ("Customer has not opted in to " ++ name
                            ++ ". Try alternative channel."))])
    | _ => Raise (no_attribute channel "lower")
    end.

(** The channel costs of [validate_action]. *)
Definition channel_costs : dict :=
  [("email", float_of (1 # 20));
   ("sms", float_of (3 # 20));
   ("push", float_of (1 # 50));
   ("whatsapp", float_of (1 # 10))].

(** [all(v[1].get('valid', False) for v in validations)]: stops at the
    first check that is not valid. *)
Fixpoint all_valid (validations : list (string * pyval)) : res bool :=
  match validations with
  | [] => Ok true
  | (_, check) :: rest =>
      bind (py_get check "valid" (PBool false)) (fun v =>
      if truthy v then all_valid rest else Ok false)
  end.

(** [validate_action(action)], lines 136-176: the entries of the
    dictionary it returns. *)
Definition validate_action_entries (t : tables) (action : dict) : res dict :=
  bind (if has_key "product_id" action then
          bind (subscript_str (PDict action) "product_id") (fun product_id =>
          bind (check_inventory_rules t product_id) (fun inventory_check =>
          Ok [("inventory", inventory_check)]))
        else Ok []) (fun validations =>
  bind (table_get channel_costs (get_or action "channel" (PStr "email"))
                  (float_of (1 # 20))) (fun action_cost =>
  bind (check_budget_rules action_cost) (fun budget_check =>
  let validations := (validations ++ [("budget", budget_check)])%list in
  bind (check_permission_rules (get_or action "channel" PNone))
       (fun permission_check =>
  let validations :=
    (validations ++ [("permissions", permission_check)])%list in
  bind (all_valid validations) (fun overall =>
  Ok [("overall_valid", PBool overall);
      ("checks", PDict validations);
      ("action", PDict action)]))))).

Definition validate_action (t : tables) (action : dict) : res pyval :=
  bind (validate_action_entries t action) (fun entries => Ok (PDict entries)).

(** The state of the loop of [validate_actions_batch]. *)
Record batch : Type := {
  results : list pyval;
  passed_ids : list pyval;
  failed_ids : list pyval
}.

(** One round of the loop: validate, stamp the result with the action's
    id, file the id under passed or failed. *)
Definition batch_step (t : tables) (b : batch) (action : dict) : res batch :=
  bind (validate_action_entries t action) (fun entries =>
  let action_id := get_or action "action_id" (PStr "unknown") in
  let result := PDict (dict_set entries "action_id" action_id) in
  bind (subscript_str result "overall_valid") (fun overall =>
  Ok (if truthy overall then
        {| results := results b ++ [result];
           passed_ids := passed_ids b ++ [action_id];
           failed_ids := failed_ids b |}
      else
        {| results := results b ++ [result];
           passed_ids := passed_ids b;
           failed_ids := failed_ids b ++ [action_id] |}))).

Fixpoint batch_loop (t : tables) (b : batch) (actions : list dict)
  : res batch :=
  match actions with
  | [] => Ok b
  | action :: rest =>
      bind (batch_step t b action) (fun b' => batch_loop t b' rest)
  end.

(** [validate_actions_batch(actions)], lines 179-212. *)
Definition validate_actions_batch (t : tables) (actions : list dict)
  : res pyval :=
  bind (batch_loop t {| results := []; passed_ids := []; failed_ids := [] |}
                   actions) (fun b =>
  Ok (PDict [("validated_actions", PList (results b));
             ("passed_action_ids", PList (passed_ids b));
             ("failed_action_ids", PList (failed_ids b));
             ("compliance_summary",
              PStr (str_of_int (Z.of_nat (length (passed_ids b)))
                    ++ " out of "
                    ++ str_of_int (Z.of_nat (length actions))
                    ++ " actions passed validation"))])).

End Formatting.

End business_rules_tool.

(* ================================================================== *)
(** * tools/timing_intelligence_tool.py                                *)
(* ================================================================== *)

Module timing_intelligence_tool.

(** [query_timing_intelligence(data_type="all")] *)
Definition query_timing_intelligence (t : tables) (data_type : string)
  : res pyval :=
  match load (timing_intelligence t) with
  | Raise (Exn FileNotFoundError _) =>
      Ok (PDict [("error", PStr "Timing intelligence file not found")])
  | Raise e => Raise e
  | Ok timing_data =>
      if String.eqb data_type "all" then Ok timing_data
      else if String.eqb data_type "channel_timing" then
        bind (py_get timing_data "channel_timing" (PDict [])) (fun v =>
        Ok (PDict [("channel_timing", v)]))
      else if String.eqb data_type "customer_behavior" then
        bind (py_get timing_data "customer_behavior_patterns" (PDict [])) (fun v =>
        Ok (PDict [("customer_behavior_patterns", v)]))
      else if String.eqb data_type "urgency" then
        bind (py_get timing_data "urgency_based_timing" (PDict [])) (fun v =>
        Ok (PDict [("urgency_based_timing", v)]))
      else if String.eqb data_type "day_of_week" then
        bind (py_get timing_data "day_of_week_insights" (PDict [])) (fun v =>
        Ok (PDict [("day_of_week_insights", v)]))
      else Ok (PDict [("error", PStr ("Unknown data type: " ++ data_type))])
  end.

(** The [key] of the [max] over time slots: [x[1].get('conversion_rate', 0)]. *)
Definition slot_rate (slot : string * pyval) : res pyval :=
  py_get (snd slot) "conversion_rate" (PInt 0).

Section Clock.

(** Python's [str], and whether [datetime.now().weekday() >= 5]. *)
Variable str : pyval -> string.
Variable is_weekend : bool.

(** [get_optimal_send_time(channel, urgency="medium",
    customer_scenario=None)], lines 46-114. *)
Definition get_optimal_send_time (t : tables) (channel urgency : string)
  : res pyval :=
  bind (query_timing_intelligence t "all") (fun timing_data =>
  bind (contains_str timing_data "error") (fun is_error =>
  if is_error then Ok (PDict [("error", PStr "Could not load timing data")])
  else if String.eqb urgency "very_high" then
    Ok (PDict [("recommended_timing", PStr "immediate");
               ("reasoning",
                PStr "Very high urgency requires immediate action");
               ("expected_delay_minutes", PInt 0)])
  else if String.eqb urgency "high" then
    Ok (PDict [("recommended_timing", PStr "within_1_hour");
               ("reasoning", PStr "High urgency requires fast action");
               ("expected_delay_minutes", PInt 30)])
  else
    bind (py_get timing_data "channel_timing" (PDict [])) (fun by_channel =>
    bind (py_get by_channel (lower channel) (PDict [])) (fun channel_timing =>
    if negb (truthy channel_timing) then
      Ok (PDict [("recommended_timing", PStr "default_business_hours");
                 ("reasoning",
                  PStr ("No specific timing data for channel: " ++ channel))])
    else
      bind (py_get channel_timing
                   (if is_weekend then "best_send_times_weekend"
                    else "best_send_times_weekday") (PDict []))
           (fun best_times =>
      let by_default :=
        Ok (PDict [("recommended_timing", PStr "default");
                   ("reasoning", PStr "Using default timing")]) in
      match best_times with
      | PDict (first :: rest) =>
          bind (max_by slot_rate first rest) (fun best_slot =>
          let slot_name := fst best_slot in
          let slot_data := snd best_slot in
          bind (py_get slot_data "start" PNone) (fun slot_start =>
          bind (py_get slot_data "end" PNone) (fun slot_end =>
          bind (py_get slot_data "conversion_rate" PNone) (fun rate =>
          Ok (PDict [("recommended_timing", PStr slot_name);
                     ("time_range",
                      PStr (str slot_start ++ " - " ++ str slot_end));
                     ("expected_conversion_rate", rate);
                     ("reasoning",
                      PStr ("Best " ++ channel ++ " time on "
                            ++ (if is_weekend then "weekend" else "weekday")));
                     ("is_weekend", PBool is_weekend)])))))
      | PDict [] => by_default
      | _ =>
          if truthy best_times then Raise (no_attribute best_times "items")
          else by_default
      end))))).

End Clock.

(** The key under which the delay of a touch is stored. *)
Definition timing_key (touch_number : Z) : string :=
  if touch_number =? 1 then "optimal_followup_timing"
  else if touch_number =? 2 then "second_touch_timing"
  else if touch_number =? 3 then "final_touch_timing"
  else "optimal_followup_timing".

(** [get_followup_timing(customer_scenario, touch_number=1)] *)
Definition get_followup_timing
    (t : tables) (customer_scenario : string) (touch_number : Z) : res pyval :=
  bind (query_timing_intelligence t "all") (fun timing_data =>
  bind (py_get timing_data "customer_behavior_patterns" (PDict []))
       (fun behavior_patterns =>
  bind (py_get behavior_patterns customer_scenario (PDict [])) (fun scenario_data =>
  if negb (truthy scenario_data) then
    Ok (PDict [("error", PStr ("Unknown scenario: " ++ customer_scenario))])
  else
    bind (py_get scenario_data (timing_key touch_number) (PStr "24_hours"))
         (fun timing =>
    Ok (PDict [("touch_number", PInt touch_number);
               ("recommended_delay", timing);
               ("scenario", PStr customer_scenario);
               ("reasoning",
                PStr ("Optimal timing for touch " ++ str_of_int touch_number
                      ++ " in " ++ customer_scenario ++ " scenario"))]))))).

End timing_intelligence_tool.

(* ================================================================== *)
(** * tools/action_templates_tool.py                                   *)
(* ================================================================== *)

Module action_templates_tool.

Definition all_channels : list string :=
  ["email"; "sms"; "push"; "retargeting_ads"].

(** [get_channels_by_preference(preferred_channel=None)] *)
Definition get_channels_by_preference (preferred_channel : option string)
  : list string :=
  match preferred_channel with
  | Some preferred =>
      if String.eqb preferred "" then
        ["email"; "push"; "sms"; "retargeting_ads"]
      else
        preferred
          :: filter (fun c => negb (String.eqb c preferred)) all_channels
  | None => ["email"; "push"; "sms"; "retargeting_ads"]
  end.

End action_templates_tool.

(* ================================================================== *)
(** * Observations used to state the properties                        *)
(* ================================================================== *)

Import coordinator_full.

(** ** The stage tree *)

Inductive node_kind : Type := Leaf | Sequential | Parallel.

Definition kind_of (t : BaseAgent) : node_kind :=
  match t with
  | LlmAgent _ => Leaf
  | SequentialAgent _ _ _ => Sequential
  | ParallelAgent _ _ _ => Parallel
  end.

Definition children (t : BaseAgent) : list BaseAgent :=
  match t with
  | LlmAgent _ => []
  | SequentialAgent _ subs _ => subs
  | ParallelAgent _ subs _ => subs
  end.

Definition node_name (t : BaseAgent) : string :=
  match t with
  | LlmAgent a => name a
  | SequentialAgent n _ _ => n
  | ParallelAgent n _ _ => n
  end.

(** The kind of a cluster together with the names of its stages. *)
Definition cluster_shape (t : BaseAgent) : node_kind * list (node_kind * string) :=
  (kind_of t, map (fun c => (kind_of c, node_name c)) (children t)).

(** The retry policy the specification records as the observed default. *)
Definition observed_retry_policy : HttpRetryOptions :=
  {| attempts := 5; exp_base := 7; initial_delay := 1;
     http_status_codes := [429; 500; 503; 504] |}.

(** ** The approval gate *)

(** The answer of the gate for a recorded decision. *)
Definition decision_result (approved : bool) : pyval :=
  if approved then
    PDict [("status", PStr "approved");
           ("message", PStr "Action approved by human reviewer");
           ("approved", PBool true)]
  else
    PDict [("status", PStr "rejected");
           ("message", PStr "Action rejected by human reviewer");
           ("approved", PBool false)].

(** ** The action log *)

(** [v[k]] as an observation: the entry [k] of a dict, if any. *)
Definition field (v : pyval) (k : string) : option pyval :=
  match v with
  | PDict d => lookup k d
  | _ => None
  end.

(** The records of the action log: a missing file is the empty log, a
    file holding a JSON array is that array; anything else is no log. *)
Definition log_of (f : file_state) : option (list pyval) :=
  match f with
  | Absent => Some []
  | Json (PList l) => Some l
  | _ => None
  end.

(** The ways storage can fail under [record_result], with the exception
    raised and the store that is left behind. *)
Inductive storage_failure (st : store) : exn -> store -> Prop :=
| read_denied msg :
    historical_actions st = Unreadable msg ->
    storage_failure st (Exn OSError msg) st
| decode_failed msg :
    historical_actions st = Garbled msg ->
    storage_failure st (Exn JSONDecodeError msg) st
| not_a_list v :
    historical_actions st = Json v ->
    log_of (Json v) = None ->
    storage_failure st (no_attribute v "append") st
| open_failed prior msg :
    log_of (historical_actions st) = Some prior ->
    historical_actions_fault st = Some (OpenFails msg) ->
    storage_failure st (Exn OSError msg) st
| dump_failed prior msg leftover :
    log_of (historical_actions st) = Some prior ->
    historical_actions_fault st = Some (DumpFails msg leftover) ->
    storage_failure st (Exn OSError msg)
      (Store leftover (historical_actions_fault st)
             (historical_customer_data st)).

(** ** Sequences of appends and what a query shows of them *)

(** The arguments of one call of [record_result]. *)
Record record_call : Type := {
  at_time : string;
  for_customer : string;
  with_action : string;
  with_status : string;
  in_segment : string;
  with_roi : pyval;
  with_cost : pyval;
  on_channel : string;
  in_scenario : string
}.

Definition run_call (c : record_call) : results_tracker_tool.io pyval :=
  results_tracker_tool.record_result
    (at_time c) (for_customer c) (with_action c) (with_status c) (in_segment c)
    (with_roi c) (with_cost c) (on_channel c) (in_scenario c).

(** The calls in order; the results are collected and the store threaded. *)
Fixpoint run_calls (cs : list record_call) (st : store)
  : list (res pyval) * store :=
  match cs with
  | [] => ([], st)
  | c :: cs' =>
      let (r, st1) := run_call c st in
      let (rs, st2) := run_calls cs' st1 in
      (r :: rs, st2)
  end.

Definition succeeded (r : res pyval) : bool :=
  match r with
  | Ok out => match field out "status" with
              | Some v => eq_str v "success"
              | None => false
              end
  | Raise _ => false
  end.

(** The sample size a segment query shows: the [sample_size] entries of
    the segment's stored actions, added up; nothing when the query has no
    data for the segment. *)
Definition reflected_sample_size (answer : res pyval) : Z :=
  match answer with
  | Ok out =>
      match field out "data" with
      | Some data =>
          match field data "successful_actions" with
          | Some (PList actions) =>
              fold_right
                (fun a acc => match field a "sample_size" with
                              | Some (PInt n) => n + acc
                              | _ => acc
                              end) 0 actions
          | _ => 0
          end
      | None => 0
      end
  | Raise _ => 0
  end.

(** An example store: an action log of one record and a customer-data
    file that knows one segment with one stored action. *)
Definition example_customer_data : pyval :=
  PDict [("customer_segments",
          PDict [("vip_customers",
                  PDict [("successful_actions",
                          PList [PDict [("action", PStr "exclusive_early_access");
                                        ("success_rate", PFloat (FFin (9 # 20)));
                                        ("sample_size", PInt 1)]])])])].

Definition example_log : list pyval :=
  [PDict [("customer_id", PStr "CUST_00001");
          ("action_type", PStr "email_discount");
          ("channel", PStr "email");
          ("roi", PInt 6);
          ("opened", PBool true);
          ("clicked", PBool false);
          ("converted", PBool true)]].

Definition example_store : store :=
  {| historical_actions := Json (PList example_log);
     historical_actions_fault := None;
     historical_customer_data := Json example_customer_data |}.

Definition example_call (now : string) : record_call :=
  {| at_time := now;
     for_customer := "CUST_12345";
     with_action := "exclusive_early_access";
     with_status := "scheduled";
     in_segment := "vip_customers";
     with_roi := PFloat (FFin (17 # 2));
     with_cost := PInt 575;
     on_channel := "email";
     in_scenario := "general" |}.

(** ** The matching rule, in the words of the specification *)

(** The scenarios in their fixed priority order: cart-abandoned, then
    vip-segment, then high-churn-or-stale, then zero-history, then
    repeat-buyer, then the default. *)
Inductive scenario : Type :=
| CartAbandoned
| VipSegment
| HighChurnOrStale
| ZeroHistory
| RepeatBuyer
| DefaultScenario.

Definition priority_order : list scenario :=
  [CartAbandoned; VipSegment; HighChurnOrStale; ZeroHistory; RepeatBuyer;
   DefaultScenario].

Definition scenario_key (s : scenario) : string :=
  match s with
  | CartAbandoned => "price_sensitive_cart_abandoners"
  | VipSegment => "vip_customers"
  | HighChurnOrStale => "high_churn_risk"
  | ZeroHistory => "first_time_browsers"
  | RepeatBuyer => "repeat_buyers"
  | DefaultScenario => "first_time_browsers"
  end.

Definition exceeds (v : pyval) (z : Z) : bool :=
  match as_num v with
  | Some n => num_gt n (NInt z)
  | None => false
  end.

Definition at_least (v : pyval) (z : Z) : bool :=
  match as_num v with
  | Some n => num_ge n (NInt z)
  | None => false
  end.

(** When a scenario applies to a profile. *)
Definition applies (profile : dict) (s : scenario) : bool :=
  match s with
  | CartAbandoned =>
      eq_str (get_or profile "cart_status" (PStr "empty")) "abandoned"
  | VipSegment =>
      eq_str (get_or profile "segment" (PStr "medium_value")) "vip"
  | HighChurnOrStale =>
      eq_str (get_or profile "churn_risk" (PStr "low")) "high"
      || exceeds (get_or profile "days_since_last_purchase" (PInt 0)) 60
  | ZeroHistory => eq_int (get_or profile "total_orders" (PInt 0)) 0
  | RepeatBuyer => at_least (get_or profile "total_orders" (PInt 0)) 3
  | DefaultScenario => true
  end.

(** First match wins. *)
Definition first_match (profile : dict) : option scenario :=
  find (applies profile) priority_order.

(** An entry that is a number when it is present. *)
Definition numeric_entry (d : dict) (k : string) : bool :=
  match lookup k d with
  | None => true
  | Some v => match as_num v with Some _ => true | None => false end
  end.

(** A customer profile as the proxy agent's output format describes it:
    [total_orders] and [days_since_last_purchase] are numbers. *)
Definition well_typed_profile (profile : dict) : bool :=
  numeric_entry profile "total_orders"
  && numeric_entry profile "days_since_last_purchase".

(** A customer-data file on which a segment query does not raise: it is
    missing, or not JSON, or an object whose [customer_segments], when
    present, is an object. *)
Definition segments_readable (st : store) : bool :=
  match historical_customer_data st with
  | Absent => true
  | Garbled _ => true
  | Json (PDict top) =>
      match get_or top "customer_segments" (PDict []) with
      | PDict _ => true
      | _ => false
      end
  | _ => false
  end.

(** ** Segments and actions without a matching historical record *)

(** [s.isascii()]: every character of [s] is below 128.  On such
    strings [lower] is Python's [str.lower()], which there changes the
    letters A to Z and nothing else. *)
Fixpoint is_ascii (s : string) : bool :=
  match s with
  | EmptyString => true
  | String c s' => (nat_of_ascii c <? 128)%nat && is_ascii s'
  end.



(** ** Scores *)

(** A number between 1 and 10, both included. *)
Definition num_in_range (n : num) : Prop :=
  match n with
  | NInt z => 1 <= z <= 10
  | NFloat (FFin q) => (1 <= q /\ q <= 10)%Q
  | NFloat _ => False
  end.

Definition in_score_range (v : pyval) : Prop :=
  match v with
  | PInt z => 1 <= z <= 10
  | PFloat (FFin q) => (1 <= q /\ q <= 10)%Q
  | _ => False
  end.

(** A record of the action log that [score_action] can read: an object
    whose [roi], when present, is a number. *)
Definition scorable_record (a : pyval) : bool :=
  match a with
  | PDict d => numeric_entry d "roi"
  | _ => false
  end.

(** An action log [score_action] can read: missing, or a JSON array of
    such records. *)
Definition scorable_log (f : file_state) : bool :=
  match f with
  | Absent => true
  | Json (PList l) => forallb scorable_record l
  | _ => false
  end.

(** The entry [k] of a returned dictionary; nothing if the call raised. *)
Definition field_of_result (r : res pyval) (k : string) : option pyval :=
  match r with
  | Ok out => field out k
  | Raise _ => None
  end.

(** ** Keys of [max] and [min] *)

(** The key of [x] is the number [n]. *)
Definition numeric_key {A} (key : A -> res pyval) (x : A) (n : num) : Prop :=
  exists v, key x = Ok v /\ as_num v = Some n.

(** No key of [x] is strictly greater than [top]. *)
Definition not_above {A} (key : A -> res pyval) (top : num) (x : A) : Prop :=
  forall n, numeric_key key x n -> num_gt n top = false.

(** No key of [x] is strictly smaller than [bottom]. *)
Definition not_below {A} (key : A -> res pyval) (bottom : num) (x : A) : Prop :=
  forall n, numeric_key key x n -> num_lt n bottom = false.

(** ** Stored successful actions *)

(** The customer-data file stores [actions] as the successful actions of
    the segment. *)
Definition stored_actions (st : store) (segment : string) (actions : pyval)
  : Prop :=
  segment <> ""
  /\ exists top segments data,
       historical_customer_data st = Json (PDict top)
       /\ get_or top "customer_segments" (PDict []) = PDict segments
       /\ lookup segment segments = Some (PDict data)
       /\ get_or data "successful_actions" (PList []) = actions.

(** The segment cannot be looked up: there is no data, or the file does
    not know the segment. *)
Definition segment_missing (st : store) (segment : string) : Prop :=
  historical_customer_data st = Absent
  \/ (exists msg, historical_customer_data st = Garbled msg)
  \/ (segment <> ""
      /\ exists top segments,
           historical_customer_data st = Json (PDict top)
           /\ get_or top "customer_segments" (PDict []) = PDict segments
           /\ lookup segment segments = None).

(** A stored action with a number as success rate (0 when it has none). *)
Definition rated (n : num) (action : pyval) : Prop :=
  exists entry,
    action = PDict entry
    /\ as_num (get_or entry "success_rate" (PInt 0)) = Some n.

(** What [get_best_performing_action] reports of a stored action. *)
Definition best_action_report (action : pyval) : pyval :=
  match action with
  | PDict entry =>
      PDict [("best_action", get_or entry "action" PNone);
             ("success_rate", get_or entry "success_rate" PNone);
             ("avg_order_value", get_or entry "avg_order_value" PNone);
             ("optimal_timing", get_or entry "optimal_timing" PNone);
             ("sample_size", get_or entry "sample_size" PNone)]
  | _ => PNone
  end.

(** ** Reading the action log *)

(** [a.get(k, default)] of a record that is an object. *)
Definition entry_or (a : pyval) (k : string) (default : pyval) : pyval :=
  match a with
  | PDict d => get_or d k default
  | _ => default
  end.

(** The records of a log with the given action type. *)
Definition of_action_type (action_type : pyval) (log : list pyval)
  : list pyval :=
  filter (fun a => analytics_tool.py_eq (entry_or a "action_type" PNone)
                                        action_type) log.

(** The records of a log with the given customer id. *)
Definition of_customer (customer_id : string) (log : list pyval)
  : list pyval :=
  filter (fun a => eq_str (entry_or a "customer_id" PNone) customer_id) log.


(** A score that is at most [bound]. *)
Definition score_at_most (bound : Q) (v : pyval) : Prop :=
  match v with
  | PInt z => (inject_Z z <= bound)%Q
  | PFloat (FFin q) => (q <= bound)%Q
  | _ => False
  end.

(** A record without outcome fields, as [record_result] writes them. *)
Definition without_outcome (a : pyval) : Prop :=
  exists d, a = PDict d /\ lookup "roi" d = None.

(** The record a call of [record_result] builds. *)
Definition record_of (c : record_call) : pyval :=
  results_tracker_tool.action_record
    (at_time c) (for_customer c) (with_action c) (with_status c) (in_segment c)
    (with_roi c) (with_cost c) (on_channel c) (in_scenario c).

Definition is_object (a : pyval) : Prop := exists d, a = PDict d.

(** ** Lookup tables *)

(** A record that has an entry [k]. *)
Definition has_entry (k : string) (a : pyval) : Prop :=
  exists d v, a = PDict d /\ lookup k d = Some v.

(** A record that is an object without an entry [k]. *)
Definition lacks_entry (k : string) (a : pyval) : Prop :=
  exists d, a = PDict d /\ lookup k d = None.

(** The first customer with the given id. *)
Definition first_customer (customer_id : string) (customers : list pyval)
  : option pyval :=
  find (fun c => eq_str (entry_or c "customer_id" PNone) customer_id) customers.

(** The first product with the given id. *)
Definition first_product (product_id : pyval) (products : list pyval)
  : option pyval :=
  find (fun p => analytics_tool.py_eq (entry_or p "product_id" PNone) product_id)
       products.


(** The records a table file yields when it is iterated; none when the
    file cannot be read as a sequence. *)
Definition records_of (f : file_state) : list pyval :=
  match f with
  | Json v => match iter v with Ok l => l | Raise _ => [] end
  | _ => []
  end.

(** An action of the log that is not converted. *)
Definition unconverted (a : pyval) : Prop :=
  has_entry "customer_id" a
  /\ truthy (entry_or a "converted" PNone) = false.

(** The range [calculate_best_discount_range] falls back to. *)
Definition default_discount_range : pyval :=
  PDict [("min_discount", PInt 10);
         ("max_discount", PInt 20);
         ("avg_discount", PInt 15)].

(** ** Validation results *)

(** [check.get('valid', False)] taken as a condition. *)
Definition valid_flag (check : pyval) : bool :=
  truthy (entry_or check "valid" (PBool false)).

(** The inventory check passed, or there was none. *)
Definition inventory_ok (checks : dict) : bool :=
  match lookup "inventory" checks with
  | Some check => valid_flag check
  | None => true
  end.

(** ** Time slots *)



(** An action whose discount (0 when it has none) is the number [n]. *)
Definition discounted (n : num) (a : pyval) : Prop :=
  as_num (entry_or a "discount_percentage" (PInt 0)) = Some n.

(** ** Catalogue records *)

(** A product record as the catalogue holds them: an object with a
    [product_id], without an [error] entry, whose stock (0 when it has
    none) is an integer. *)
Definition stocked_record (p : pyval) : Prop :=
  exists d,
    p = PDict d
    /\ has_key "product_id" d = true
    /\ has_key "error" d = false
    /\ exists units, get_or d "stock_quantity" (PInt 0) = PInt units.


(** The customer table holds a customer with the action's [customer_id]
    whose segment is [customer_segment]. *)
Definition customer_in_segment (t : tables) (customer_segment : string)
    (a : pyval) : Prop :=
  exists customer,
    In customer (records_of (sample_customers t))
    /\ analytics_tool.py_eq (entry_or customer "customer_id" PNone)
                            (entry_or a "customer_id" PNone) = true
    /\ eq_str (entry_or customer "segment" PNone) customer_segment = true.


(** ** Integers within float range *)

(** The magnitude of an integer [roi] entry, a Boolean counting as 0 or
    1; 0 for a float and for a record without [roi]. *)
Definition integer_roi (a : pyval) : Z :=
  match as_num (entry_or a "roi" (PInt 0)) with
  | Some (NInt z) => Z.abs z
  | _ => 0
  end.

Definition integer_roi_mass (log : list pyval) : Z :=
  fold_right (fun a mass => integer_roi a + mass) 0 log.

(** The integer [roi] entries of the log add up, in magnitude, to less
    than 2^1023, which is below the largest float.  Then no integer that
    [sum(...)] or [/ total] turns into a float while a part of the log is
    averaged is beyond float range, so that neither raises
    [OverflowError]; outside this range the exact arithmetic of the
    embedding says nothing about the code. *)
Definition roi_in_float_range (f : file_state) : bool :=
  match log_of f with
  | Some log => integer_roi_mass log <? 2 ^ 1023
  | None => true
  end.


(* ================================================================== *)
(** * Properties                                                       *)
(* ================================================================== *)

(** C3.  The pipeline built in [coordinator_full.py] is a Sequential node
    with exactly three children, in this order: the Sequential discovery
    cluster (proxy, profiler, pattern matcher, action generator), the
    Parallel validation cluster (validator, scorer) and the Sequential
    execution cluster (timing, content, approval, tracker).  Every stage
    of a cluster is a leaf, the approval leaf is the one that carries the
    approval tool, and the only Parallel node is the middle child. *)
Theorem nba_orchestrator_shape :
  kind_of nba_orchestrator = Sequential
  /\ children nba_orchestrator
     = [cluster_1_discovery; cluster_2_validation; cluster_3_execution]
  /\ cluster_shape cluster_1_discovery
     = (Sequential, [(Leaf, "ProxyCustomerAgent");
                     (Leaf, "CustomerProfilerAgent");
                     (Leaf, "PatternMatcherAgent");
                     (Leaf, "ActionGeneratorAgent")])
  /\ cluster_shape cluster_2_validation
     = (Parallel, [(Leaf, "ValidatorAgent"); (Leaf, "ScorerAgent")])
  /\ cluster_shape cluster_3_execution
     = (Sequential, [(Leaf, "TimingAgent");
                     (Leaf, "ContentAgent");
                     (Leaf, "HumanApprovalAgent");
                     (Leaf, "ResultsTrackerAgent")])
  /\ nth_error (children cluster_3_execution) 2
     = Some (LlmAgent agent_8_approval_adk.approval_agent)
  /\ tools agent_8_approval_adk.approval_agent = ["request_human_approval"]
  /\ (forall i c, nth_error (children nba_orchestrator) i = Some c ->
        (kind_of c = Parallel <-> i = 1%nat)).
Proof.
  repeat split; try reflexivity.
  - intros Hk. destruct i as [|[|[|i]]]; simpl in H.
    + injection H as <-. discriminate Hk.
    + reflexivity.
    + injection H as <-. discriminate Hk.
    + destruct i; discriminate H.
  - intros ->. simpl in H. injection H as <-. reflexivity.
Qed.

(** C5.  The pipeline has ten agents and each of them is configured with
    the same retry policy: 5 attempts, exponential base 7, initial delay
    1 second, retryable status codes 429, 500, 503 and 504. *)
Theorem every_agent_has_observed_retry_policy :
  length (leaves nba_orchestrator) = 10%nat
  /\ NoDup (map name (leaves nba_orchestrator))
  /\ Forall (fun a => retry_options (model a) = observed_retry_policy
                      /\ attempts (retry_options (model a)) = 5
                      /\ exp_base (retry_options (model a)) = 7
                      /\ initial_delay (retry_options (model a)) = 1
                      /\ http_status_codes (retry_options (model a))
                         = [429; 500; 503; 504])
            (leaves nba_orchestrator).
Proof.
  split; [reflexivity|]. split.
  - simpl. repeat (constructor; [simpl; intuition discriminate|]). constructor.
  - simpl. repeat (constructor; [repeat split|]). constructor.
Qed.

(** ** [record_result]: what one call does, case by case *)

Section RecordResult.

Import results_tracker_tool.

Variables now customer_id action_type action_status segment : string.
Variables predicted_roi estimated_cost : pyval.
Variables channel scenario : string.

Let record : pyval :=
  action_record now customer_id action_type action_status segment
                predicted_roi estimated_cost channel scenario.

Let call : io pyval :=
  record_result now customer_id action_type action_status segment
                predicted_roi estimated_cost channel scenario.

Lemma log_of_Some (f : file_state) (prior : list pyval) :
  log_of f = Some prior ->
  (f = Absent /\ prior = []) \/ f = Json (PList prior).
Proof.
  destruct f as [| | |v]; simpl; try discriminate.
  - intros [= <-]. now left.
  - destruct v; try discriminate. intros [= <-]. now right.
Qed.

(** With a readable log and a writable file the call appends. *)
Lemma record_result_appends (st : store) (prior : list pyval) :
  log_of (historical_actions st) = Some prior ->
  historical_actions_fault st = None ->
  call st =
    (Ok (success_result action_status segment scenario record
                        (Z.of_nat (length (prior ++ [record])))),
     Store (Json (PList (prior ++ [record]))) None
           (historical_customer_data st)).
Proof.
  intros Hlog Hw. unfold call, record_result, try_except_io, bind_io, lift, ret.
  unfold dump_actions.
  destruct (log_of_Some _ _ Hlog) as [[Hf ->] | Hf]; rewrite Hf; simpl;
    rewrite Hw; reflexivity.
Qed.

(** A storage failure is caught and reported. *)
Lemma record_result_reports (st st' : store) (cause : exn) :
  storage_failure st cause st' ->
  call st = (Ok (error_result cause), st').
Proof.
  unfold call, record_result, try_except_io, bind_io, lift, ret, dump_actions.
  intros [msg Hf | msg Hf | v Hf Hv | prior msg Hlog Hw | prior msg leftover Hlog Hw].
  - rewrite Hf. reflexivity.
  - rewrite Hf. reflexivity.
  - rewrite Hf. simpl. destruct v; try reflexivity. discriminate Hv.
  - destruct (log_of_Some _ _ Hlog) as [[Hf ->] | Hf]; rewrite Hf; simpl;
      rewrite Hw; reflexivity.
  - destruct (log_of_Some _ _ Hlog) as [[Hf ->] | Hf]; rewrite Hf; simpl;
      rewrite Hw; reflexivity.
Qed.

(** Every store is in exactly one of the two situations. *)
Lemma storage_ok_or_failure (st : store) :
  (exists prior, log_of (historical_actions st) = Some prior
                 /\ historical_actions_fault st = None)
  \/ (exists cause st', storage_failure st cause st').
Proof.
  destruct (log_of (historical_actions st)) as [prior|] eqn:Hlog.
  - destruct (historical_actions_fault st) as [[msg|msg leftover]|] eqn:Hw.
    + right. eexists _, _. eapply open_failed; eassumption.
    + right. eexists _, _. eapply dump_failed; eassumption.
    + left. now exists prior.
  - right. destruct (historical_actions st) as [|msg|msg|v] eqn:Hf.
    + discriminate Hlog.
    + eexists _, _. now apply read_denied with (msg := msg).
    + eexists _, _. now apply decode_failed with (msg := msg).
    + eexists _, _. now apply not_a_list with (v := v).
Qed.

Lemma error_result_not_success (e : exn) :
  field (error_result e) "status" <> Some (PStr "success").
Proof. simpl. discriminate. Qed.

(** A call that reports success found a log and appended to it. *)
Lemma record_result_success_inv (st st' : store) (out : pyval) :
  call st = (Ok out, st') ->
  field out "status" = Some (PStr "success") ->
  exists prior,
    log_of (historical_actions st) = Some prior
    /\ historical_actions_fault st = None
    /\ out = success_result action_status segment scenario record
                            (Z.of_nat (length (prior ++ [record])))
    /\ st' = Store (Json (PList (prior ++ [record]))) None
                   (historical_customer_data st).
Proof.
  intros Hcall Hstatus.
  destruct (storage_ok_or_failure st) as [(prior & Hlog & Hw) | (cause & st2 & Hfail)].
  - rewrite (record_result_appends _ _ Hlog Hw) in Hcall.
    injection Hcall as <- <-. exists prior. auto.
  - rewrite (record_result_reports _ _ _ Hfail) in Hcall.
    injection Hcall as <- <-. now apply error_result_not_success in Hstatus.
Qed.

(** The customer-data file is never written by [record_result]. *)
Lemma record_result_keeps_customer_data (st : store) :
  historical_customer_data (snd (call st)) = historical_customer_data st.
Proof.
  destruct (storage_ok_or_failure st) as [(prior & Hlog & Hw) | (cause & st2 & Hfail)].
  - rewrite (record_result_appends _ _ Hlog Hw). reflexivity.
  - rewrite (record_result_reports _ _ _ Hfail). simpl.
    destruct Hfail; reflexivity.
Qed.

(** C6.  A successful call leaves the prior log with exactly one record
    added at the end: the records that were there are all still there,
    unchanged and in the same positions, the length has grown by one, and
    the [total_historical_actions] returned is the new length. *)
Theorem record_result_appends_exactly_one (st st' : store) (out : pyval) :
  call st = (Ok out, st') ->
  field out "status" = Some (PStr "success") ->
  exists prior new,
    log_of (historical_actions st) = Some prior
    /\ log_of (historical_actions st') = Some new
    /\ new = (prior ++ [record])%list
    /\ length new = S (length prior)
    /\ firstn (length prior) new = prior
    /\ (forall i r, nth_error prior i = Some r -> nth_error new i = Some r)
    /\ field out "total_historical_actions"
       = Some (PInt (Z.of_nat (length new)))
    /\ historical_customer_data st' = historical_customer_data st.
Proof.
  intros Hcall Hstatus.
  destruct (record_result_success_inv _ _ _ Hcall Hstatus)
    as (prior & Hlog & _ & -> & ->).
  exists prior, (prior ++ [record])%list. repeat split; auto.
  - rewrite length_app. simpl. lia.
  - rewrite firstn_app, firstn_all, Nat.sub_diag. simpl. apply app_nil_r.
  - intros i r Hi. rewrite nth_error_app1; [exact Hi|].
    apply nth_error_Some. rewrite Hi. discriminate.
Qed.

(** C7.  [record_result] never raises.  It returns a dictionary, which is
    either a success report that contains the record now at the end of
    the log, or an error report; an error report carries the message of
    the storage failure that caused it, and every storage failure ends in
    such a report. *)
Theorem record_result_never_raises (st : store) :
  exists out,
    fst (call st) = Ok out
    /\ ((field out "status" = Some (PStr "success")
         /\ field out "recorded_data" = Some record
         /\ exists prior,
              log_of (historical_actions st) = Some prior
              /\ historical_actions (snd (call st))
                 = Json (PList (prior ++ [record])))
        \/ (field out "status" = Some (PStr "error")
            /\ exists cause,
                 storage_failure st cause (snd (call st))
                 /\ field out "message"
                    = Some (PStr ("Failed to record action: "
                                  ++ str_of_exn cause))))
    /\ (forall cause st',
          storage_failure st cause st' ->
          call st = (Ok (error_result cause), st')).
Proof.
  destruct (storage_ok_or_failure st) as [(prior & Hlog & Hw) | (cause & st2 & Hfail)].
  - rewrite (record_result_appends _ _ Hlog Hw). eexists. split; [reflexivity|].
    split.
    + left. repeat split. exists prior. auto.
    + intros cause st' Hfail. exfalso.
      destruct Hfail as [msg Hf | msg Hf | v Hf Hv | p msg Hl Hw' | p msg l Hl Hw'].
      all: try (rewrite Hf in Hlog; simpl in Hlog; congruence).
      all: try (rewrite Hw in Hw'; discriminate).
      rewrite Hf in Hlog. congruence.
  - pose proof (record_result_reports _ _ _ Hfail) as Hcall.
    exists (error_result cause). split; [rewrite Hcall; reflexivity|].
    split.
    + right. split; [reflexivity|]. exists cause. rewrite Hcall.
      split; [exact Hfail|reflexivity].
    + intros cause' st' Hfail'. apply record_result_reports. exact Hfail'.
Qed.

(** C10.  The record's [approved_by] is ['human'] exactly when the status
    is the string ['scheduled']; for every other status it is
    ['rejected'].  This record is the one a successful call stores. *)
Theorem approved_by_human_iff_scheduled :
  (field record "approved_by" = Some (PStr "human")
   <-> action_status = "scheduled")
  /\ (field record "approved_by" = Some (PStr "rejected")
      <-> action_status <> "scheduled")
  /\ field record "action_status" = Some (PStr action_status)
  /\ (forall st st' out,
        call st = (Ok out, st') ->
        field out "status" = Some (PStr "success") ->
        field out "recorded_data" = Some record
        /\ exists prior,
             historical_actions st' = Json (PList (prior ++ [record]))).
Proof.
  split; [|split; [|split; [reflexivity|]]].
  - simpl. destruct (String.eqb_spec action_status "scheduled") as [Heq|Hne].
    + split; auto.
    + split; [discriminate|intros Heq; now destruct Hne].
  - simpl. destruct (String.eqb_spec action_status "scheduled") as [Heq|Hne].
    + split; [discriminate|intros Hne; now destruct Hne].
    + split; auto.
  - intros st st' out Hcall Hstatus. split.
    + destruct (record_result_success_inv _ _ _ Hcall Hstatus)
        as (prior & _ & _ & -> & _).
      reflexivity.
    + destruct (record_result_success_inv _ _ _ Hcall Hstatus)
        as (prior & _ & _ & _ & ->).
      exists prior. reflexivity.
Qed.

End RecordResult.

(** A successful append on the example store. *)
Lemma record_result_appends_exactly_one_witness :
  exists out st',
    run_call (example_call "2025-01-22T19:30:00") example_store = (Ok out, st')
    /\ field out "status" = Some (PStr "success")
    /\ exists prior new,
         log_of (historical_actions example_store) = Some prior
         /\ log_of (historical_actions st') = Some new
         /\ new = (prior
                   ++ [results_tracker_tool.action_record
                         "2025-01-22T19:30:00" "CUST_12345"
                         "exclusive_early_access" "scheduled" "vip_customers"
                         (PFloat (FFin (17 # 2))) (PInt 575)
                         "email" "general"])%list
         /\ length new = S (length prior)
         /\ firstn (length prior) new = prior
         /\ (forall i r, nth_error prior i = Some r -> nth_error new i = Some r)
         /\ field out "total_historical_actions"
            = Some (PInt (Z.of_nat (length new)))
         /\ historical_customer_data st' = historical_customer_data example_store.
Proof.
  eexists _, _. split; [reflexivity|]. split; [reflexivity|].
  apply (record_result_appends_exactly_one
           "2025-01-22T19:30:00" "CUST_12345" "exclusive_early_access"
           "scheduled" "vip_customers" (PFloat (FFin (17 # 2))) (PInt 575)
           "email" "general" example_store); reflexivity.
Defined.

(** ** The read path never sees what [record_result] writes *)

Lemma run_calls_keep_customer_data (cs : list record_call) (st : store) :
  historical_customer_data (snd (run_calls cs st)) = historical_customer_data st.
Proof.
  revert st. induction cs as [|c cs IH]; intros st; simpl; [reflexivity|].
  pose proof (record_result_keeps_customer_data
                (at_time c) (for_customer c) (with_action c) (with_status c)
                (in_segment c) (with_roi c) (with_cost c) (on_channel c)
                (in_scenario c) st) as Hc.
  fold (run_call c) in Hc.
  destruct (run_call c st) as [r st1]. simpl in Hc.
  specialize (IH st1). destruct (run_calls cs st1) as [rs st2].
  simpl in *. congruence.
Qed.

Lemma query_reads_customer_data_only (st1 st2 : store) segment data_type :
  historical_customer_data st1 = historical_customer_data st2 ->
  historical_patterns_tool.query_historical_patterns st1 segment data_type
  = historical_patterns_tool.query_historical_patterns st2 segment data_type.
Proof.
  intros H. unfold historical_patterns_tool.query_historical_patterns.
  rewrite H. reflexivity.
Qed.

(** Whatever is appended, every query answers as it did before. *)
Lemma appends_invisible_to_queries
    (cs : list record_call) (st : store)
    (segment : option string) (data_type action_type asked : string) :
  historical_patterns_tool.query_historical_patterns
    (snd (run_calls cs st)) segment data_type
  = historical_patterns_tool.query_historical_patterns st segment data_type
  /\ historical_patterns_tool.get_action_success_rate
       (snd (run_calls cs st)) action_type asked
     = historical_patterns_tool.get_action_success_rate st action_type asked.
Proof.
  pose proof (run_calls_keep_customer_data cs st) as H.
  split.
  - now apply query_reads_customer_data_only.
  - unfold historical_patterns_tool.get_action_success_rate.
    now rewrite (query_reads_customer_data_only _ _ (Some asked) "all" H).
Qed.

(** C2, evaluated on the example store.  Two successful appends for the
    segment [vip_customers] grow the action log by two records of that
    segment, yet the segment query answers exactly as before the appends:
    the sample size it shows is still 1, and the success rate read by
    [get_action_success_rate] is the stored one.  The same holds on every
    store and for every sequence of appends: a query never changes. *)
Theorem appends_not_reflected_by_segment_query :
  let calls := [example_call "2025-01-22T19:30:00";
                example_call "2025-01-23T08:15:00"] in
  let before := example_store in
  let after := snd (run_calls calls before) in
  let ask st :=
    historical_patterns_tool.query_historical_patterns
      st (Some "vip_customers") "all" in
  forallb succeeded (fst (run_calls calls before)) = true
  /\ option_map (@length pyval) (log_of (historical_actions after))
     = Some (length example_log + 2)%nat
  /\ option_map
       (fun log =>
          length (filter (fun r => match field r "customer_segment" with
                                   | Some v => eq_str v "vip_customers"
                                   | None => false
                                   end) log))
       (log_of (historical_actions after)) = Some 2%nat
  /\ ask after = ask before
  /\ reflected_sample_size (ask after) = 1
  /\ historical_patterns_tool.get_action_success_rate
       after "exclusive_early_access" "vip_customers"
     = Ok (PFloat (FFin (9 # 20)))
  /\ (forall cs st segment data_type,
        historical_patterns_tool.query_historical_patterns
          (snd (run_calls cs st)) segment data_type
        = historical_patterns_tool.query_historical_patterns
            st segment data_type).
Proof.
  cbv zeta. split; [reflexivity|]. split; [reflexivity|].
  split; [reflexivity|]. split.
  - apply appends_invisible_to_queries; exact "".
  - split; [reflexivity|]. split; [reflexivity|].
    intros cs st segment data_type.
    apply appends_invisible_to_queries; exact "".
Qed.

(** ** The approval gate *)

(** C4.  Once a decision is recorded in the tool context, the gate
    returns the answer fixed by that decision alone ([approved] is true
    exactly when the decision is a confirmation), issues no confirmation
    request and prints nothing, leaves the context as it was, and answers
    the same on every further call. *)
Theorem recorded_decision_is_returned
    (action_summary estimated_cost expected_roi : string)
    (tool_context : ToolContext) (decision : ToolConfirmation) :
  tool_confirmation tool_context = Some decision ->
  let first :=
    agent_8_approval_adk.request_human_approval
      action_summary estimated_cost expected_roi tool_context in
  agent_8_approval_adk.returned first = decision_result (confirmed decision)
  /\ field (agent_8_approval_adk.returned first) "approved"
     = Some (PBool (confirmed decision))
  /\ agent_8_approval_adk.context first = tool_context
  /\ agent_8_approval_adk.printed first = []
  /\ (forall summary' cost' roi',
        agent_8_approval_adk.request_human_approval
          summary' cost' roi' (agent_8_approval_adk.context first)
        = agent_8_approval_adk.request_human_approval
            summary' cost' roi' tool_context
        /\ agent_8_approval_adk.returned
             (agent_8_approval_adk.request_human_approval
                summary' cost' roi' (agent_8_approval_adk.context first))
           = agent_8_approval_adk.returned first)
  /\ (forall summary' cost' roi' other decision',
        tool_confirmation other = Some decision' ->
        confirmed decision' = confirmed decision ->
        agent_8_approval_adk.returned
          (agent_8_approval_adk.request_human_approval
             summary' cost' roi' other)
        = agent_8_approval_adk.returned first).
Proof.
  intros Hrec first. subst first.
  unfold agent_8_approval_adk.request_human_approval. rewrite Hrec.
  destruct (confirmed decision) eqn:Hc; simpl.
  all: repeat split; try reflexivity.
  all: try (rewrite Hrec, Hc; reflexivity).
  all: intros summary' cost' roi' other decision' Ho Hd; rewrite Ho, Hd;
    reflexivity.
Qed.

Lemma recorded_decision_is_returned_witness :
  let decision :=
    {| hint := "Approve marketing action?";
       confirmed := false;
       payload := PNone |} in
  let decided :=
    {| tool_confirmation := Some decision;
       requested_tool_confirmations := [] |} in
  tool_confirmation decided = Some decision
  /\ agent_8_approval_adk.returned
       (agent_8_approval_adk.request_human_approval
          "Email with 15% discount" "575" "8.5" decided)
     = decision_result false.
Proof.
  intros decision decided. split; [reflexivity|].
  exact (proj1 (recorded_decision_is_returned
                  "Email with 15% discount" "575" "8.5" decided decision
                  eq_refl)).
Defined.

(** ** The matching rule *)

Section Matching.

Import historical_patterns_tool.

#[local] Arguments num_gt : simpl never.
#[local] Arguments num_ge : simpl never.
#[local] Arguments num_eq : simpl never.

Lemma numeric_entry_as_num (d : dict) (k : string) (z : Z) :
  numeric_entry d k = true ->
  exists n, as_num (get_or d k (PInt z)) = Some n.
Proof.
  unfold numeric_entry, get_or. destruct (lookup k d) as [v|].
  - destruct (as_num v) as [n|]; [eauto|discriminate].
  - simpl. eauto.
Qed.

(** An abandoned cart decides, whatever else the profile holds. *)
Lemma abandoned_cart_wins (profile : dict) :
  applies profile CartAbandoned = true ->
  matched_segment_of (PDict profile) = Ok "price_sensitive_cart_abandoners".
Proof.
  unfold matched_segment_of. simpl. intros ->. reflexivity.
Qed.

(** On a well-typed profile the cascade is the first match in the
    priority order. *)
Lemma cascade_is_first_match (profile : dict) :
  well_typed_profile profile = true ->
  exists s,
    first_match profile = Some s
    /\ matched_segment_of (PDict profile) = Ok (scenario_key s).
Proof.
  unfold well_typed_profile. intros Hwt.
  apply andb_true_iff in Hwt as [Ht Hd].
  destruct (numeric_entry_as_num _ _ 0 Ht) as [orders Ho].
  destruct (numeric_entry_as_num _ _ 0 Hd) as [days Hdays].
  unfold matched_segment_of, first_match, priority_order. simpl.
  unfold exceeds, at_least, gt_int, ge_int, eq_int. rewrite Ho, Hdays.
  destruct (eq_str (get_or profile "cart_status" (PStr "empty")) "abandoned");
    [exists CartAbandoned; auto|].
  destruct (eq_str (get_or profile "segment" (PStr "medium_value")) "vip");
    [exists VipSegment; auto|].
  destruct (eq_str (get_or profile "churn_risk" (PStr "low")) "high"); simpl;
    [exists HighChurnOrStale; auto|].
  destruct (num_gt days (NInt 60)); simpl; [exists HighChurnOrStale; auto|].
  destruct (num_eq orders (NInt 0)); [exists ZeroHistory; auto|].
  destruct (num_ge orders (NInt 3)); simpl;
    [exists RepeatBuyer; auto|exists DefaultScenario; auto].
Qed.

(** A segment query for a non-empty segment on a readable file returns a
    dictionary. *)
Lemma segment_query_returns (st : store) (s : string) :
  segments_readable st = true ->
  s <> "" ->
  exists answer, query_historical_patterns st (Some s) "all" = Ok (PDict answer).
Proof.
  unfold segments_readable, query_historical_patterns.
  intros Hr Hs. apply String.eqb_neq in Hs. rewrite Hs.
  destruct (historical_customer_data st) as [|msg|msg|v]; simpl;
    try discriminate; eauto.
  destruct v; try discriminate. simpl.
  destruct (get_or d "customer_segments" (PDict [])); try discriminate.
  simpl. unfold has_key.
  destruct (lookup s d0); simpl; eauto.
Qed.

Lemma scenario_key_not_empty (s : scenario) : scenario_key s <> "".
Proof. destruct s; discriminate. Qed.

(** C1.  For every customer profile handed to
    [find_similar_customer_segment], the segment is picked by the fixed
    priority order cart-abandoned, vip-segment, high-churn-or-stale,
    zero-history, repeat-buyer, default, the first scenario that applies
    deciding; a profile whose cart is abandoned is matched to
    [price_sensitive_cart_abandoners] even when its segment is [vip].
    The key reported by the tool is the one the cascade picked, and the
    tool returns on every well-typed profile when the customer-data file
    can be queried. *)
Theorem segment_selected_by_priority
    (customer_profile_json : json_text) (profile : dict) :
  customer_profile_of customer_profile_json = PDict profile ->
  (applies profile CartAbandoned = true ->
   matched_segment_of (PDict profile) = Ok "price_sensitive_cart_abandoners")
  /\ (well_typed_profile profile = true ->
      exists s,
        first_match profile = Some s
        /\ matched_segment_of (PDict profile) = Ok (scenario_key s)
        /\ forall st,
             segments_readable st = true ->
             exists out,
               find_similar_customer_segment st customer_profile_json = Ok out
               /\ field out "matched_segment" = Some (PStr (scenario_key s)))
  /\ (forall st out,
        find_similar_customer_segment st customer_profile_json = Ok out ->
        exists key,
          matched_segment_of (PDict profile) = Ok key
          /\ field out "matched_segment" = Some (PStr key)).
Proof.
  intros Hprofile. split; [apply abandoned_cart_wins|]. split.
  - intros Hwt. destruct (cascade_is_first_match _ Hwt) as (s & Hfirst & Hsel).
    exists s. repeat split; auto.
    intros st Hst.
    destruct (segment_query_returns st (scenario_key s) Hst
                (scenario_key_not_empty s)) as [answer Hq].
    unfold find_similar_customer_segment.
    rewrite Hprofile, Hsel. simpl. rewrite Hq. simpl.
    eexists. split; reflexivity.
  - intros st out. unfold find_similar_customer_segment. rewrite Hprofile.
    destruct (matched_segment_of (PDict profile)) as [key|e]; simpl;
      [|discriminate].
    destruct (query_historical_patterns st (Some key) "all") as [result|e];
      simpl; [|discriminate].
    destruct (py_get result "data" (PDict [])) as [data|e]; simpl;
      [|discriminate].
    intros [= <-]. exists key. split; reflexivity.
Qed.

Lemma segment_selected_by_priority_witness :
  let profile :=
    [("customer_id", PStr "CUST_12345");
     ("segment", PStr "vip");
     ("cart_status", PStr "abandoned");
     ("total_orders", PInt 8);
     ("days_since_last_purchase", PInt 75);
     ("churn_risk", PStr "high")] in
  customer_profile_of (Encodes (PDict profile)) = PDict profile
  /\ matched_segment_of (PDict profile) = Ok "price_sensitive_cart_abandoners"
  /\ exists s,
       first_match profile = Some s
       /\ matched_segment_of (PDict profile) = Ok (scenario_key s)
       /\ forall st,
            segments_readable st = true ->
            exists out,
              find_similar_customer_segment st (Encodes (PDict profile)) = Ok out
              /\ field out "matched_segment" = Some (PStr (scenario_key s)).
Proof.
  intros profile.
  pose (checked := segment_selected_by_priority
                     (Encodes (PDict profile)) profile eq_refl).
  split; [reflexivity|].
  split; [exact (proj1 checked eq_refl)|].
  exact (proj1 (proj2 checked) eq_refl).
Defined.

End Matching.

(** ** The default success rate *)

Section DefaultRate.

Import historical_patterns_tool.




End DefaultRate.

(** ** The ROI score *)

Section Score.

Import analytics_tool.

Lemma Qle_bool_false (a b : Q) : Qle_bool a b = false -> (b < a)%Q.
Proof.
  intros H. apply Qnot_le_lt. intros Hle.
  apply Qle_bool_iff in Hle. congruence.
Qed.

Lemma Qlt_bool_true (a b : Q) : Qlt_bool a b = true -> (a < b)%Q.
Proof.
  unfold Qlt_bool. intros H. apply Qle_bool_false.
  now apply negb_true_iff in H.
Qed.

(** Clamping lands between 1 and 10 whatever the operand, [nan] and the
    infinities included. *)
Lemma clamp_in_range (x : num) : num_in_range (clamp x).
Proof.
  unfold clamp, max2, min2, num_gt.
  destruct x as [z | [| [|] | q]]; simpl.
  - destruct (Z.ltb_spec 1 z); simpl.
    + destruct (Z.ltb_spec z 10); simpl; lia.
    + lia.
  - lia.
  - lia.
  - lia.
  - destruct (Qlt_bool (inject_Z 1) q) eqn:Hlo; simpl.
    + destruct (Qlt_bool q (inject_Z 10)) eqn:Hhi; simpl.
      * apply Qlt_bool_true in Hlo, Hhi. split; now apply Qlt_le_weak.
      * lia.
    + lia.
Qed.

Lemma round_half_even_between (a b : Z) (q : Q) :
  (inject_Z a <= q)%Q -> (q <= inject_Z b)%Q ->
  a <= round_half_even q <= b.
Proof.
  intros Ha Hb. unfold round_half_even.
  assert (Hfl : (inject_Z (Qfloor q) <= q)%Q) by apply Qfloor_le.
  assert (Hlo : a <= Qfloor q).
  { rewrite <- (Qfloor_Z a). now apply Qfloor_resp_le. }
  assert (Hhi : Qfloor q <= b).
  { rewrite Zle_Qle. now apply Qle_trans with q. }
  assert (Hup : (inject_Z (Qfloor q) < q)%Q -> Qfloor q + 1 <= b).
  { intros Hlt. assert (Qfloor q < b); [|lia].
    rewrite Zlt_Qlt. now apply Qlt_le_trans with q. }
  assert (Hpos : (0 < q - inject_Z (Qfloor q))%Q -> Qfloor q + 1 <= b).
  { intros H. apply Hup. now apply Qlt_minus_iff. }
  destruct (Qcompare (q - inject_Z (Qfloor q)) (1 # 2)) eqn:Hc.
  - apply Qeq_alt in Hc.
    destruct (Z.even (Qfloor q)); [lia|]. split; [lia|].
    apply Hpos. rewrite Hc. reflexivity.
  - lia.
  - apply Qgt_alt in Hc. split; [lia|].
    apply Hpos. apply Qlt_trans with (1 # 2); [reflexivity|exact Hc].
Qed.

(** Rounding to one decimal stays between 1 and 10. *)
Lemma round_keeps_range (n : num) :
  num_in_range n -> num_in_range (round_nd n 1).
Proof.
  destruct n as [z | [| s | q]]; [simpl; auto ..|].
  unfold round_nd, num_in_range. intros [Hlo Hhi].
  change (10 ^ Z.of_nat 1) with 10.
  assert (H : 10 <= round_half_even (q * inject_Z 10) <= 100).
  { apply round_half_even_between.
    - change (inject_Z 10) with (1 * inject_Z 10)%Q at 1.
      apply Qmult_le_compat_r; [exact Hlo|discriminate].
    - change (inject_Z 100) with (10 * inject_Z 10)%Q.
      apply Qmult_le_compat_r; [exact Hhi|discriminate]. }
  set (r := round_half_even (q * inject_Z 10)) in *.
  rewrite !Qred_correct.
  unfold Qle, Qdiv, Qmult, Qinv, inject_Z. simpl. lia.
Qed.

Lemma in_score_range_of_num (n : num) :
  num_in_range n -> in_score_range (of_num n).
Proof. destruct n as [z | [| s | q]]; simpl; auto. Qed.

Lemma roi_score_in_range (score : num) :
  in_score_range (of_num (round_nd (clamp score) 1)).
Proof.
  apply in_score_range_of_num, round_keeps_range, clamp_in_range.
Qed.

Ltac bind_ok H :=
  match type of H with
  | bind ?m _ = Ok _ =>
      let E := fresh "E" in
      destruct m eqn:E; cbn [bind] in H; [|discriminate H]
  end.

(** Whenever [score_action] returns, the score it reports is in range. *)
Lemma score_action_in_range (st : store) (action : dict) (out : pyval) :
  score_action st action = Ok out ->
  exists v, field out "roi_score" = Some v /\ in_score_range v.
Proof.
  unfold score_action. intros H. repeat bind_ok H.
  injection H as <-. eexists. split; [reflexivity|].
  apply roi_score_in_range.
Qed.

(** *** [score_action] returns on a readable log and a numeric cost *)

Lemma filterM_total {A} (p : A -> res bool) (P : A -> Prop) (l : list A) :
  (forall a, P a -> exists b, p a = Ok b) ->
  Forall P l ->
  exists r, filterM p l = Ok r /\ Forall P r.
Proof.
  intros Hp. induction 1 as [|a l Ha _ (r & Hr & HP)]; simpl.
  - exists []. auto.
  - destruct (Hp a Ha) as [b ->]. simpl. rewrite Hr. simpl.
    destruct b; eexists; split; eauto.
Qed.

Lemma scorable_record_inv (a : pyval) :
  scorable_record a = true ->
  exists d, a = PDict d /\ numeric_entry d "roi" = true.
Proof. destruct a; simpl; try discriminate. eauto. Qed.

Lemma count_flag_total (key : string) (filtered : list pyval) :
  Forall (fun a => scorable_record a = true) filtered ->
  exists c, count_flag key filtered = Ok c.
Proof.
  intros H. unfold count_flag.
  destruct (filterM_total
              (fun a => bind (py_get a key (PBool false))
                             (fun v => Ok (truthy v)))
              (fun a => scorable_record a = true) filtered) as (r & -> & _).
  - intros a (d & -> & _)%scorable_record_inv. simpl. eauto.
  - exact H.
  - simpl. eauto.
Qed.

Lemma sum_roi_total (filtered : list pyval) :
  Forall (fun a => scorable_record a = true) filtered ->
  forall acc, exists total, sum_roi acc filtered = Ok total.
Proof.
  induction 1 as [|a l Ha _ IH]; intros acc; simpl.
  - eauto.
  - apply scorable_record_inv in Ha as (d & -> & Hroi). simpl.
    destruct (numeric_entry_as_num d "roi" 0 Hroi) as [n ->]. apply IH.
Qed.

Lemma truediv_int_total (x : num) (z : Z) :
  z <> 0 -> exists f, truediv_int x z = Ok (NFloat f).
Proof.
  intros Hz. unfold truediv_int. apply Z.eqb_neq in Hz. rewrite Hz. eauto.
Qed.

Lemma percentage_total (count total : Z) :
  total <> 0 -> exists v, percentage count total = Ok v.
Proof.
  intros Hz. unfold percentage.
  destruct (truediv_int_total (NInt count) total Hz) as [f ->]. simpl. eauto.
Qed.

Lemma as_num_of_num (n : num) : as_num (of_num n) = Some n.
Proof. destruct n; reflexivity. Qed.

Lemma get_historical_actions_total (st : store) :
  scorable_log (historical_actions st) = true ->
  exists l,
    get_historical_actions st None = Ok (PList l)
    /\ Forall (fun a => scorable_record a = true) l.
Proof.
  unfold scorable_log, get_historical_actions.
  destruct (historical_actions st) as [|msg|msg|v]; simpl; try discriminate.
  - exists []. auto.
  - destruct v; try discriminate. intros H. exists l. split; [reflexivity|].
    apply Forall_forall. now apply forallb_forall.
Qed.

Lemma performance_total (st : store) (action_type : pyval) :
  scorable_log (historical_actions st) = true ->
  exists perf n,
    get_action_performance_by_type st action_type = Ok (PDict perf)
    /\ as_num (get_or perf "avg_roi" (PInt 0)) = Some n.
Proof.
  intros Hlog. unfold get_action_performance_by_type.
  destruct (get_historical_actions_total st Hlog) as (l & -> & Hl). simpl.
  destruct (filterM_total
              (fun a => bind (py_get a "action_type" PNone)
                             (fun t => Ok (py_eq t action_type)))
              (fun a => scorable_record a = true) l) as (filtered & -> & Hf).
  - intros a (d & -> & _)%scorable_record_inv. simpl. eauto.
  - exact Hl.
  - simpl. destruct filtered as [|a rest].
    + eexists _, (NInt 0). split; reflexivity.
    + set (filtered := a :: rest) in *.
      assert (Htotal : Z.of_nat (length filtered) <> 0) by (simpl; lia).
      destruct (count_flag_total "converted" filtered Hf) as [c1 ->].
      destruct (count_flag_total "opened" filtered Hf) as [c2 ->].
      destruct (count_flag_total "clicked" filtered Hf) as [c3 ->].
      destruct (sum_roi_total filtered Hf (NInt 0)) as [total ->].
      cbn [bind].
      destruct (truediv_int_total total _ Htotal) as [avg ->].
      destruct (percentage_total c1 _ Htotal) as [p1 ->].
      destruct (percentage_total c2 _ Htotal) as [p2 ->].
      destruct (percentage_total c3 _ Htotal) as [p3 ->].
      cbn [bind]. eexists _, _. split; [reflexivity|].
      unfold get_or. cbn [lookup String.eqb Ascii.eqb Bool.eqb].
      apply as_num_of_num.
Qed.

Lemma score_action_total (st : store) (action : dict) :
  scorable_log (historical_actions st) = true ->
  numeric_entry action "estimated_cost" = true ->
  exists out, score_action st action = Ok out.
Proof.
  intros Hlog Hcost. unfold score_action.
  destruct (performance_total st (get_or action "action_type" (PStr "unknown"))
              Hlog) as (perf & roi & -> & Hroi).
  cbn [bind py_get]. unfold operand. rewrite Hroi. cbn [bind].
  destruct (truediv_int_total roi 2) as [halved ->]; [discriminate|].
  cbn [bind].
  destruct (numeric_entry_as_num action "estimated_cost" 0 Hcost) as [cost Hc].
  unfold lt_int, gt_int. rewrite Hc. cbn [bind].
  destruct (num_lt cost (NInt 50)); cbn [bind]; eauto.
Qed.

(** C9.  The [roi_score] that [score_action] returns lies between 1.0 and
    10.0, both included, for every action dictionary and every state of
    the action log; and it does return one whenever the log can be read,
    the integer [roi] entries of the log are within float range (so that
    averaging them does not raise [OverflowError]) and the action's cost
    is a number. *)
Theorem roi_score_between_1_and_10 (st : store) (action : dict) :
  (forall out,
     score_action st action = Ok out ->
     exists v, field out "roi_score" = Some v /\ in_score_range v)
  /\ (scorable_log (historical_actions st) = true ->
      roi_in_float_range (historical_actions st) = true ->
      numeric_entry action "estimated_cost" = true ->
      exists out v,
        score_action st action = Ok out
        /\ field out "roi_score" = Some v
        /\ in_score_range v).
Proof.
  split.
  - intros out. apply score_action_in_range.
  - intros Hlog _ Hcost.
    destruct (score_action_total st action Hlog Hcost) as [out Hout].
    destruct (score_action_in_range st action out Hout) as (v & Hv & Hrange).
    exists out, v. auto.
Qed.

Lemma roi_score_between_1_and_10_witness :
  let action := [("action_id", PStr "A1");
                 ("action_type", PStr "email_discount");
                 ("channel", PStr "email");
                 ("estimated_cost", PInt 30)] in
  (scorable_log (historical_actions example_store) = true
   /\ roi_in_float_range (historical_actions example_store) = true
   /\ numeric_entry action "estimated_cost" = true)
  /\ exists out v,
       score_action example_store action = Ok out
       /\ field out "roi_score" = Some v
       /\ in_score_range v.
Proof.
  intros action. split; [repeat split; reflexivity|].
  exact (proj2 (roi_score_between_1_and_10 example_store action)
               eq_refl eq_refl eq_refl).
Defined.

End Score.

(* ================================================================== *)
(** * Evaluations                                                      *)
(* ================================================================== *)

Section Evaluations.

Import historical_patterns_tool analytics_tool.

(** One profile for each scenario of the priority order. *)
Example cascade_by_example :
  map (fun profile => matched_segment_of (PDict profile))
      [[("cart_status", PStr "abandoned"); ("segment", PStr "vip")];
       [("segment", PStr "vip"); ("churn_risk", PStr "high")];
       [("days_since_last_purchase", PInt 61); ("total_orders", PInt 0)];
       [("days_since_last_purchase", PInt 60); ("total_orders", PInt 0)];
       [("total_orders", PInt 3)];
       [("total_orders", PInt 2)];
       []]
  = map (fun s => Ok (scenario_key s))
        [CartAbandoned; VipSegment; HighChurnOrStale; ZeroHistory;
         RepeatBuyer; DefaultScenario; ZeroHistory].
Proof. reflexivity. Qed.

(** A text that is not JSON is treated as the empty profile. *)
Example malformed_text_is_empty_profile :
  customer_profile_of Malformed = PDict []
  /\ field_of_result (find_similar_customer_segment example_store Malformed)
       "matched_segment"
     = Some (PStr "first_time_browsers").
Proof. split; reflexivity. Qed.

(** Outside the profile format the comparisons raise: an order count
    given as a string is not comparable with 3, and a text that decodes
    to something other than an object has no [get]. *)
Example ill_typed_profile_raises :
  matched_segment_of (PDict [("total_orders", PStr "3")])
  = Raise (type_error
             "'>=' not supported between instances of 'str' and 'int'")
  /\ matched_segment_of (PList [])
     = Raise (no_attribute (PList []) "get").
Proof. split; reflexivity. Qed.

(** Without a recorded decision the gate asks and reports [pending]. *)
Example first_call_requests_confirmation :
  let fresh :=
    {| tool_confirmation := None; requested_tool_confirmations := [] |} in
  let first :=
    agent_8_approval_adk.request_human_approval
      "Email with 15% discount" "575" "8.5" fresh in
  field (agent_8_approval_adk.returned first) "status" = Some (PStr "pending")
  /\ requested_tool_confirmations (agent_8_approval_adk.context first)
     = [("Approve marketing action?",
         PDict [("action", PStr "Email with 15% discount");
                ("cost", PStr "575");
                ("roi", PStr "8.5")])]
  /\ length (agent_8_approval_adk.printed first) = 7%nat.
Proof. repeat split. Qed.

(** One logged action with ROI 6, a cheap e-mail: 6/2, +1, +0.5. *)
Example score_action_by_example :
  field_of_result
    (score_action example_store
       [("action_id", PStr "A1");
        ("action_type", PStr "email_discount");
        ("channel", PStr "email");
        ("estimated_cost", PInt 30)])
    "roi_score"
  = Some (PFloat (FFin (9 # 2))).
Proof. reflexivity. Qed.

(** A cost given as a string cannot be compared with 50. *)
Example non_numeric_cost_raises :
  score_action example_store [("estimated_cost", PStr "575")]
  = Raise (type_error
             "'<' not supported between instances of 'str' and 'int'").
Proof. reflexivity. Qed.

(** A log that is not a JSON array is reported, not raised, and the file
    is left as it was. *)
Example record_result_on_non_array_log :
  let st := {| historical_actions := Json (PDict []);
               historical_actions_fault := None;
               historical_customer_data := Absent |} in
  run_call (example_call "2025-01-22T19:30:00") st
  = (Ok (PDict [("status", PStr "error");
                ("message",
                 PStr "Failed to record action: 'dict' object has no attribute 'append'")]),
     st).
Proof. reflexivity. Qed.

(** An integer [roi] of 401 digits is beyond float range: averaging it
    raises [OverflowError] in Python, and the log is none of those on
    which [score_action] is shown to return. *)
Example integer_roi_beyond_float_range :
  roi_in_float_range
    (Json (PList [PDict [("action_type", PStr "email_discount");
                         ("roi", PInt (10 ^ 400))]])) = false.
Proof. vm_compute. reflexivity. Qed.

(** A name with a capital E acute (bytes 195, 137 in UTF-8) is not an
    ASCII string: [str.lower()] changes it, [lower] does not. *)
Example accented_name_is_not_ascii :
  let name := "CAF" ++ String (ascii_of_nat 195) (String (ascii_of_nat 137) "") in
  is_ascii name = false /\ is_ascii "cafe" = true.
Proof. split; reflexivity. Qed.

End Evaluations.

(* ================================================================== *)
(** * Further properties of the tools                                  *)
(* ================================================================== *)

(** ** Order on numbers *)

Section NumberOrder.

Lemma Qlt_bool_iff (a b : Q) : Qlt_bool a b = true <-> (a < b)%Q.
Proof.
  unfold Qlt_bool. rewrite negb_true_iff. split.
  - intros H. apply Qnot_le_lt. intros Hle.
    apply Qle_bool_iff in Hle. congruence.
  - intros H. destruct (Qle_bool b a) eqn:E; [|reflexivity].
    apply Qle_bool_iff in E. exfalso. now apply (Qlt_not_le a b).
Qed.

(** On numbers, [<] is the order of the floats they denote. *)
Lemma num_lt_as_float (a b : num) :
  num_lt a b = flt (to_float a) (to_float b).
Proof.
  destruct a as [x|f], b as [y|g]; try reflexivity. simpl.
  destruct (Z.ltb_spec x y) as [H|H]; symmetry.
  - apply Qlt_bool_iff. now rewrite <- Zlt_Qlt.
  - destruct (Qlt_bool (inject_Z x) (inject_Z y)) eqn:E; [|reflexivity].
    apply Qlt_bool_iff in E. rewrite <- Zlt_Qlt in E. lia.
Qed.

Lemma flt_trans (f g h : pyfloat) :
  flt f g = true -> flt g h = true -> flt f h = true.
Proof.
  destruct f as [|[|]|a], g as [|[|]|b], h as [|[|]|c]; simpl;
    try discriminate; try reflexivity.
  rewrite !Qlt_bool_iff. apply Qlt_trans.
Qed.

Lemma flt_irrefl (f : pyfloat) : flt f f = false.
Proof.
  destruct f as [|[|]|a]; simpl; try reflexivity.
  destruct (Qlt_bool a a) eqn:E; [|reflexivity].
  apply Qlt_bool_iff in E. now apply Qlt_irrefl in E.
Qed.

Lemma num_gt_trans (a b c : num) :
  num_gt a b = true -> num_gt b c = true -> num_gt a c = true.
Proof.
  unfold num_gt. rewrite !num_lt_as_float. intros H1 H2.
  now apply flt_trans with (to_float b).
Qed.

Lemma num_gt_irrefl (a : num) : num_gt a a = false.
Proof. unfold num_gt. rewrite num_lt_as_float. apply flt_irrefl. Qed.

(** [>] on two values that are numbers does not raise. *)
Lemma py_gt_numbers (v w : pyval) (x y : num) :
  as_num v = Some x -> as_num w = Some y ->
  py_gt v w = Ok (num_gt x y).
Proof.
  destruct v; try discriminate; destruct w; try discriminate; simpl;
    intros [= <-] [= <-]; reflexivity.
Qed.

Lemma py_lt_numbers (v w : pyval) (x y : num) :
  as_num v = Some x -> as_num w = Some y ->
  py_lt v w = Ok (num_lt x y).
Proof.
  destruct v; try discriminate; destruct w; try discriminate; simpl;
    intros [= <-] [= <-]; reflexivity.
Qed.

End NumberOrder.

(** ** [max] and [min] with a numeric key *)

Section MaxMin.

Context {A : Type} (key : A -> res pyval).

Lemma numeric_key_unique (x : A) (n m : num) :
  numeric_key key x n -> numeric_key key x m -> n = m.
Proof. intros (v & Hv & Hn) (w & Hw & Hm). congruence. Qed.

Lemma max_loop_numeric (rest : list A) :
  forall (best : A) (kv : pyval) (bk : num) (seen : list A),
    key best = Ok kv -> as_num kv = Some bk ->
    Forall (not_above key bk) seen ->
    Forall (fun x => exists n, numeric_key key x n) rest ->
    exists b nb,
      max_loop key best kv rest = Ok b
      /\ numeric_key key b nb
      /\ (b = best \/ In b rest)
      /\ Forall (not_above key nb) seen
      /\ Forall (not_above key nb) rest.
Proof.
  induction rest as [|x rest IH]; intros best kv bk seen Hk Hbk Hseen Hrest.
  - exists best, bk. simpl. repeat split; auto. now exists kv.
  - inversion Hrest as [|? ? (n & k & Hkx & Hn) Hrest']; subst.
    simpl. rewrite Hkx. simpl. rewrite (py_gt_numbers _ _ _ _ Hn Hbk). simpl.
    destruct (num_gt n bk) eqn:Hgt.
    + destruct (IH x k n (x :: seen) Hkx Hn) as (b & nb & Hb & Hnb & Hin & Hs & Hr).
      * constructor.
        -- intros m Hm.
           rewrite (numeric_key_unique x m n Hm) by (now exists k).
           apply num_gt_irrefl.
        -- apply Forall_forall. intros y Hy m Hm.
           rewrite Forall_forall in Hseen. specialize (Hseen y Hy m Hm).
           destruct (num_gt m n) eqn:E; [|reflexivity].
           rewrite (num_gt_trans _ _ _ E Hgt) in Hseen. discriminate.
      * exact Hrest'.
      * exists b, nb. inversion Hs; subst.
        repeat split; auto.
        destruct Hin as [->|Hin]; [right; now left|right; now right].
    + destruct (IH best kv bk (x :: seen) Hk Hbk) as (b & nb & Hb & Hnb & Hin & Hs & Hr).
      * constructor; [|exact Hseen].
        intros m Hm.
        rewrite (numeric_key_unique x m n Hm) by (now exists k). exact Hgt.
      * exact Hrest'.
      * exists b, nb. inversion Hs; subst.
        repeat split; auto.
        destruct Hin as [->|Hin]; [now left|right; now right].
Qed.

(** [max] over items whose keys are numbers returns one of the items,
    and no item has a strictly greater key. *)
Lemma max_by_numeric (first : A) (rest : list A) :
  Forall (fun x => exists n, numeric_key key x n) (first :: rest) ->
  exists best top,
    max_by key first rest = Ok best
    /\ In best (first :: rest)
    /\ numeric_key key best top
    /\ Forall (not_above key top) (first :: rest).
Proof.
  intros H. inversion H as [|? ? (n & k & Hk & Hn) Hrest]; subst.
  unfold max_by. rewrite Hk. simpl.
  destruct (max_loop_numeric rest first k n [first] Hk Hn) as
    (b & nb & Hb & Hnb & Hin & Hs & Hr); auto.
  - constructor; [|constructor]. intros m Hm.
    rewrite (numeric_key_unique first m n Hm) by (now exists k).
    apply num_gt_irrefl.
  - exists b, nb. repeat split; auto.
    + destruct Hin as [->|Hin]; [now left|now right].
    + inversion Hs; subst. now constructor.
Qed.

End MaxMin.

(** ** The best-performing action of a segment *)

Section BestAction.

Import historical_patterns_tool historical_patterns_tool_rest.

Lemma rated_key (n : num) (action : pyval) :
  rated n action -> numeric_key success_rate_of action n.
Proof.
  intros (entry & -> & Hn). exists (get_or entry "success_rate" (PInt 0)).
  split; [reflexivity|exact Hn].
Qed.

Lemma rated_of_key (n : num) (entry : dict) :
  numeric_key success_rate_of (PDict entry) n -> rated n (PDict entry).
Proof.
  intros (v & Hv & Hn). exists entry. split; [reflexivity|].
  unfold success_rate_of in Hv. simpl in Hv. congruence.
Qed.

(** Up to the emptiness test the call only reads the stored actions. *)
Lemma stored_actions_reached (st : store) (segment : string) (actions : pyval) :
  stored_actions st segment actions ->
  get_best_performing_action st segment =
    match view_sequence actions with
    | Falsy => Ok (PDict [("error", PStr "No historical actions found")])
    | NotIterable e => Raise e
    | NonEmpty first rest =>
        bind (max_by success_rate_of first rest) (fun best_action =>
        bind (py_get best_action "action" PNone) (fun action =>
        bind (py_get best_action "success_rate" PNone) (fun success_rate =>
        bind (py_get best_action "avg_order_value" PNone) (fun avg_order_value =>
        bind (py_get best_action "optimal_timing" PNone) (fun optimal_timing =>
        bind (py_get best_action "sample_size" PNone) (fun sample_size =>
        Ok (PDict [("best_action", action);
                   ("success_rate", success_rate);
                   ("avg_order_value", avg_order_value);
                   ("optimal_timing", optimal_timing);
                   ("sample_size", sample_size)])))))))
    end.
Proof.
  intros (Hs & top & segments & data & Hf & Hsegs & Hdata & Hactions).
  unfold get_best_performing_action, query_historical_patterns.
  apply String.eqb_neq in Hs. rewrite Hf, Hs. simpl. rewrite Hsegs. simpl.
  unfold has_key. rewrite Hdata. simpl. rewrite Hactions. reflexivity.
Qed.

(** X1.  When the segment's stored successful actions are a non-empty
    list of objects whose success rates are numbers,
    [get_best_performing_action] reports one of them, and no stored
    action of the segment has a strictly greater success rate. *)
Theorem best_action_has_highest_rate
    (st : store) (segment : string) (first : pyval) (rest : list pyval) :
  stored_actions st segment (PList (first :: rest)) ->
  Forall (fun a => exists n, rated n a) (first :: rest) ->
  exists best top,
    get_best_performing_action st segment = Ok (best_action_report best)
    /\ In best (first :: rest)
    /\ rated top best
    /\ forall a n, In a (first :: rest) -> rated n a -> num_gt n top = false.
Proof.
  intros Hstored Hrated.
  rewrite (stored_actions_reached _ _ _ Hstored). simpl.
  destruct (max_by_numeric success_rate_of first rest) as
    (best & top & Hmax & Hin & Htop & Hall).
  - apply Forall_forall. intros a Ha.
    rewrite Forall_forall in Hrated. destruct (Hrated a Ha) as [n Hn].
    exists n. now apply rated_key.
  - rewrite Hmax. simpl.
    assert (Hbest : rated top best).
    { rewrite Forall_forall in Hrated. destruct (Hrated best Hin) as [n Hn].
      rewrite <- (numeric_key_unique success_rate_of best n top); auto.
      now apply rated_key. }
    exists best, top. destruct Hbest as (entry & -> & Hn).
    repeat split; auto.
    + exists entry. auto.
    + intros a n Ha Hra. rewrite Forall_forall in Hall.
      apply (Hall a Ha). now apply rated_key.
Qed.

Lemma best_action_has_highest_rate_witness :
  let low := PDict [("action", PStr "free_shipping");
                    ("success_rate", PFloat (FFin (3 # 10)))] in
  let high := PDict [("action", PStr "exclusive_early_access");
                     ("success_rate", PFloat (FFin (9 # 20)));
                     ("sample_size", PInt 120)] in
  let st :=
    {| historical_actions := Absent;
       historical_actions_fault := None;
       historical_customer_data :=
         Json (PDict [("customer_segments",
                       PDict [("vip_customers",
                               PDict [("successful_actions",
                                       PList [low; high; low])])])]) |} in
  get_best_performing_action st "vip_customers"
  = Ok (PDict [("best_action", PStr "exclusive_early_access");
               ("success_rate", PFloat (FFin (9 # 20)));
               ("avg_order_value", PNone);
               ("optimal_timing", PNone);
               ("sample_size", PInt 120)])
  /\ exists best top,
       get_best_performing_action st "vip_customers"
       = Ok (best_action_report best)
       /\ In best [low; high; low]
       /\ rated top best
       /\ forall a n, In a [low; high; low] -> rated n a -> num_gt n top = false.
Proof.
  intros low high st. split; [reflexivity|].
  apply (best_action_has_highest_rate st "vip_customers" low [high; low]).
  - split; [discriminate|]. eexists _, _, _. repeat split; reflexivity.
  - repeat constructor; eexists; eexists; split; reflexivity.
Defined.

(** X2.  [get_best_performing_action] answers with an error dictionary,
    and does not raise, when the segment cannot be looked up ("Segment
    not found": no data file, undecodable data, unknown segment) and when
    the segment is stored with no successful actions ("No historical
    actions found"). *)
Theorem best_action_errors (st : store) (segment : string) :
  (segment_missing st segment ->
   get_best_performing_action st segment
   = Ok (PDict [("error", PStr "Segment not found")]))
  /\ (forall actions,
        stored_actions st segment actions ->
        truthy actions = false ->
        get_best_performing_action st segment
        = Ok (PDict [("error", PStr "No historical actions found")])).
Proof.
  split.
  - unfold get_best_performing_action, query_historical_patterns.
    intros [Hf | [(msg & Hf) | (Hs & top & segments & Hf & Hsegs & Hnone)]].
    + rewrite Hf. reflexivity.
    + rewrite Hf. reflexivity.
    + apply String.eqb_neq in Hs. rewrite Hf, Hs. simpl. rewrite Hsegs. simpl.
      unfold has_key. rewrite Hnone. reflexivity.
  - intros actions Hstored Hfalsy.
    rewrite (stored_actions_reached _ _ _ Hstored).
    destruct actions as [| | | [| |] | [|] | [|] | [|[]]]; simpl in *;
      try discriminate; try reflexivity.
    + rewrite Hfalsy. reflexivity.
    + rewrite Hfalsy. reflexivity.
    + destruct (Qeq_bool q 0); [reflexivity|discriminate].
Qed.

Lemma best_action_errors_witness :
  let st :=
    {| historical_actions := Absent;
       historical_actions_fault := None;
       historical_customer_data :=
         Json (PDict [("customer_segments",
                       PDict [("vip_customers",
                               PDict [("successful_actions", PList [])]);
                              ("new_customers", PDict [])])]) |} in
  get_best_performing_action st "bargain_hunters"
  = Ok (PDict [("error", PStr "Segment not found")])
  /\ get_best_performing_action st "vip_customers"
     = Ok (PDict [("error", PStr "No historical actions found")])
  /\ get_best_performing_action st "new_customers"
     = Ok (PDict [("error", PStr "No historical actions found")]).
Proof.
  intros st. split; [|split].
  - apply (proj1 (best_action_errors st "bargain_hunters")).
    right; right. split; [discriminate|].
    eexists _, _. repeat split; reflexivity.
  - apply (proj2 (best_action_errors st "vip_customers") (PList [])).
    + split; [discriminate|]. eexists _, _, _. repeat split; reflexivity.
    + reflexivity.
  - apply (proj2 (best_action_errors st "new_customers") (PList [])).
    + split; [discriminate|]. eexists _, _, _. repeat split; reflexivity.
    + reflexivity.
Defined.

End BestAction.

(** ** What the analytics read of the action log *)

Section LogAnalytics.

Import analytics_tool results_tracker_tool.

Lemma filterM_filter {A} (p : A -> res bool) (q : A -> bool) (l : list A) :
  (forall a, In a l -> p a = Ok (q a)) ->
  filterM p l = Ok (filter q l).
Proof.
  induction l as [|a l IH]; intros H; simpl; [reflexivity|].
  rewrite (H a) by now left. simpl.
  rewrite IH by (intros b Hb; apply H; now right). simpl.
  destruct (q a); reflexivity.
Qed.


Lemma scorable_get (a : pyval) (k : string) (default : pyval) :
  scorable_record a = true -> py_get a k default = Ok (entry_or a k default).
Proof. destruct a; simpl; try discriminate. reflexivity. Qed.

Lemma scorable_log_records (st : store) (log : list pyval) :
  log_of (historical_actions st) = Some log ->
  get_historical_actions st None = Ok (PList log).
Proof.
  unfold get_historical_actions. intros H.
  destruct (log_of_Some _ _ H) as [[-> ->] | ->]; reflexivity.
Qed.

Lemma count_flag_filter (key : string) (filtered : list pyval) :
  Forall (fun a => scorable_record a = true) filtered ->
  count_flag key filtered
  = Ok (Z.of_nat (length (filter (fun a => truthy (entry_or a key (PBool false)))
                                 filtered))).
Proof.
  intros H. unfold count_flag.
  rewrite (filterM_filter _ (fun a => truthy (entry_or a key (PBool false)))).
  - reflexivity.
  - intros a Ha. rewrite Forall_forall in H.
    rewrite (scorable_get a key (PBool false) (H a Ha)). reflexivity.
Qed.

Lemma round_half_even_le (b : Z) (q : Q) :
  (q <= inject_Z b)%Q -> round_half_even q <= b.
Proof.
  intros H. apply (round_half_even_between (Qfloor q) b q); [|exact H].
  apply Qfloor_le.
Qed.

Lemma round_half_even_ge (a : Z) (q : Q) :
  (inject_Z a <= q)%Q -> a <= round_half_even q.
Proof.
  intros H. apply (round_half_even_between a (Qceiling q) q); [exact H|].
  apply Qle_ceiling.
Qed.



(** The count of an action type, as [get_action_performance_by_type]
    reports it. *)
Lemma performance_metrics_well_formed_aux
    (st : store) (action_type : pyval) (log : list pyval) :
  log_of (historical_actions st) = Some log ->
  Forall (fun a => scorable_record a = true) log ->
  exists perf,
    get_action_performance_by_type st action_type = Ok (PDict perf)
    /\ lookup "total_actions" perf
       = Some (PInt (Z.of_nat (length (of_action_type action_type log)))).
Proof.
  intros Hlog Hsc. unfold get_action_performance_by_type.
  rewrite (scorable_log_records _ _ Hlog). cbn [bind iter].
  rewrite (filterM_filter _
             (fun a => py_eq (entry_or a "action_type" PNone) action_type)).
  2:{ intros a Ha. rewrite Forall_forall in Hsc.
      rewrite (scorable_get a "action_type" PNone (Hsc a Ha)). reflexivity. }
  fold (of_action_type action_type log). cbn [bind].
  assert (Hf : Forall (fun a => scorable_record a = true)
                      (of_action_type action_type log)).
  { apply Forall_forall. intros a Ha. apply filter_In in Ha as [Ha _].
    rewrite Forall_forall in Hsc. now apply Hsc. }
  destruct (of_action_type action_type log) as [|a rest] eqn:Hfiltered.
  - eexists. split; reflexivity.
  - set (filtered := a :: rest) in *.
    rewrite !count_flag_filter by exact Hf. cbn [bind].
    destruct (sum_roi_total filtered Hf (NInt 0)) as [total ->]. cbn [bind].
    destruct (truediv_int_total total (Z.of_nat (length filtered))) as [avg ->];
      [simpl; lia|]. cbn [bind].
    destruct (percentage_total
                (Z.of_nat (length (filter (fun a => truthy (entry_or a "converted" (PBool false))) filtered)))
                (Z.of_nat (length filtered))) as [p1 ->]; [simpl; lia|].
    destruct (percentage_total
                (Z.of_nat (length (filter (fun a => truthy (entry_or a "opened" (PBool false))) filtered)))
                (Z.of_nat (length filtered))) as [p2 ->]; [simpl; lia|].
    destruct (percentage_total
                (Z.of_nat (length (filter (fun a => truthy (entry_or a "clicked" (PBool false))) filtered)))
                (Z.of_nat (length filtered))) as [p3 ->]; [simpl; lia|].
    cbn [bind]. eexists. split; reflexivity.
Qed.


End LogAnalytics.


(** ** Appends as the analytics see them *)

Section AppendsSeen.

Import analytics_tool results_tracker_tool.

Variables now customer_id action_type action_status segment : string.
Variables predicted_roi estimated_cost : pyval.
Variables channel scenario : string.

Let record : pyval :=
  action_record now customer_id action_type action_status segment
                predicted_roi estimated_cost channel scenario.

Let call : io pyval :=
  record_result now customer_id action_type action_status segment
                predicted_roi estimated_cost channel scenario.

Lemma record_is_scorable : scorable_record record = true.
Proof. reflexivity. Qed.

Lemma record_without_outcome : without_outcome record.
Proof. eexists. split; reflexivity. Qed.

Lemma log_after_append (st : store) (prior : list pyval) :
  log_of (historical_actions st) = Some prior ->
  historical_actions_fault st = None ->
  log_of (historical_actions (snd (call st))) = Some (prior ++ [record])%list
  /\ historical_actions_fault (snd (call st)) = None.
Proof.
  intros Hlog Hw. unfold call.
  rewrite (record_result_appends now customer_id action_type action_status
             segment predicted_roi estimated_cost channel scenario
             st prior Hlog Hw).
  split; reflexivity.
Qed.

Lemma of_action_type_app (t : pyval) (l l' : list pyval) :
  of_action_type t (l ++ l') = (of_action_type t l ++ of_action_type t l')%list.
Proof. apply filter_app. Qed.

Lemma integer_roi_mass_app (l l' : list pyval) :
  integer_roi_mass (l ++ l') = integer_roi_mass l + integer_roi_mass l'.
Proof.
  induction l as [|a l IH]; simpl; [reflexivity|]. rewrite IH. lia.
Qed.

(** The record [record_result] writes has no [roi]: an append leaves the
    integers of the log as they are. *)
Lemma append_keeps_float_range (st : store) (prior : list pyval) :
  log_of (historical_actions st) = Some prior ->
  historical_actions_fault st = None ->
  roi_in_float_range (historical_actions st) = true ->
  roi_in_float_range (historical_actions (snd (call st))) = true.
Proof.
  intros Hlog Hw Hrange.
  destruct (log_after_append st prior Hlog Hw) as [Hlog' _].
  unfold roi_in_float_range in *. rewrite Hlog in Hrange. rewrite Hlog'.
  rewrite integer_roi_mass_app.
  change (integer_roi_mass [record]) with 0. now rewrite Z.add_0_r.
Qed.

(** X4.  The analytics read path sees what [record_result] appends: on a
    readable log whose integer [roi] entries are within float range,
    after a successful call the [total_actions] that
    [get_action_performance_by_type] reports for the recorded action type
    has grown by exactly one, the count of every other action type is
    unchanged, and the integers of the log are still within float
    range. *)
Theorem analytics_count_appended_record (st : store) (prior : list pyval) :
  log_of (historical_actions st) = Some prior ->
  Forall (fun a => scorable_record a = true) prior ->
  roi_in_float_range (historical_actions st) = true ->
  historical_actions_fault st = None ->
  let total_of s t :=
    field_of_result (get_action_performance_by_type s (PStr t))
                    "total_actions" in
  roi_in_float_range (historical_actions (snd (call st))) = true
  /\ exists n,
       total_of st action_type = Some (PInt n)
       /\ total_of (snd (call st)) action_type = Some (PInt (n + 1))
       /\ forall other,
            other <> action_type ->
            total_of (snd (call st)) other = total_of st other.
Proof.
  intros Hlog Hsc Hrange Hw total_of.
  split; [exact (append_keeps_float_range st prior Hlog Hw Hrange)|].
  destruct (log_after_append st prior Hlog Hw) as [Hlog' _].
  assert (Hsc' : Forall (fun a => scorable_record a = true)
                       (prior ++ [record])%list).
  { apply Forall_app. split; [exact Hsc|]. constructor; [|constructor].
    apply record_is_scorable. }
  assert (Hcount : forall s l t,
             log_of (historical_actions s) = Some l ->
             Forall (fun a => scorable_record a = true) l ->
             total_of s t
             = Some (PInt (Z.of_nat (length (of_action_type (PStr t) l))))).
  { intros s l t Hl Hs. unfold total_of.
    destruct (performance_metrics_well_formed_aux s (PStr t) l Hl Hs)
      as (perf & -> & Ht). exact Ht. }
  exists (Z.of_nat (length (of_action_type (PStr action_type) prior))).
  split; [now apply Hcount|]. split.
  - rewrite (Hcount _ _ _ Hlog' Hsc'), of_action_type_app, length_app.
    unfold of_action_type at 2. simpl. rewrite String.eqb_refl. simpl.
    f_equal. f_equal. lia.
  - intros other Hother.
    rewrite (Hcount _ _ _ Hlog' Hsc'), (Hcount _ _ _ Hlog Hsc).
    rewrite of_action_type_app, length_app.
    unfold of_action_type at 2. simpl.
    apply String.eqb_neq in Hother. rewrite String.eqb_sym, Hother. simpl.
    f_equal. f_equal. lia.
Qed.

End AppendsSeen.

Lemma analytics_count_appended_record_witness :
  let total_of s t :=
    field_of_result
      (analytics_tool.get_action_performance_by_type s (PStr t))
      "total_actions" in
  let after :=
    snd (run_call (example_call "2025-01-22T19:30:00") example_store) in
  log_of (historical_actions example_store) = Some example_log
  /\ roi_in_float_range (historical_actions example_store) = true
  /\ historical_actions_fault example_store = None
  /\ roi_in_float_range (historical_actions after) = true
  /\ exists n,
       total_of example_store "exclusive_early_access" = Some (PInt n)
       /\ total_of after "exclusive_early_access" = Some (PInt (n + 1))
       /\ forall other,
            other <> "exclusive_early_access" ->
            total_of after other = total_of example_store other.
Proof.
  intros total_of after. split; [reflexivity|]. split; [reflexivity|].
  split; [reflexivity|].
  apply (analytics_count_appended_record
           "2025-01-22T19:30:00" "CUST_12345" "exclusive_early_access"
           "scheduled" "vip_customers" (PFloat (FFin (17 # 2))) (PInt 575)
           "email" "general" example_store example_log).
  - reflexivity.
  - repeat constructor.
  - reflexivity.
  - reflexivity.
Defined.

Section AppendRoundTrip.

Import analytics_tool.

Lemma run_call_appends (c : record_call) (st : store) (prior : list pyval) :
  log_of (historical_actions st) = Some prior ->
  historical_actions_fault st = None ->
  log_of (historical_actions (snd (run_call c st)))
  = Some (prior ++ [record_of c])%list
  /\ historical_actions (snd (run_call c st))
     = Json (PList (prior ++ [record_of c]))
  /\ historical_actions_fault (snd (run_call c st)) = None
  /\ succeeded (fst (run_call c st)) = true.
Proof.
  intros Hlog Hw. unfold run_call.
  rewrite (record_result_appends
             (at_time c) (for_customer c) (with_action c) (with_status c)
             (in_segment c) (with_roi c) (with_cost c) (on_channel c)
             (in_scenario c) st prior Hlog Hw).
  repeat split.
Qed.

Lemma object_get (a : pyval) (k : string) (default : pyval) :
  is_object a -> py_get a k default = Ok (entry_or a k default).
Proof. intros [d ->]. reflexivity. Qed.

Lemma actions_of_customer (st : store) (customer_id : string)
    (log : list pyval) :
  historical_actions st = Json (PList log) ->
  Forall is_object log ->
  customer_id <> "" ->
  get_historical_actions st (Some customer_id)
  = Ok (PList (of_customer customer_id log)).
Proof.
  intros Hf Hobj Hc. unfold get_historical_actions. rewrite Hf. simpl.
  apply String.eqb_neq in Hc. rewrite Hc. simpl.
  rewrite (filterM_filter _
             (fun a => eq_str (entry_or a "customer_id" PNone) customer_id)).
  - reflexivity.
  - intros a Ha. rewrite Forall_forall in Hobj.
    rewrite (object_get a "customer_id" PNone (Hobj a Ha)). reflexivity.
Qed.

(** X6.  What [record_result] appends can be read back: on a log of
    objects, after a successful call [get_historical_actions] for the
    recorded customer returns what it returned before followed by the new
    record, which is therefore the last action of that customer. *)
Theorem appended_record_is_read_back
    (c : record_call) (st : store) (prior : list pyval) :
  log_of (historical_actions st) = Some prior ->
  Forall is_object prior ->
  historical_actions_fault st = None ->
  exists found,
    get_historical_actions st (Some (for_customer c)) = Ok (PList found)
    /\ get_historical_actions (snd (run_call c st)) (Some (for_customer c))
       = Ok (PList (found ++ [record_of c]))
    /\ get_historical_actions (snd (run_call c st)) None
       = Ok (PList (prior ++ [record_of c])).
Proof.
  intros Hlog Hobj Hw.
  destruct (run_call_appends c st prior Hlog Hw) as (_ & Hf' & _ & _).
  assert (Hobj' : Forall is_object (prior ++ [record_of c])%list).
  { apply Forall_app. split; [exact Hobj|].
    constructor; [eexists; reflexivity|constructor]. }
  assert (Hall : get_historical_actions (snd (run_call c st)) None
                 = Ok (PList (prior ++ [record_of c]))).
  { unfold get_historical_actions. rewrite Hf'. reflexivity. }
  destruct (String.eqb_spec (for_customer c) "") as [Hempty|Hid].
  - exists prior. split; [|split; [|exact Hall]].
    + unfold get_historical_actions. rewrite Hempty.
      destruct (log_of_Some _ _ Hlog) as [[-> ->] | ->]; reflexivity.
    + unfold get_historical_actions. rewrite Hf', Hempty. reflexivity.
  - exists (of_customer (for_customer c) prior).
    split; [|split; [|exact Hall]].
    + destruct (log_of_Some _ _ Hlog) as [[Hf ->] | Hf].
      * unfold get_historical_actions. rewrite Hf. reflexivity.
      * now apply actions_of_customer.
    + rewrite (actions_of_customer _ _ _ Hf' Hobj' Hid).
      unfold of_customer. rewrite filter_app. simpl.
      rewrite String.eqb_refl. reflexivity.
Qed.

End AppendRoundTrip.

Lemma appended_record_is_read_back_witness :
  let c := example_call "2025-01-22T19:30:00" in
  log_of (historical_actions example_store) = Some example_log
  /\ historical_actions_fault example_store = None
  /\ exists found,
       analytics_tool.get_historical_actions example_store (Some "CUST_12345")
       = Ok (PList found)
       /\ analytics_tool.get_historical_actions
            (snd (run_call c example_store)) (Some "CUST_12345")
          = Ok (PList (found ++ [record_of c]))
       /\ analytics_tool.get_historical_actions
            (snd (run_call c example_store)) None
          = Ok (PList (example_log ++ [record_of c])).
Proof.
  intros c. split; [reflexivity|]. split; [reflexivity|].
  apply (appended_record_is_read_back c example_store example_log).
  - reflexivity.
  - repeat constructor; eexists; reflexivity.
  - reflexivity.
Defined.

(** ** Scores over a log that only [record_result] wrote *)

Section LearnedScores.

Import analytics_tool.

Lemma without_outcome_scorable (a : pyval) :
  without_outcome a -> scorable_record a = true.
Proof.
  intros (d & -> & Hroi). simpl. unfold numeric_entry. now rewrite Hroi.
Qed.

Lemma record_of_without_outcome (c : record_call) : without_outcome (record_of c).
Proof. eexists. split; reflexivity. Qed.

(** Appends by [record_result] keep a log free of outcome fields. *)
Lemma run_calls_without_outcome (cs : list record_call) :
  forall (st : store) (log : list pyval),
    log_of (historical_actions st) = Some log ->
    historical_actions_fault st = None ->
    Forall without_outcome log ->
    exists log',
      log_of (historical_actions (snd (run_calls cs st))) = Some log'
      /\ Forall without_outcome log'
      /\ length log' = (length log + length cs)%nat
      /\ forallb succeeded (fst (run_calls cs st)) = true.
Proof.
  induction cs as [|c cs IH]; intros st log Hlog Hw Hall.
  - exists log. simpl. repeat split; auto.
  - destruct (run_call_appends c st log Hlog Hw) as (Hlog1 & _ & Hw1 & Hok).
    simpl. destruct (run_call c st) as [r st1] eqn:Hcall. simpl in *.
    destruct (IH st1 (log ++ [record_of c])%list Hlog1 Hw1) as
      (log' & Hlog' & Hall' & Hlen & Hoks).
    + apply Forall_app. split; [exact Hall|].
      constructor; [apply record_of_without_outcome|constructor].
    + destruct (run_calls cs st1) as [rs st2]. simpl in *.
      exists log'. repeat split; auto.
      * rewrite Hlen, length_app. simpl. lia.
      * now rewrite Hok, Hoks.
Qed.

Lemma sum_roi_without_outcome (filtered : list pyval) :
  Forall without_outcome filtered ->
  sum_roi (NInt 0) filtered = Ok (NInt 0).
Proof.
  induction 1 as [|a l (d & -> & Hroi) _ IH]; simpl; [reflexivity|].
  unfold get_or. rewrite Hroi. simpl. exact IH.
Qed.

(** Without outcome fields the average ROI of every action type is 0. *)
Lemma average_roi_without_outcome
    (st : store) (action_type : pyval) (log : list pyval) :
  log_of (historical_actions st) = Some log ->
  Forall without_outcome log ->
  exists perf,
    get_action_performance_by_type st action_type = Ok (PDict perf)
    /\ (get_or perf "avg_roi" (PInt 0) = PInt 0
        \/ get_or perf "avg_roi" (PInt 0) = PFloat (FFin 0)).
Proof.
  intros Hlog Hall.
  assert (Hsc : Forall (fun a => scorable_record a = true) log).
  { apply Forall_forall. intros a Ha. rewrite Forall_forall in Hall.
    now apply without_outcome_scorable, Hall. }
  unfold get_action_performance_by_type.
  rewrite (scorable_log_records _ _ Hlog). cbn [bind iter].
  rewrite (filterM_filter _
             (fun a => py_eq (entry_or a "action_type" PNone) action_type)).
  2:{ intros a Ha. rewrite Forall_forall in Hsc.
      rewrite (scorable_get a "action_type" PNone (Hsc a Ha)). reflexivity. }
  fold (of_action_type action_type log). cbn [bind].
  assert (Hf : Forall without_outcome (of_action_type action_type log)).
  { apply Forall_forall. intros a Ha. apply filter_In in Ha as [Ha _].
    rewrite Forall_forall in Hall. now apply Hall. }
  assert (Hfs : Forall (fun a => scorable_record a = true)
                       (of_action_type action_type log)).
  { apply Forall_forall. intros a Ha. rewrite Forall_forall in Hf.
    now apply without_outcome_scorable, Hf. }
  destruct (of_action_type action_type log) as [|a rest] eqn:Hfiltered.
  - eexists. split; [reflexivity|]. now left.
  - set (filtered := a :: rest) in *.
    rewrite !count_flag_filter by exact Hfs. cbn [bind].
    rewrite (sum_roi_without_outcome filtered Hf). cbn [bind].
    destruct (percentage_total
                (Z.of_nat (length (filter (fun a => truthy (entry_or a "converted" (PBool false))) filtered)))
                (Z.of_nat (length filtered))) as [p1 ->]; [simpl; lia|].
    destruct (percentage_total
                (Z.of_nat (length (filter (fun a => truthy (entry_or a "opened" (PBool false))) filtered)))
                (Z.of_nat (length filtered))) as [p2 ->]; [simpl; lia|].
    destruct (percentage_total
                (Z.of_nat (length (filter (fun a => truthy (entry_or a "clicked" (PBool false))) filtered)))
                (Z.of_nat (length filtered))) as [p3 ->]; [simpl; lia|].
    subst filtered. simpl length. rewrite Nat2Z.inj_succ.
    unfold truediv_int.
    destruct (Z.succ (Z.of_nat (length rest))) as [|p|p] eqn:Hp; try lia.
    cbn [Z.eqb bind]. eexists. split; [reflexivity|]. right. reflexivity.
Qed.

(** X5.  Records written by [record_result] carry no outcome, so they
    cannot raise a score: on a log that starts empty and is filled only
    by calls of [record_result], all of which succeed, [score_action]
    returns for every action with a numeric cost a [roi_score] of at
    most 2.5. *)
Theorem scores_stay_low_on_recorded_log
    (cs : list record_call) (st : store) (action : dict) :
  log_of (historical_actions st) = Some [] ->
  historical_actions_fault st = None ->
  numeric_entry action "estimated_cost" = true ->
  forallb succeeded (fst (run_calls cs st)) = true
  /\ exists out score,
       score_action (snd (run_calls cs st)) action = Ok out
       /\ field out "roi_score" = Some score
       /\ score_at_most (5 # 2) score.
Proof.
  intros Hlog Hw Hcost.
  destruct (run_calls_without_outcome cs st [] Hlog Hw) as
    (log & Hlog' & Hall & _ & Hoks); [constructor|].
  split; [exact Hoks|].
  destruct (average_roi_without_outcome
              (snd (run_calls cs st))
              (get_or action "action_type" (PStr "unknown")) log Hlog' Hall)
    as (perf & Hperf & Havg).
  destruct (numeric_entry_as_num action "estimated_cost" 0 Hcost) as [cost Hc].
  unfold score_action. rewrite Hperf. cbn [bind py_get].
  unfold lt_int, gt_int. rewrite Hc.
  destruct Havg as [-> | ->]; cbn [operand as_num bind];
    destruct (num_lt cost (NInt 50)); cbn [bind];
    try destruct (num_gt cost (NInt 500)); cbn [bind];
    destruct (eq_str (get_or action "channel" (PStr "email")) "email");
    (eexists; eexists; split; [reflexivity|]; split; [reflexivity|];
     vm_compute; discriminate).
Qed.

End LearnedScores.

Lemma scores_stay_low_on_recorded_log_witness :
  let empty := {| historical_actions := Absent;
                  historical_actions_fault := None;
                  historical_customer_data := Absent |} in
  let calls := [example_call "2025-01-22T19:30:00";
                example_call "2025-01-23T08:15:00"] in
  let action := [("action_type", PStr "exclusive_early_access");
                 ("channel", PStr "email");
                 ("estimated_cost", PInt 30)] in
  field_of_result
    (analytics_tool.score_action (snd (run_calls calls empty)) action)
    "roi_score" = Some (PFloat (FFin (5 # 2)))
  /\ forallb succeeded (fst (run_calls calls empty)) = true
  /\ exists out score,
       analytics_tool.score_action (snd (run_calls calls empty)) action = Ok out
       /\ field out "roi_score" = Some score
       /\ score_at_most (5 # 2) score.
Proof.
  intros empty calls action. split; [reflexivity|].
  apply (scores_stay_low_on_recorded_log calls empty action); reflexivity.
Defined.

(** ** Customer and product lookup *)

Section Lookup.

Import customer_data_tool inventory_tool.

Lemma has_entry_subscript (k : string) (a : pyval) :
  has_entry k a -> subscript_str a k = Ok (entry_or a k PNone).
Proof.
  intros (d & v & -> & Hv). simpl. unfold get_or. now rewrite Hv.
Qed.

Lemma find_customer_first (customer_id : string) (customers : list pyval) :
  Forall (has_entry "customer_id") customers ->
  find_customer customer_id customers
  = Ok match first_customer customer_id customers with
       | Some c => c
       | None => PDict [("error", PStr ("Customer " ++ customer_id ++ " not found"))]
       end.
Proof.
  induction 1 as [|c l Hc _ IH]; simpl; [reflexivity|].
  rewrite (has_entry_subscript _ _ Hc). simpl.
  destruct (eq_str (entry_or c "customer_id" PNone) customer_id);
    [reflexivity|exact IH].
Qed.

(** X7.  On a customer table whose records all carry a [customer_id],
    [get_customer_data] returns the first record with the requested id,
    so the record it returns has that id, and the error dictionary
    "Customer ... not found" exactly when no record has it. *)
Theorem get_customer_data_returns_first_match
    (t : tables) (customer_id : string) (customers : list pyval) :
  sample_customers t = Json (PList customers) ->
  Forall (has_entry "customer_id") customers ->
  match first_customer customer_id customers with
  | Some c =>
      get_customer_data t customer_id = Ok c
      /\ In c customers
      /\ entry_or c "customer_id" PNone = PStr customer_id
  | None =>
      get_customer_data t customer_id
      = Ok (PDict [("error", PStr ("Customer " ++ customer_id ++ " not found"))])
      /\ forall c, In c customers ->
                   entry_or c "customer_id" PNone <> PStr customer_id
  end.
Proof.
  intros Hf Hall. unfold get_customer_data. rewrite Hf. simpl.
  rewrite (find_customer_first _ _ Hall).
  unfold first_customer.
  destruct (find _ customers) as [c|] eqn:Hfind.
  - apply find_some in Hfind as [Hin Heq]. repeat split; auto.
    destruct (entry_or c "customer_id" PNone); try discriminate.
    simpl in Heq. apply String.eqb_eq in Heq. now subst.
  - split; [reflexivity|]. intros c Hin Heq.
    pose proof (find_none _ _ Hfind c Hin) as Hno. simpl in Hno.
    rewrite Heq in Hno. simpl in Hno. now rewrite String.eqb_refl in Hno.
Qed.

Lemma get_customer_data_returns_first_match_witness :
  let ann := PDict [("customer_id", PStr "CUST_1"); ("segment", PStr "vip")] in
  let bob := PDict [("customer_id", PStr "CUST_2"); ("segment", PStr "premium")] in
  let ann_again := PDict [("customer_id", PStr "CUST_1")] in
  let t := {| sample_customers := Json (PList [ann; bob; ann_again]);
              product_catalog := Absent;
              timing_intelligence := Absent;
              action_templates := Absent |} in
  get_customer_data t "CUST_1" = Ok ann
  /\ get_customer_data t "CUST_9"
     = Ok (PDict [("error", PStr "Customer CUST_9 not found")]).
Proof.
  intros ann bob ann_again t.
  assert (Hall : Forall (has_entry "customer_id") [ann; bob; ann_again])
    by (repeat constructor; eexists _, _; split; reflexivity).
  split.
  - exact (proj1 (get_customer_data_returns_first_match
                    t "CUST_1" [ann; bob; ann_again] eq_refl Hall)).
  - exact (proj1 (get_customer_data_returns_first_match
                    t "CUST_9" [ann; bob; ann_again] eq_refl Hall)).
Defined.

(** X8.  [get_customer_data] reads the id by subscript: a record without
    [customer_id] that is reached before a match makes the call raise
    [KeyError], whatever follows it in the table; a missing table is
    answered with the error dictionary "Customer database not found". *)
Theorem get_customer_data_failure_modes
    (t : tables) (customer_id : string) :
  (sample_customers t = Absent ->
   get_customer_data t customer_id
   = Ok (PDict [("error", PStr "Customer database not found")]))
  /\ (forall before broken after,
        sample_customers t = Json (PList (before ++ broken :: after)) ->
        Forall (has_entry "customer_id") before ->
        first_customer customer_id before = None ->
        lacks_entry "customer_id" broken ->
        get_customer_data t customer_id
        = Raise (Exn KeyError "'customer_id'")).
Proof.
  split.
  - intros Hf. unfold get_customer_data. rewrite Hf. reflexivity.
  - intros before broken after Hf Hall Hnone (d & -> & Hd).
    unfold get_customer_data. rewrite Hf. simpl.
    clear Hf. induction Hall as [|c l Hc _ IH]; simpl.
    + rewrite Hd. reflexivity.
    + rewrite (has_entry_subscript _ _ Hc). simpl.
      unfold first_customer in Hnone. simpl in Hnone.
      destruct (eq_str (entry_or c "customer_id" PNone) customer_id);
        [discriminate|]. now apply IH.
Qed.

Lemma get_customer_data_failure_modes_witness :
  let ann := PDict [("customer_id", PStr "CUST_1")] in
  let nameless := PDict [("segment", PStr "vip")] in
  let cy := PDict [("customer_id", PStr "CUST_3")] in
  let t := {| sample_customers := Json (PList [ann; nameless; cy]);
              product_catalog := Absent;
              timing_intelligence := Absent;
              action_templates := Absent |} in
  let none := {| sample_customers := Absent;
                 product_catalog := Absent;
                 timing_intelligence := Absent;
                 action_templates := Absent |} in
  get_customer_data t "CUST_1" = Ok ann
  /\ get_customer_data t "CUST_3" = Raise (Exn KeyError "'customer_id'")
  /\ get_customer_data none "CUST_3"
     = Ok (PDict [("error", PStr "Customer database not found")]).
Proof.
  intros ann nameless cy t none. split; [reflexivity|split].
  - apply (proj2 (get_customer_data_failure_modes t "CUST_3")
             [ann] nameless [cy]).
    + reflexivity.
    + repeat constructor. eexists _, _. split; reflexivity.
    + reflexivity.
    + eexists. split; reflexivity.
  - apply (proj1 (get_customer_data_failure_modes none "CUST_3")).
    reflexivity.
Defined.

Section Formatting.

Variable str : pyval -> string.

Lemma find_product_first (product_id : pyval) (products : list pyval) :
  Forall (has_entry "product_id") products ->
  find_product str product_id products
  = Ok match first_product product_id products with
       | Some p => p
       | None =>
           PDict [("error", PStr ("Product " ++ str product_id ++ " not found"))]
       end.
Proof.
  induction 1 as [|p l Hp _ IH]; simpl; [reflexivity|].
  rewrite (has_entry_subscript _ _ Hp). simpl.
  destruct (analytics_tool.py_eq (entry_or p "product_id" PNone) product_id);
    [reflexivity|exact IH].
Qed.

Lemma num_ge_antitone (n : num) (q q' : Z) :
  num_ge n (NInt q) = true -> q' <= q -> num_ge n (NInt q') = true.
Proof.
  unfold num_ge. destruct n as [z | [| [|] | a]]; simpl; auto.
  - intros H Hq. apply orb_true_iff in H. apply orb_true_iff.
    destruct H as [H|H]; [apply Z.ltb_lt in H|apply Z.eqb_eq in H].
    + left. apply Z.ltb_lt. lia.
    + destruct (Z.eq_dec q' q) as [->|Hne];
        [right; now apply Z.eqb_eq|left; apply Z.ltb_lt; lia].
  - intros H Hq. apply orb_true_iff in H. apply orb_true_iff.
    assert (Hle : (inject_Z q <= a)%Q).
    { destruct H as [H|H].
      - apply Qlt_bool_iff in H. now apply Qlt_le_weak.
      - apply Qeq_bool_iff in H. rewrite H. apply Qle_refl. }
    assert (Hle' : (inject_Z q' <= a)%Q).
    { apply Qle_trans with (inject_Z q); [|exact Hle]. now rewrite <- Zle_Qle. }
    apply Qle_lt_or_eq in Hle' as [Hlt|Heq].
    + left. now apply Qlt_bool_iff.
    + right. apply Qeq_bool_iff. now symmetry.
Qed.

(** X9.  Stock availability is monotone in the quantity asked for:
    whenever [check_stock_availability] says a quantity is available, it
    says so for every smaller quantity, whatever the catalogue holds. *)
Theorem stock_available_for_smaller_quantity
    (t : tables) (product_id : pyval) (quantity smaller : Z) :
  check_stock_availability str t product_id quantity = Ok true ->
  smaller <= quantity ->
  check_stock_availability str t product_id smaller = Ok true.
Proof.
  unfold check_stock_availability. intros H Hle.
  destruct (get_product_info str t product_id) as [product|e]; simpl in *;
    [|discriminate].
  destruct (contains_str product "error") as [[|]|e]; simpl in *;
    try discriminate.
  destruct (py_get product "stock_quantity" (PInt 0)) as [stock|e]; simpl in *;
    [|discriminate].
  unfold ge_int in *. destruct (as_num stock) as [n|]; [|discriminate].
  injection H as H. f_equal. now apply num_ge_antitone with quantity.
Qed.

Lemma stock_unavailable_without_catalogue
    (t : tables) (product_id : pyval) (quantity : Z) :
  product_catalog t = Absent ->
  check_stock_availability str t product_id quantity = Ok false.
Proof.
  intros Hf. unfold check_stock_availability, get_product_info.
  rewrite Hf. reflexivity.
Qed.

End Formatting.

End Lookup.

Lemma stock_available_for_smaller_quantity_witness :
  let t := {| sample_customers := Absent;
              product_catalog :=
                Json (PList [PDict [("product_id", PStr "P1");
                                    ("stock_quantity", PInt 5)]]);
              timing_intelligence := Absent;
              action_templates := Absent |} in
  let str := fun _ : pyval => "P1" in
  inventory_tool.check_stock_availability str t (PStr "P1") 5 = Ok true
  /\ inventory_tool.check_stock_availability str t (PStr "P1") 2 = Ok true
  /\ inventory_tool.check_stock_availability str t (PStr "P1") 6 = Ok false.
Proof.
  intros t str. split; [reflexivity|]. split; [|reflexivity].
  apply (stock_available_for_smaller_quantity str t (PStr "P1") 5 2);
    [reflexivity|lia].
Defined.

(** ** Margins *)

Section Margin.

Import inventory_tool.

Variable str : pyval -> string.




End Margin.


(** ** Similar actions and discount ranges *)

Ltac bind_inv H :=
  match type of H with
  | bind ?m _ = Ok _ =>
      let E := fresh "E" in
      destruct m eqn:E; cbn [bind] in H; [|discriminate H]
  end.

Section Similar.

Import analytics_tool analytics_tool_rest customer_data_tool.

Lemma filterM_sound {A} (p : A -> res bool) (l : list A) :
  forall r,
    filterM p l = Ok r ->
    Forall (fun a => In a l /\ p a = Ok true) r
    /\ (length r <= length l)%nat.
Proof.
  induction l as [|a l IH]; intros r H; simpl in H.
  - injection H as <-. split; [constructor|simpl; lia].
  - bind_inv H. bind_inv H. injection H as <-.
    destruct (IH _ eq_refl) as [Hall Hlen].
    assert (Hall' : Forall (fun b => In b (a :: l) /\ p b = Ok true) a1).
    { apply Forall_forall. intros b Hb. rewrite Forall_forall in Hall.
      destruct (Hall b Hb). split; [now right|assumption]. }
    destruct a0; simpl.
    + split; [|lia]. constructor; [|exact Hall']. split; [now left|exact E].
    + split; [exact Hall'|lia].
Qed.

Lemma subscript_entry (c : pyval) (k : string) (v : pyval) :
  subscript_str c k = Ok v -> entry_or c k PNone = v.
Proof.
  destruct c; try discriminate. simpl. unfold get_or.
  destruct (lookup k d); [now intros [= ->]|discriminate].
Qed.

Lemma next_customer_found (wanted : res pyval) (customers : list pyval) :
  forall c,
    next_customer wanted customers = Ok c ->
    truthy c = true ->
    In c customers
    /\ exists w, wanted = Ok w
                 /\ py_eq (entry_or c "customer_id" PNone) w = true.
Proof.
  induction customers as [|x l IH]; intros c H Hc; simpl in H.
  - injection H as <-. discriminate Hc.
  - bind_inv H. bind_inv H.
    destruct (py_eq a a0) eqn:Heq.
    + injection H as <-. split; [now left|].
      exists a0. split; [reflexivity|].
      now rewrite (subscript_entry _ _ _ E).
    + destruct (IH c H Hc) as [Hin Hid]. split; [now right|exact Hid].
Qed.

Section Formatting.

Variable str : pyval -> string.

Lemma find_product_in (product_id : pyval) (products : list pyval) :
  forall p,
    inventory_tool.find_product str product_id products = Ok p ->
    (In p products
     /\ py_eq (entry_or p "product_id" PNone) product_id = true)
    \/ p = PDict [("error", PStr ("Product " ++ str product_id ++ " not found"))].
Proof.
  induction products as [|x l IH]; intros p H; simpl in H.
  - injection H as <-. now right.
  - bind_inv H. destruct (py_eq a product_id) eqn:Heq.
    + injection H as <-. left. split; [now left|].
      now rewrite (subscript_entry _ _ _ E).
    + destruct (IH p H) as [[Hin Hid]|Herr]; [left|now right].
      split; [now right|exact Hid].
Qed.

Lemma all_customers_records (t : tables) (customers : pyval) (cs : list pyval) :
  get_all_customers t = Ok customers ->
  iter customers = Ok cs ->
  cs = [] \/ cs = records_of (sample_customers t).
Proof.
  unfold get_all_customers, records_of.
  destruct (sample_customers t) as [|msg|msg|v]; simpl; try discriminate.
  - intros [= <-] [= <-]. now left.
  - intros [= <-] ->. now right.
Qed.

Lemma product_info_records (t : tables) (product_id p : pyval) :
  inventory_tool.get_product_info str t product_id = Ok p ->
  contains_str p "error" = Ok false ->
  In p (records_of (product_catalog t))
  /\ py_eq (entry_or p "product_id" PNone) product_id = true.
Proof.
  unfold inventory_tool.get_product_info, records_of.
  destruct (product_catalog t) as [|msg|msg|v]; simpl; try discriminate.
  - intros [= <-]. discriminate.
  - destruct (iter v) as [l|e]; simpl; [|discriminate].
    intros H Herr. destruct (find_product_in _ _ _ H) as [Hin| ->];
      [exact Hin|discriminate].
Qed.

(** What a kept action went through. *)
Lemma is_similar_true (t : tables) (customer_segment product_category : string)
    (a : pyval) :
  is_similar str t customer_segment product_category a = Ok true ->
  truthy (entry_or a "converted" (PBool false)) = true
  /\ (exists customer,
        In customer (records_of (sample_customers t))
        /\ py_eq (entry_or customer "customer_id" PNone)
                 (entry_or a "customer_id" PNone) = true
        /\ eq_str (entry_or customer "segment" PNone) customer_segment = true)
  /\ (exists product,
        In product (records_of (product_catalog t))
        /\ py_eq (entry_or product "product_id" PNone)
                 (entry_or a "product_recommended" PNone) = true
        /\ eq_str (entry_or product "category" PNone) product_category = true).
Proof.
  unfold is_similar. intros H.
  destruct a as [| | | | | |d]; try discriminate H. cbn [py_get bind] in H.
  cbn [entry_or].
  destruct (truthy (get_or d "converted" (PBool false))); [|discriminate H].
  cbn [negb] in H. split; [reflexivity|].
  bind_inv H. bind_inv H. bind_inv H. bind_inv H.
  destruct a2; [|discriminate H].
  destruct (truthy a1) eqn:Htruthy; [|discriminate E2].
  bind_inv E2. injection E2 as Hseg.
  destruct (next_customer_found _ _ _ E1 Htruthy) as (Hin & w & Hw & Hid).
  injection Hw as <-.
  destruct (all_customers_records _ _ _ E E0) as [->|Hcs]; [destruct Hin|].
  assert (Hcust : entry_or a1 "segment" PNone = a2).
  { destruct a1; try discriminate E3. simpl in E3. now injection E3. }
  split.
  { exists a1. rewrite <- Hcs. split; [exact Hin|].
    split; [exact Hid|]. now rewrite Hcust. }
  cbn [py_get bind] in H. bind_inv H.
  destruct a3 as [| | | | | |pd]; try discriminate H.
  bind_inv H. destruct a3; [discriminate H|].
  cbn [py_get bind] in H. injection H as Hcat.
  exists (PDict pd).
  destruct (product_info_records
              t (get_or d "product_recommended" PNone) (PDict pd) E2 E4)
    as [Hp Hpid].
  split; [exact Hp|]. split; [exact Hpid|exact Hcat].
Qed.

(** X11.  [find_similar_successful_actions] only returns converted
    records of the action log whose customer and product match: whenever
    it returns, every action in its answer is a record of the log whose
    [converted] entry is truthy, a customer of the customer table with
    the action's [customer_id] has the requested segment, and a product
    of the catalogue with the recommended [product_id] has the requested
    category; the answer is never longer than the log. *)
Theorem similar_actions_are_converted_records
    (st : store) (t : tables) (customer_segment product_category : string)
    (log : list pyval) (answer : pyval) :
  log_of (historical_actions st) = Some log ->
  find_similar_successful_actions str st t customer_segment product_category
  = Ok answer ->
  exists similar,
    answer = PList similar
    /\ (length similar <= length log)%nat
    /\ Forall (fun a =>
                 In a log
                 /\ truthy (entry_or a "converted" (PBool false)) = true
                 /\ (exists customer,
                       In customer (records_of (sample_customers t))
                       /\ py_eq (entry_or customer "customer_id" PNone)
                                (entry_or a "customer_id" PNone) = true
                       /\ eq_str (entry_or customer "segment" PNone)
                                 customer_segment = true)
                 /\ (exists product,
                       In product (records_of (product_catalog t))
                       /\ py_eq (entry_or product "product_id" PNone)
                                (entry_or a "product_recommended" PNone) = true
                       /\ eq_str (entry_or product "category" PNone)
                                 product_category = true))
              similar.
Proof.
  intros Hlog H. unfold find_similar_successful_actions in H.
  rewrite (scorable_log_records _ _ Hlog) in H. cbn [bind iter] in H.
  bind_inv H. injection H as <-.
  destruct (filterM_sound _ _ _ E) as [Hall Hlen].
  exists a. split; [reflexivity|]. split; [exact Hlen|].
  apply Forall_forall. intros x Hx. rewrite Forall_forall in Hall.
  destruct (Hall x Hx) as [Hin Hsim]. split; [exact Hin|].
  now apply is_similar_true in Hsim.
Qed.

(** X25.  Without a customer table no recorded action is similar to
    anything: on a log of objects [find_similar_successful_actions]
    returns the empty list for every segment and category, however many
    converted actions the log holds. *)
Theorem no_similar_actions_without_customers
    (st : store) (t : tables) (customer_segment product_category : string)
    (log : list pyval) :
  log_of (historical_actions st) = Some log ->
  Forall is_object log ->
  sample_customers t = Absent ->
  find_similar_successful_actions str st t customer_segment product_category
  = Ok (PList []).
Proof.
  intros Hlog Hobj Ht. unfold find_similar_successful_actions.
  rewrite (scorable_log_records _ _ Hlog). cbn [bind iter].
  rewrite (filterM_filter _ (fun _ => false)).
  - clear. induction log as [|a l IH]; simpl; [reflexivity|].
    simpl in IH. injection IH as IH. now rewrite IH.
  - intros a Ha. rewrite Forall_forall in Hobj.
    destruct (Hobj a Ha) as [d ->]. unfold is_similar, get_all_customers.
    rewrite Ht. cbn [py_get bind load].
    destruct (truthy (get_or d "converted" (PBool false))); reflexivity.
Qed.

End Formatting.

(** X12.  [calculate_best_discount_range] falls back to the range
    10 / 20 / 15 when there is no customer table, whatever the log holds,
    and when no action of the log is converted, as on a log that only
    [record_result] wrote. *)
Theorem discount_range_defaults
    (st : store) (t : tables) (customer_segment : string) (log : list pyval) :
  log_of (historical_actions st) = Some log ->
  (sample_customers t = Absent ->
   calculate_best_discount_range st t customer_segment
   = Ok default_discount_range)
  /\ (forall customers,
        sample_customers t = Json (PList customers) ->
        Forall (has_entry "customer_id") customers ->
        Forall unconverted log ->
        calculate_best_discount_range st t customer_segment
        = Ok default_discount_range).
Proof.
  intros Hlog.
  assert (Hnone : forall customers,
             get_all_customers t = Ok customers ->
             (forall a, In a log ->
                        in_converted_segment customers customer_segment a
                        = Ok false) ->
             calculate_best_discount_range st t customer_segment
             = Ok default_discount_range).
  { intros customers Hc Hfalse. unfold calculate_best_discount_range.
    rewrite (scorable_log_records _ _ Hlog), Hc. cbn [bind iter].
    rewrite (filterM_filter _ (fun _ => false)) by exact Hfalse.
    assert (E : filter (fun _ : pyval => false) log = []).
    { clear. induction log as [|a l IH]; simpl; auto. }
    rewrite E. reflexivity. }
  split.
  - intros Ht. apply (Hnone (PList [])).
    + unfold get_all_customers. rewrite Ht. reflexivity.
    + intros a _. reflexivity.
  - intros customers Ht Hids Hun. apply (Hnone (PList customers)).
    + unfold get_all_customers. rewrite Ht. reflexivity.
    + intros a Ha. rewrite Forall_forall in Hun.
      destruct (Hun a Ha) as [(d & v & -> & Hv) Hconv].
      unfold in_converted_segment. cbn [iter bind subscript_str].
      rewrite Hv.
      assert (Hnext : exists c,
                 next_customer (Ok v) customers = Ok c
                 /\ (c = PNone \/ is_object c)).
      { clear -Hids. induction Hids as [|x l (dx & vx & -> & Hx) _ IH]; simpl.
        - exists PNone. split; [reflexivity|now left].
        - rewrite Hx. simpl. destruct (py_eq vx v).
          + eexists. split; [reflexivity|]. right. now exists dx.
          + exact IH. }
      destruct Hnext as (c & -> & [-> | [dc ->]]); cbn [bind truthy];
        [reflexivity|].
      destruct dc; [reflexivity|]. cbn [py_get bind].
      destruct (eq_str _ customer_segment); [|reflexivity].
      simpl in Hconv. rewrite Hconv. reflexivity.
Qed.

End Similar.

Lemma similar_actions_are_converted_records_witness :
  let bought := PDict [("customer_id", PStr "CUST_1");
                       ("product_recommended", PStr "P1");
                       ("converted", PBool true)] in
  let ignored := PDict [("customer_id", PStr "CUST_1");
                        ("product_recommended", PStr "P1");
                        ("converted", PBool false)] in
  let st := {| historical_actions := Json (PList [ignored; bought]);
               historical_actions_fault := None;
               historical_customer_data := Absent |} in
  let t := {| sample_customers :=
                Json (PList [PDict [("customer_id", PStr "CUST_1");
                                    ("segment", PStr "vip")]]);
              product_catalog :=
                Json (PList [PDict [("product_id", PStr "P1");
                                    ("category", PStr "Electronics")]]);
              timing_intelligence := Absent;
              action_templates := Absent |} in
  let str := fun _ : pyval => "P1" in
  analytics_tool_rest.find_similar_successful_actions
    str st t "vip" "Electronics" = Ok (PList [bought])
  /\ exists similar,
       PList [bought] = PList similar
       /\ (length similar <= 2)%nat
       /\ Forall (fun a =>
                    In a [ignored; bought]
                    /\ truthy (entry_or a "converted" (PBool false)) = true
                    /\ (exists customer,
                          In customer (records_of (sample_customers t))
                          /\ analytics_tool.py_eq
                               (entry_or customer "customer_id" PNone)
                               (entry_or a "customer_id" PNone) = true
                          /\ eq_str (entry_or customer "segment" PNone) "vip"
                             = true)
                    /\ (exists product,
                          In product (records_of (product_catalog t))
                          /\ analytics_tool.py_eq
                               (entry_or product "product_id" PNone)
                               (entry_or a "product_recommended" PNone) = true
                          /\ eq_str (entry_or product "category" PNone)
                                    "Electronics" = true))
                 similar.
Proof.
  intros bought ignored st t str. split; [reflexivity|].
  apply (similar_actions_are_converted_records
           str st t "vip" "Electronics" [ignored; bought] (PList [bought]));
    reflexivity.
Defined.

Lemma no_similar_actions_without_customers_witness :
  let bought := PDict [("customer_id", PStr "CUST_1");
                       ("product_recommended", PStr "P1");
                       ("converted", PBool true)] in
  let st := {| historical_actions := Json (PList [bought; bought]);
               historical_actions_fault := None;
               historical_customer_data := Absent |} in
  let t := {| sample_customers := Absent;
              product_catalog :=
                Json (PList [PDict [("product_id", PStr "P1");
                                    ("category", PStr "Electronics")]]);
              timing_intelligence := Absent;
              action_templates := Absent |} in
  let str := fun _ : pyval => "P1" in
  analytics_tool_rest.find_similar_successful_actions
    str st t "vip" "Electronics" = Ok (PList []).
Proof.
  intros bought st t str.
  apply (no_similar_actions_without_customers
           str st t "vip" "Electronics" [bought; bought]).
  - reflexivity.
  - repeat first [apply Forall_nil
                 | apply Forall_cons; [eexists; reflexivity|]].
  - reflexivity.
Defined.

Lemma discount_range_defaults_witness :
  let t := {| sample_customers := Absent;
              product_catalog := Absent;
              timing_intelligence := Absent;
              action_templates := Absent |} in
  log_of (historical_actions example_store) = Some example_log
  /\ analytics_tool_rest.calculate_best_discount_range example_store t "vip"
     = Ok default_discount_range.
Proof.
  intros t. split; [reflexivity|].
  exact (proj1 (discount_range_defaults example_store t "vip" example_log
                  eq_refl) eq_refl).
Defined.

(** ** Business rules *)

Section BusinessRules.

Import business_rules_tool.

Variable str : pyval -> string.

Lemma ten_below_remaining :
  num_gt (NFloat (FFin (Qred (TOTAL_MONTHLY_BUDGET - CURRENT_MONTH_SPEND))))
         (NFloat (FFin MAX_SPEND_PER_CUSTOMER_PER_MONTH)) = true.
Proof. reflexivity. Qed.

(** X13.  In [check_budget_rules] the per-customer limit decides alone:
    for every numeric cost the check is valid exactly when the cost is
    not above 10, and the answer "Insufficient budget" is never given,
    the remaining budget being larger than the per-customer limit. *)
Theorem budget_check_decided_by_customer_limit
    (action_cost : pyval) (cost : num) :
  as_num action_cost = Some cost ->
  exists out,
    check_budget_rules str action_cost = Ok out
    /\ field out "valid"
       = Some (PBool (negb (num_gt cost (NFloat (FFin 10)))))
    /\ field out "message"
       <> Some (PStr "Insufficient budget. Remaining: $26550.00").
Proof.
  intros Hn. unfold check_budget_rules, gt_float. rewrite Hn. cbn [bind].
  change (num_gt cost (NFloat (FFin MAX_SPEND_PER_CUSTOMER_PER_MONTH)))
    with (num_gt cost (NFloat (FFin 10))).
  destruct (num_gt cost (NFloat (FFin 10))) eqn:Hover.
  - eexists. split; [reflexivity|]. split; [reflexivity|].
    simpl. discriminate.
  - destruct (num_gt cost
                (NFloat (FFin (Qred (TOTAL_MONTHLY_BUDGET - CURRENT_MONTH_SPEND)))))
      eqn:Hbudget.
    + assert (Hcontra : num_gt cost (NFloat (FFin 10)) = true)
        by exact (num_gt_trans _ _ _ Hbudget ten_below_remaining).
      congruence.
    + cbn [bind]. eexists. split; [reflexivity|]. split; [reflexivity|].
      simpl. discriminate.
Qed.

(** X14.  Permission is decided on the lower-cased channel name: a
    channel given as a string is permitted exactly when it is empty or
    is, in any capitalisation, [email] or [sms]; two spellings of the
    same channel that differ only in case get the same verdict. *)
Theorem permission_is_case_insensitive (channel : string) :
  (exists out,
     check_permission_rules (PStr channel) = Ok out
     /\ field out "valid"
        = Some (PBool (String.eqb channel ""
                       || String.eqb (lower channel) "email"
                       || String.eqb (lower channel) "sms")))
  /\ (forall other,
        lower other = lower channel ->
        field_of_result (check_permission_rules (PStr other)) "valid"
        = field_of_result (check_permission_rules (PStr channel)) "valid").
Proof.
  assert (H : forall c,
             field_of_result (check_permission_rules (PStr c)) "valid"
             = Some (PBool (String.eqb c ""
                            || String.eqb (lower c) "email"
                            || String.eqb (lower c) "sms"))).
  { intros c. unfold check_permission_rules. cbn [truthy].
    destruct (String.eqb_spec c "") as [->|Hne]; [reflexivity|].
    cbn [negb]. unfold CHANNEL_PERMISSIONS, get_or. cbn [lookup].
    destruct (String.eqb (lower c) "email"); [reflexivity|].
    destruct (String.eqb (lower c) "sms"); [reflexivity|].
    destruct (String.eqb (lower c) "push"); [reflexivity|].
    destruct (String.eqb (lower c) "whatsapp"); reflexivity. }
  split.
  - specialize (H channel).
    destruct (check_permission_rules (PStr channel)) as [out|e] eqn:E.
    + exists out. split; [reflexivity|exact H].
    + discriminate H.
  - intros other Hlow. rewrite !H.
    assert (Hempty : String.eqb other "" = String.eqb channel "").
    { destruct other, channel; simpl in *; try reflexivity; discriminate. }
    now rewrite Hlow, Hempty.
Qed.

End BusinessRules.

Lemma budget_check_decided_by_customer_limit_witness :
  let str := fun _ : pyval => "0.15" in
  as_num (PFloat (FFin (3 # 20))) = Some (NFloat (FFin (3 # 20)))
  /\ exists out,
       business_rules_tool.check_budget_rules str (PFloat (FFin (3 # 20)))
       = Ok out
       /\ field out "valid"
          = Some (PBool (negb (num_gt (NFloat (FFin (3 # 20)))
                                      (NFloat (FFin 10)))))
       /\ field out "message"
          <> Some (PStr "Insufficient budget. Remaining: $26550.00").
Proof.
  intros str. split; [reflexivity|].
  exact (budget_check_decided_by_customer_limit
           str (PFloat (FFin (3 # 20))) (NFloat (FFin (3 # 20))) eq_refl).
Defined.


Section Validation.

Import business_rules_tool.

Variable str : pyval -> string.

Lemma inventory_check_shape (t : tables) (product_id check : pyval) :
  check_inventory_rules str t product_id = Ok check ->
  exists b rest, check = PDict (("valid", PBool b) :: rest).
Proof.
  unfold check_inventory_rules. intros H.
  destruct (negb (truthy product_id)).
  { injection H as <-. eauto. }
  destruct (load (product_catalog t)) as [products|[[] msg]];
    try discriminate H; try (injection H as <-; eauto).
  bind_inv H. bind_inv H.
  destruct (negb (truthy a0)); [injection H as <-; eauto|].
  bind_inv H. bind_inv H. destruct a2; injection H as <-; eauto.
Qed.

Lemma permission_check_shape (channel check : pyval) :
  check_permission_rules channel = Ok check ->
  exists b rest, check = PDict (("valid", PBool b) :: rest).
Proof.
  unfold check_permission_rules. intros H.
  destruct (negb (truthy channel)); [injection H as <-; eauto|].
  destruct channel; try discriminate H.
  destruct (truthy _); injection H as <-; eauto.
Qed.

(** Every cost in the channel table passes the budget check. *)
Lemma channel_cost_within_budget (key cost : pyval) :
  table_get channel_costs key (float_of (1 # 20)) = Ok cost ->
  exists rest,
    check_budget_rules str cost = Ok (PDict (("valid", PBool true) :: rest)).
Proof.
  unfold table_get, channel_costs, get_or. intros H.
  assert (Hcases :
            cost = float_of (1 # 20) \/ cost = float_of (3 # 20)
            \/ cost = float_of (1 # 50) \/ cost = float_of (1 # 10)).
  { destruct key; try discriminate H;
      try (injection H as <-; left; reflexivity).
    cbn [lookup] in H.
    destruct (String.eqb s "email"); [injection H as <-; auto|].
    destruct (String.eqb s "sms"); [injection H as <-; auto|].
    destruct (String.eqb s "push"); [injection H as <-; auto|].
    destruct (String.eqb s "whatsapp"); injection H as <-; auto. }
  destruct Hcases as [-> | [-> | [-> | ->]]]; eexists; reflexivity.
Qed.

Lemma all_valid_flags (validations : list (string * pyval)) :
  Forall (fun v => exists b rest, snd v = PDict (("valid", PBool b) :: rest))
         validations ->
  all_valid validations = Ok (forallb (fun v => valid_flag (snd v)) validations).
Proof.
  induction 1 as [|[name check] l (b & rest & Hc) Hl IH]; simpl;
    [reflexivity|].
  simpl in Hc. subst check. cbn [py_get bind get_or lookup String.eqb
                                Ascii.eqb Bool.eqb truthy].
  unfold valid_flag at 1. cbn [entry_or get_or lookup String.eqb Ascii.eqb
                                Bool.eqb truthy].
  destruct b; [exact IH|].
  simpl. reflexivity.
Qed.

(** X15.  In [validate_action] the budget check cannot fail, since every
    channel cost is far below the per-customer limit: whenever the
    function returns, its [budget] check is valid and [overall_valid] is
    the conjunction of the inventory check (when the action names a
    product) and the permission check. *)
Theorem validate_action_decided_by_stock_and_permission
    (t : tables) (action : dict) (entries : dict) :
  validate_action_entries str t action = Ok entries ->
  exists checks budget permission,
    lookup "checks" entries = Some (PDict checks)
    /\ lookup "budget" checks = Some budget
    /\ valid_flag budget = true
    /\ lookup "permissions" checks = Some permission
    /\ (has_key "product_id" action = false -> lookup "inventory" checks = None)
    /\ lookup "overall_valid" entries
       = Some (PBool (inventory_ok checks && valid_flag permission))
    /\ lookup "action" entries = Some (PDict action).
Proof.
  unfold validate_action_entries. intros H.
  bind_inv H. bind_inv H. bind_inv H. bind_inv H. bind_inv H.
  injection H as <-.
  destruct (channel_cost_within_budget _ _ E0) as [brest Hb].
  rewrite Hb in E1. injection E1 as <-.
  destruct (permission_check_shape _ _ E2) as (pb & prest & ->).
  destruct (has_key "product_id" action) eqn:Hkey.
  - bind_inv E. bind_inv E. injection E as <-.
    destruct (inventory_check_shape _ _ _ E4) as (ib & irest & ->).
    rewrite all_valid_flags in E3.
    2:{ repeat constructor; simpl; eauto. }
    injection E3 as <-.
    eexists _, _, _. repeat split; try reflexivity.
    + intros Hno. discriminate Hno.
    + destruct ib, pb; reflexivity.
  - injection E as <-.
    rewrite all_valid_flags in E3.
    2:{ repeat constructor; simpl; eauto. }
    injection E3 as <-.
    eexists _, _, _. repeat split; try reflexivity.
    destruct pb; reflexivity.
Qed.

Lemma dict_set_lookup (d : dict) (k : string) (v : pyval) :
  lookup k (dict_set d k v) = Some v.
Proof.
  induction d as [|[k' v'] d IH]; simpl.
  - now rewrite String.eqb_refl.
  - destruct (String.eqb k k') eqn:E; simpl.
    + now rewrite String.eqb_refl.
    + now rewrite E.
Qed.

Lemma batch_loop_invariant (t : tables) (actions : list dict) :
  forall b b',
    batch_loop str t b actions = Ok b' ->
    (length (results b') = length (results b) + length actions)%nat
    /\ (length (passed_ids b') + length (failed_ids b')
        = length (passed_ids b) + length (failed_ids b) + length actions)%nat
    /\ map (fun r => entry_or r "action_id" PNone) (results b')
       = (map (fun r => entry_or r "action_id" PNone) (results b)
          ++ map (fun a => get_or a "action_id" (PStr "unknown")) actions)%list.
Proof.
  induction actions as [|a l IH]; intros b b' H; simpl in H.
  - injection H as <-. simpl. rewrite app_nil_r. repeat split; lia.
  - bind_inv H. unfold batch_step in E. bind_inv E. bind_inv E.
    destruct (IH _ _ H) as (Hr & Hp & Hids).
    assert (Hstamp :
              entry_or (PDict (dict_set a1 "action_id"
                                 (get_or a "action_id" (PStr "unknown"))))
                       "action_id" PNone
              = get_or a "action_id" (PStr "unknown")).
    { simpl. unfold get_or at 1. now rewrite dict_set_lookup. }
    destruct (truthy a2); injection E as <-; simpl in *;
      rewrite ?length_app in *; simpl in *.
    + repeat split; try lia.
      rewrite Hids, map_app. simpl map at 2.
      rewrite <- app_assoc. simpl. now rewrite Hstamp.
    + repeat split; try lia.
      rewrite Hids, map_app. simpl map at 2.
      rewrite <- app_assoc. simpl. now rewrite Hstamp.
Qed.

(** X16.  [validate_actions_batch] files every action exactly once:
    whenever it returns, there is one validated result per action, in
    order and stamped with the action's id ("unknown" when it has none),
    the passed and the failed ids together are as many as the actions,
    and the summary counts the passed ones out of all. *)
Theorem batch_files_every_action_once
    (t : tables) (actions : list dict) (out : pyval) :
  validate_actions_batch str t actions = Ok out ->
  exists validated passed failed,
    field out "validated_actions" = Some (PList validated)
    /\ field out "passed_action_ids" = Some (PList passed)
    /\ field out "failed_action_ids" = Some (PList failed)
    /\ length validated = length actions
    /\ (length passed + length failed = length actions)%nat
    /\ map (fun r => entry_or r "action_id" PNone) validated
       = map (fun a => get_or a "action_id" (PStr "unknown")) actions
    /\ field out "compliance_summary"
       = Some (PStr (str_of_int (Z.of_nat (length passed)) ++ " out of "
                     ++ str_of_int (Z.of_nat (length actions))
                     ++ " actions passed validation")).
Proof.
  unfold validate_actions_batch. intros H. bind_inv H. injection H as <-.
  destruct (batch_loop_invariant _ _ _ _ E) as (Hr & Hp & Hids).
  simpl in *. exists (results a), (passed_ids a), (failed_ids a).
  repeat split; auto.
Qed.

End Validation.

Lemma validate_action_decided_by_stock_and_permission_witness :
  let t := {| sample_customers := Absent;
              product_catalog :=
                Json (PList [PDict [("product_id", PStr "P1");
                                    ("stock_quantity", PInt 0)]]);
              timing_intelligence := Absent;
              action_templates := Absent |} in
  let str := fun _ : pyval => "P1" in
  let action := [("action_id", PStr "A1");
                 ("channel", PStr "Email");
                 ("product_id", PStr "P1")] in
  exists entries,
    business_rules_tool.validate_action_entries str t action = Ok entries
    /\ lookup "overall_valid" entries = Some (PBool false)
    /\ exists checks budget permission,
         lookup "checks" entries = Some (PDict checks)
         /\ lookup "budget" checks = Some budget
         /\ valid_flag budget = true
         /\ lookup "permissions" checks = Some permission
         /\ (has_key "product_id" action = false ->
             lookup "inventory" checks = None)
         /\ lookup "overall_valid" entries
            = Some (PBool (inventory_ok checks && valid_flag permission))
         /\ lookup "action" entries = Some (PDict action).
Proof.
  intros t str action. eexists. split; [reflexivity|]. split; [reflexivity|].
  apply (validate_action_decided_by_stock_and_permission str t action).
  reflexivity.
Defined.

Lemma batch_files_every_action_once_witness :
  let t := {| sample_customers := Absent;
              product_catalog := Absent;
              timing_intelligence := Absent;
              action_templates := Absent |} in
  let str := fun _ : pyval => "0.05" in
  let actions := [[("action_id", PStr "A1"); ("channel", PStr "email")];
                  [("channel", PStr "push")];
                  [("action_id", PStr "A3"); ("channel", PStr "SMS")]] in
  exists out,
    business_rules_tool.validate_actions_batch str t actions = Ok out
    /\ field out "passed_action_ids" = Some (PList [PStr "A1"; PStr "A3"])
    /\ field out "failed_action_ids" = Some (PList [PStr "unknown"])
    /\ field out "compliance_summary"
       = Some (PStr "2 out of 3 actions passed validation")
    /\ exists validated passed failed,
         field out "validated_actions" = Some (PList validated)
         /\ field out "passed_action_ids" = Some (PList passed)
         /\ field out "failed_action_ids" = Some (PList failed)
         /\ length validated = length actions
         /\ (length passed + length failed = length actions)%nat
         /\ map (fun r => entry_or r "action_id" PNone) validated
            = map (fun a => get_or a "action_id" (PStr "unknown")) actions
         /\ field out "compliance_summary"
            = Some (PStr (str_of_int (Z.of_nat (length passed)) ++ " out of "
                          ++ str_of_int (Z.of_nat (length actions))
                          ++ " actions passed validation")).
Proof.
  intros t str actions. eexists. split; [reflexivity|].
  split; [reflexivity|]. split; [reflexivity|]. split; [reflexivity|].
  apply (batch_files_every_action_once str t actions). reflexivity.
Defined.

(** ** Channels by preference *)

Section Channels.

Import action_templates_tool.

(** X17.  [get_channels_by_preference] always lists each of the four
    channels email, sms, push and retargeting_ads, and lists nothing
    twice; a preferred channel comes first, and the list has four entries
    when the preferred channel is one of the four (or none is given) and
    five otherwise. *)
Theorem channels_by_preference_complete (preferred_channel : option string) :
  let ranked := get_channels_by_preference preferred_channel in
  NoDup ranked
  /\ (forall c, In c all_channels -> In c ranked)
  /\ (forall preferred,
        preferred_channel = Some preferred -> preferred <> "" ->
        hd_error ranked = Some preferred
        /\ (forall c, In c ranked -> c = preferred \/ In c all_channels)
        /\ (In preferred all_channels -> length ranked = 4%nat)
        /\ (~ In preferred all_channels -> length ranked = 5%nat))
  /\ (preferred_channel = None \/ preferred_channel = Some "" ->
      ranked = ["email"; "push"; "sms"; "retargeting_ads"]).
Proof.
  assert (Hnd : NoDup all_channels).
  { unfold all_channels.
    repeat (constructor; [simpl; intuition discriminate|]). constructor. }
  assert (Hdefault : NoDup ["email"; "push"; "sms"; "retargeting_ads"]
                     /\ forall c, In c all_channels ->
                                  In c ["email"; "push"; "sms"; "retargeting_ads"]).
  { split.
    - repeat (constructor; [simpl; intuition discriminate|]). constructor.
    - unfold all_channels. simpl. intuition. }
  unfold get_channels_by_preference.
  destruct preferred_channel as [p|].
  - destruct (String.eqb_spec p "") as [->|Hp].
    + destruct Hdefault as [Hd1 Hd2].
      split; [exact Hd1|]. split; [exact Hd2|]. split; [|reflexivity].
      intros preferred [= <-] Hne. now destruct Hne.
    + set (others := filter (fun c => negb (String.eqb c p)) all_channels).
      assert (Hin : forall c, In c others <-> In c all_channels /\ c <> p).
      { intros c. unfold others. rewrite filter_In, negb_true_iff.
        now rewrite String.eqb_neq. }
      split; [|split; [|split]].
      * constructor; [intros H; apply Hin in H; now destruct H|].
        now apply NoDup_filter.
      * intros c Hc. destruct (String.eqb_spec c p) as [->|Hne];
          [now left|right; now apply Hin].
      * intros preferred [= <-] _. split; [reflexivity|]. split; [|split].
        -- intros c [<-|Hc]; [now left|right; now apply Hin in Hc].
        -- intros Hp4. unfold others, all_channels in *. simpl in Hp4.
           destruct Hp4 as [<-|[<-|[<-|[<-|[]]]]]; reflexivity.
        -- intros Hp4.
           assert (Hno : forall c, In c all_channels -> String.eqb c p = false).
           { intros c Hc. apply String.eqb_neq. intros ->. now apply Hp4. }
           unfold others, all_channels. cbn [filter].
           rewrite !Hno by (unfold all_channels; simpl; auto 6).
           reflexivity.
      * intros [H|H]; [discriminate|]. injection H as ->. now destruct Hp.
  - destruct Hdefault as [Hd1 Hd2].
    split; [exact Hd1|]. split; [exact Hd2|]. split; [|reflexivity].
    intros preferred H. discriminate.
Qed.

End Channels.

(** ** Send times *)

Section SendTimes.

Import timing_intelligence_tool.

Variable str : pyval -> string.
Variable is_weekend : bool.



End SendTimes.


Section FollowUp.

Import timing_intelligence_tool.

(** X19.  [get_followup_timing] knows three touches: for any other touch
    number it recommends the delay of the first touch, and an unknown
    scenario is reported in the same way whatever the touch number. *)
Theorem followup_touch_falls_back_to_first
    (t : tables) (customer_scenario : string) (touch_number : Z) :
  touch_number <> 1 -> touch_number <> 2 -> touch_number <> 3 ->
  field_of_result (get_followup_timing t customer_scenario touch_number)
                  "recommended_delay"
  = field_of_result (get_followup_timing t customer_scenario 1)
                    "recommended_delay"
  /\ field_of_result (get_followup_timing t customer_scenario touch_number)
                     "error"
     = field_of_result (get_followup_timing t customer_scenario 1) "error".
Proof.
  intros H1 H2 H3.
  assert (Hkey : timing_key touch_number = timing_key 1).
  { unfold timing_key. apply Z.eqb_neq in H1, H2, H3.
    now rewrite H1, H2, H3. }
  unfold get_followup_timing. rewrite Hkey.
  destruct (query_timing_intelligence t "all") as [timing_data|e];
    cbn [bind]; [|split; reflexivity].
  destruct (py_get timing_data "customer_behavior_patterns" (PDict []))
    as [patterns|e]; cbn [bind]; [|split; reflexivity].
  destruct (py_get patterns customer_scenario (PDict [])) as [scenario|e];
    cbn [bind]; [|split; reflexivity].
  destruct (negb (truthy scenario)); [split; reflexivity|].
  destruct (py_get scenario (timing_key 1) (PStr "24_hours")) as [timing|e];
    cbn [bind]; split; reflexivity.
Qed.

End FollowUp.

Lemma followup_touch_falls_back_to_first_witness :
  let t := {| sample_customers := Absent;
              product_catalog := Absent;
              timing_intelligence :=
                Json (PDict [("customer_behavior_patterns",
                              PDict [("cart_abandoners",
                                      PDict [("optimal_followup_timing",
                                              PStr "1_hour");
                                             ("second_touch_timing",
                                              PStr "24_hours")])])]);
              action_templates := Absent |} in
  field_of_result
    (timing_intelligence_tool.get_followup_timing t "cart_abandoners" 4)
    "recommended_delay" = Some (PStr "1_hour")
  /\ field_of_result
       (timing_intelligence_tool.get_followup_timing t "cart_abandoners" 4)
       "recommended_delay"
     = field_of_result
         (timing_intelligence_tool.get_followup_timing t "cart_abandoners" 1)
         "recommended_delay".
Proof.
  intros t. split; [reflexivity|].
  apply (followup_touch_falls_back_to_first t "cart_abandoners" 4); lia.
Defined.

(** ** [min] with a numeric key *)

Section Min.

Context {A : Type} (key : A -> res pyval).

Lemma min_loop_numeric (rest : list A) :
  forall (best : A) (kv : pyval) (bk : num) (seen : list A),
    key best = Ok kv -> as_num kv = Some bk ->
    Forall (not_below key bk) seen ->
    Forall (fun x => exists n, numeric_key key x n) rest ->
    exists b nb,
      min_loop key best kv rest = Ok b
      /\ numeric_key key b nb
      /\ (b = best \/ In b rest)
      /\ Forall (not_below key nb) seen
      /\ Forall (not_below key nb) rest.
Proof.
  induction rest as [|x rest IH]; intros best kv bk seen Hk Hbk Hseen Hrest.
  - exists best, bk. simpl. repeat split; auto. now exists kv.
  - inversion Hrest as [|? ? (n & k & Hkx & Hn) Hrest']; subst.
    simpl. rewrite Hkx. simpl. rewrite (py_lt_numbers _ _ _ _ Hn Hbk). simpl.
    destruct (num_lt n bk) eqn:Hlt.
    + destruct (IH x k n (x :: seen) Hkx Hn) as (b & nb & Hb & Hnb & Hin & Hs & Hr).
      * constructor.
        -- intros m Hm.
           rewrite (numeric_key_unique key x m n Hm) by (now exists k).
           apply (num_gt_irrefl n).
        -- apply Forall_forall. intros y Hy m Hm.
           rewrite Forall_forall in Hseen. specialize (Hseen y Hy m Hm).
           destruct (num_lt m n) eqn:E; [|reflexivity].
           assert (Hc : num_gt bk m = true)
             by (apply (num_gt_trans bk n m); assumption).
           unfold num_gt in Hc. congruence.
      * exact Hrest'.
      * exists b, nb. inversion Hs; subst.
        repeat split; auto.
        destruct Hin as [->|Hin]; [right; now left|right; now right].
    + destruct (IH best kv bk (x :: seen) Hk Hbk) as (b & nb & Hb & Hnb & Hin & Hs & Hr).
      * constructor; [|exact Hseen].
        intros m Hm.
        rewrite (numeric_key_unique key x m n Hm) by (now exists k). exact Hlt.
      * exact Hrest'.
      * exists b, nb. inversion Hs; subst.
        repeat split; auto.
        destruct Hin as [->|Hin]; [now left|right; now right].
Qed.

(** [min] over items whose keys are numbers returns one of the items,
    and no item has a strictly smaller key. *)
Lemma min_by_numeric (first : A) (rest : list A) :
  Forall (fun x => exists n, numeric_key key x n) (first :: rest) ->
  exists best bottom,
    min_by key first rest = Ok best
    /\ In best (first :: rest)
    /\ numeric_key key best bottom
    /\ Forall (not_below key bottom) (first :: rest).
Proof.
  intros H. inversion H as [|? ? (n & k & Hk & Hn) Hrest]; subst.
  unfold min_by. rewrite Hk. simpl.
  destruct (min_loop_numeric rest first k n [first] Hk Hn) as
    (b & nb & Hb & Hnb & Hin & Hs & Hr); auto.
  - constructor; [|constructor]. intros m Hm.
    rewrite (numeric_key_unique key first m n Hm) by (now exists k).
    apply (num_gt_irrefl n).
  - exists b, nb. repeat split; auto.
    + destruct Hin as [->|Hin]; [now left|now right].
    + inversion Hs; subst. now constructor.
Qed.

End Min.

Section DiscountRange.

Import analytics_tool analytics_tool_rest customer_data_tool.

Lemma in_converted_segment_true (customers : pyval) (segment : string)
    (a : pyval) :
  in_converted_segment customers segment a = Ok true ->
  is_object a
  /\ truthy (entry_or a "converted" PNone) = true
  /\ exists cs customer,
       iter customers = Ok cs
       /\ In customer cs
       /\ py_eq (entry_or customer "customer_id" PNone)
                (entry_or a "customer_id" PNone) = true
       /\ eq_str (entry_or customer "segment" PNone) segment = true.
Proof.
  unfold in_converted_segment. intros H.
  bind_inv H. bind_inv H.
  destruct (truthy a1) eqn:Htruthy; [|discriminate H].
  bind_inv H. destruct (eq_str a2 segment) eqn:Hseg; [|discriminate H].
  bind_inv H. injection H as H.
  destruct a; try discriminate E2. simpl in E2. injection E2 as <-.
  split; [eexists; reflexivity|]. split; [exact H|].
  destruct (next_customer_found _ _ _ E0 Htruthy) as (Hin & w & Hw & Hid).
  exists a0, a1. split; [reflexivity|]. split; [exact Hin|].
  split.
  - now rewrite (subscript_entry _ _ _ Hw).
  - destruct a1; try discriminate E1. simpl in E1. injection E1 as <-.
    exact Hseg.
Qed.

Lemma mapM_discounts (selected : list pyval) :
  Forall is_object selected ->
  mapM discount_of selected
  = Ok (map (fun a => entry_or a "discount_percentage" (PInt 0)) selected).
Proof.
  induction 1 as [|a l [d ->] _ IH]; simpl; [reflexivity|].
  rewrite IH. reflexivity.
Qed.

Lemma identity_numeric (v : pyval) (n : num) :
  as_num v = Some n -> numeric_key identity_key v n.
Proof. intros H. exists v. split; [reflexivity|exact H]. Qed.

(** X20.  When [calculate_best_discount_range] does not fall back to the
    default, it reports the discounts of converted records of the log
    whose customer is in the requested segment: [min_discount] and
    [max_discount] are discounts of such records, and, the discounts
    being numbers, none of the records it selected has a discount below
    [min_discount] or above [max_discount]. *)
Theorem discount_range_bounds
    (st : store) (t : tables) (customer_segment : string)
    (log : list pyval) (out : pyval) :
  log_of (historical_actions st) = Some log ->
  Forall (fun a => exists n, discounted n a) log ->
  calculate_best_discount_range st t customer_segment = Ok out ->
  out = default_discount_range
  \/ exists selected lowest highest lo hi,
       selected <> []
       /\ (forall a, In a selected ->
                     In a log
                     /\ truthy (entry_or a "converted" PNone) = true
                     /\ customer_in_segment t customer_segment a)
       /\ field out "min_discount" = Some lowest
       /\ field out "max_discount" = Some highest
       /\ In lowest (map (fun a => entry_or a "discount_percentage" (PInt 0))
                         selected)
       /\ In highest (map (fun a => entry_or a "discount_percentage" (PInt 0))
                          selected)
       /\ as_num lowest = Some lo
       /\ as_num highest = Some hi
       /\ forall a n, In a selected -> discounted n a ->
                      num_lt n lo = false /\ num_gt n hi = false.
Proof.
  intros Hlog Hnum H. unfold calculate_best_discount_range in H.
  rewrite (scorable_log_records _ _ Hlog) in H. cbn [bind iter] in H.
  bind_inv H. bind_inv H. rename a into customers, a0 into chosen.
  destruct (filterM_sound _ _ _ E0) as [Hsel _].
  destruct chosen as [|x selected]; [left; now injection H as <-|right].
  assert (Hobj : Forall is_object (x :: selected)).
  { apply Forall_forall. intros a Ha. rewrite Forall_forall in Hsel.
    destruct (Hsel a Ha) as [_ Ht]. now apply in_converted_segment_true in Ht. }
  assert (Hkeys : Forall (fun v => exists n, numeric_key identity_key v n)
                    (map (fun a => entry_or a "discount_percentage" (PInt 0))
                         (x :: selected))).
  { apply Forall_forall. intros v Hv. apply in_map_iff in Hv as (a & <- & Ha).
    rewrite Forall_forall in Hsel, Hnum.
    destruct (Hsel a Ha) as [Hin _]. destruct (Hnum a Hin) as [n Hn].
    exists n. now apply identity_numeric. }
  inversion Hobj as [|? ? [dx ->] Hobj']; subst.
  cbn [discount_of py_get bind] in H.
  rewrite (mapM_discounts _ Hobj') in H. cbn [bind] in H.
  cbn [map entry_or] in Hkeys.
  destruct (min_by_numeric identity_key _ _ Hkeys) as
    (lowest & lo & Hmin & Hlin & (lv & Hlv & Hlo) & Hbelow).
  destruct (max_by_numeric identity_key _ _ Hkeys) as
    (highest & hi & Hmax & Hhin & (hv & Hhv & Hhi) & Habove).
  rewrite Hmin, Hmax in H. cbn [bind] in H.
  bind_inv H. bind_inv H. rename a into total, a0 into mean.
  injection H as <-.
  unfold identity_key in Hlv, Hhv. injection Hlv as <-. injection Hhv as <-.
  exists (PDict dx :: selected), lowest, highest, lo, hi.
  split; [discriminate|]. split.
  { intros a Ha. rewrite Forall_forall in Hsel.
    destruct (Hsel a Ha) as [Hin Ht]. split; [exact Hin|].
    apply in_converted_segment_true in Ht
      as (_ & Hconv & cs & customer & Hiter & Hc & Hid & Hseg).
    split; [exact Hconv|].
    destruct (all_customers_records _ _ _ E Hiter) as [->| ->];
      [destruct Hc|].
    exists customer. split; [exact Hc|]. split; [exact Hid|exact Hseg]. }
  split; [reflexivity|]. split; [reflexivity|].
  split; [exact Hlin|]. split; [exact Hhin|].
  split; [exact Hlo|]. split; [exact Hhi|].
  intros a n Ha Hn.
  assert (Hv : In (entry_or a "discount_percentage" (PInt 0))
                  (map (fun a => entry_or a "discount_percentage" (PInt 0))
                       (PDict dx :: selected)))
    by exact (in_map (fun a => entry_or a "discount_percentage" (PInt 0))
                     _ _ Ha).
  rewrite Forall_forall in Hbelow, Habove. split.
  - apply (Hbelow _ Hv). now apply identity_numeric.
  - apply (Habove _ Hv). now apply identity_numeric.
Qed.

End DiscountRange.

Lemma discount_range_bounds_witness :
  let small := PDict [("customer_id", PStr "CUST_1");
                      ("discount_percentage", PInt 10);
                      ("converted", PBool true)] in
  let large := PDict [("customer_id", PStr "CUST_1");
                      ("discount_percentage", PInt 20);
                      ("converted", PBool true)] in
  let lost := PDict [("customer_id", PStr "CUST_1");
                     ("discount_percentage", PInt 50);
                     ("converted", PBool false)] in
  let st := {| historical_actions := Json (PList [small; lost; large]);
               historical_actions_fault := None;
               historical_customer_data := Absent |} in
  let t := {| sample_customers :=
                Json (PList [PDict [("customer_id", PStr "CUST_1");
                                    ("segment", PStr "vip")]]);
              product_catalog := Absent;
              timing_intelligence := Absent;
              action_templates := Absent |} in
  analytics_tool_rest.calculate_best_discount_range st t "vip"
  = Ok (PDict [("min_discount", PInt 10);
               ("max_discount", PInt 20);
               ("avg_discount", PFloat (FFin 15))])
  /\ (PDict [("min_discount", PInt 10);
             ("max_discount", PInt 20);
             ("avg_discount", PFloat (FFin 15))] = default_discount_range
      \/ exists selected lowest highest lo hi,
           selected <> []
           /\ (forall a, In a selected ->
                         In a [small; lost; large]
                         /\ truthy (entry_or a "converted" PNone) = true
                         /\ customer_in_segment t "vip" a)
           /\ field (PDict [("min_discount", PInt 10);
                            ("max_discount", PInt 20);
                            ("avg_discount", PFloat (FFin 15))])
                    "min_discount" = Some lowest
           /\ field (PDict [("min_discount", PInt 10);
                            ("max_discount", PInt 20);
                            ("avg_discount", PFloat (FFin 15))])
                    "max_discount" = Some highest
           /\ In lowest
                 (map (fun a => entry_or a "discount_percentage" (PInt 0))
                      selected)
           /\ In highest
                 (map (fun a => entry_or a "discount_percentage" (PInt 0))
                      selected)
           /\ as_num lowest = Some lo
           /\ as_num highest = Some hi
           /\ forall a n, In a selected -> discounted n a ->
                          num_lt n lo = false /\ num_gt n hi = false).
Proof.
  intros small large lost st t. split; [reflexivity|].
  apply (discount_range_bounds st t "vip" [small; lost; large]).
  - reflexivity.
  - repeat constructor; eexists; reflexivity.
  - reflexivity.
Defined.

(** ** Searching the tables *)

Section Search.

Import customer_data_tool inventory_tool.

(** X21.  [search_customers_by_segment] and [get_products_by_category]
    read the field with [get]: on a table of objects they do not raise,
    a record without the field is passed over, and the answer holds
    exactly the records whose field equals the argument, in table
    order. *)
Theorem table_searches_pass_over_incomplete_records
    (t : tables) (wanted : string) :
  (forall customers,
     sample_customers t = Json (PList customers) ->
     Forall is_object customers ->
     exists found,
       search_customers_by_segment t wanted = Ok (PList found)
       /\ found = filter (fun c => eq_str (entry_or c "segment" PNone) wanted)
                         customers
       /\ forall c, In c found <->
                    In c customers /\ entry_or c "segment" PNone = PStr wanted)
  /\ (forall products,
        product_catalog t = Json (PList products) ->
        Forall is_object products ->
        exists found,
          get_products_by_category t wanted = Ok (PList found)
          /\ found = filter (fun p => eq_str (entry_or p "category" PNone) wanted)
                            products
          /\ forall p, In p found <->
                       In p products
                       /\ entry_or p "category" PNone = PStr wanted).
Proof.
  assert (Heq : forall v, eq_str v wanted = true <-> v = PStr wanted).
  { intros v. destruct v; simpl; try (split; [discriminate|discriminate]).
    rewrite String.eqb_eq. split; [now intros ->|now intros [= ->]]. }
  split.
  - intros customers Hf Hobj. eexists. split; [|split; [reflexivity|]].
    + unfold search_customers_by_segment, get_all_customers.
      rewrite Hf. cbn [load bind iter].
      rewrite (filterM_filter _
                 (fun c => eq_str (entry_or c "segment" PNone) wanted)).
      * reflexivity.
      * intros c Hc. rewrite Forall_forall in Hobj.
        rewrite (object_get c "segment" PNone (Hobj c Hc)). reflexivity.
    + intros c. rewrite filter_In, Heq. reflexivity.
  - intros products Hf Hobj. eexists. split; [|split; [reflexivity|]].
    + unfold get_products_by_category. rewrite Hf. cbn [load bind iter].
      rewrite (filterM_filter _
                 (fun p => eq_str (entry_or p "category" PNone) wanted)).
      * reflexivity.
      * intros p Hp. rewrite Forall_forall in Hobj.
        rewrite (object_get p "category" PNone (Hobj p Hp)). reflexivity.
    + intros p. rewrite filter_In, Heq. reflexivity.
Qed.

End Search.

Lemma table_searches_pass_over_incomplete_records_witness :
  let ann := PDict [("customer_id", PStr "CUST_1"); ("segment", PStr "vip")] in
  let bob := PDict [("customer_id", PStr "CUST_2")] in
  let shoe := PDict [("product_id", PStr "P1"); ("category", PStr "shoes")] in
  let t := {| sample_customers := Json (PList [ann; bob; ann]);
              product_catalog := Json (PList [PDict []; shoe]);
              timing_intelligence := Absent;
              action_templates := Absent |} in
  customer_data_tool.search_customers_by_segment t "vip" = Ok (PList [ann; ann])
  /\ inventory_tool.get_products_by_category t "shoes" = Ok (PList [shoe]).
Proof.
  intros ann bob shoe t.
  destruct (table_searches_pass_over_incomplete_records t "vip") as [Hc _].
  destruct (table_searches_pass_over_incomplete_records t "shoes") as [_ Hp].
  destruct (Hc [ann; bob; ann] eq_refl) as (found & Hr & Hf & _).
  { repeat first [apply Forall_nil
                 | apply Forall_cons; [eexists; reflexivity|]]. }
  destruct (Hp [PDict []; shoe] eq_refl) as (found' & Hr' & Hf' & _).
  { repeat first [apply Forall_nil
                 | apply Forall_cons; [eexists; reflexivity|]]. }
  split.
  - rewrite Hr, Hf. reflexivity.
  - rewrite Hr', Hf'. reflexivity.
Defined.

(** ** Missing tables *)

Section MissingTables.

Variable str : pyval -> string.
Variable is_weekend : bool.

(** X22.  Without a product catalogue the two inventory checks disagree:
    [check_stock_availability] says no quantity of any product is
    available, [calculate_margin] is 0.0 and no category has products,
    while [check_inventory_rules] declares every product valid. *)
Theorem missing_catalogue_unavailable_but_valid
    (t : tables) (product_id : pyval) (quantity : Z) (discount_percent : num)
    (category : string) :
  product_catalog t = Absent ->
  inventory_tool.check_stock_availability str t product_id quantity = Ok false
  /\ inventory_tool.calculate_margin str t product_id discount_percent
     = Ok (PFloat (FFin 0))
  /\ inventory_tool.get_products_by_category t category = Ok (PList [])
  /\ exists out,
       business_rules_tool.check_inventory_rules str t product_id = Ok out
       /\ field out "valid" = Some (PBool true).
Proof.
  intros Hf. repeat split.
  - unfold inventory_tool.check_stock_availability,
      inventory_tool.get_product_info. rewrite Hf. reflexivity.
  - unfold inventory_tool.calculate_margin, inventory_tool.get_product_info.
    rewrite Hf. reflexivity.
  - unfold inventory_tool.get_products_by_category. rewrite Hf. reflexivity.
  - unfold business_rules_tool.check_inventory_rules. rewrite Hf.
    destruct (negb (truthy product_id)); eexists; split; reflexivity.
Qed.

(** X23.  Without the timing file [get_optimal_send_time] answers "Could
    not load timing data" for every channel and every urgency, the
    urgent ones included, and [get_followup_timing] reports the scenario
    as unknown instead of the missing file. *)
Theorem missing_timing_file_reports
    (t : tables) (channel urgency customer_scenario : string)
    (touch_number : Z) :
  timing_intelligence t = Absent ->
  timing_intelligence_tool.get_optimal_send_time str is_weekend t channel urgency
  = Ok (PDict [("error", PStr "Could not load timing data")])
  /\ timing_intelligence_tool.get_followup_timing
       t customer_scenario touch_number
     = Ok (PDict [("error", PStr ("Unknown scenario: " ++ customer_scenario))]).
Proof.
  intros Hf. split.
  - unfold timing_intelligence_tool.get_optimal_send_time,
      timing_intelligence_tool.query_timing_intelligence.
    rewrite Hf. reflexivity.
  - unfold timing_intelligence_tool.get_followup_timing,
      timing_intelligence_tool.query_timing_intelligence.
    rewrite Hf. reflexivity.
Qed.

End MissingTables.

Lemma missing_catalogue_unavailable_but_valid_witness :
  let str := fun _ : pyval => "P1" in
  let t := {| sample_customers := Absent;
              product_catalog := Absent;
              timing_intelligence := Absent;
              action_templates := Absent |} in
  inventory_tool.check_stock_availability str t (PStr "P1") 1 = Ok false
  /\ business_rules_tool.check_inventory_rules str t (PStr "P1")
     = Ok (PDict [("valid", PBool true);
                  ("message",
                   PStr "Product catalog not found, assuming available")]).
Proof.
  intros str t. split.
  - exact (proj1 (missing_catalogue_unavailable_but_valid
                    str t (PStr "P1") 1 (NInt 0) "shoes" eq_refl)).
  - reflexivity.
Defined.

Lemma missing_timing_file_reports_witness :
  let str := fun _ : pyval => "" in
  let t := {| sample_customers := Absent;
              product_catalog := Absent;
              timing_intelligence := Absent;
              action_templates := Absent |} in
  timing_intelligence_tool.get_optimal_send_time str false t "email" "very_high"
  = Ok (PDict [("error", PStr "Could not load timing data")])
  /\ timing_intelligence_tool.get_followup_timing t "cart_abandoners" 2
     = Ok (PDict [("error", PStr "Unknown scenario: cart_abandoners")]).
Proof.
  intros str t.
  exact (missing_timing_file_reports
           str false t "email" "very_high" "cart_abandoners" 2 eq_refl).
Defined.

(** ** The two inventory checks on a well-formed catalogue *)

Section InventoryChecks.

Import inventory_tool business_rules_tool.

Variable str : pyval -> string.

Lemma stocked_has_product_id (p : pyval) :
  stocked_record p -> has_entry "product_id" p.
Proof.
  intros (d & -> & Hid & _). unfold has_key in Hid.
  destruct (lookup "product_id" d) as [v|] eqn:E; [|discriminate].
  now exists d, v.
Qed.

Lemma next_product_first (product_id : pyval) (products : list pyval) :
  Forall stocked_record products ->
  next_product product_id products
  = Ok match first_product product_id products with
       | Some p => p
       | None => PNone
       end.
Proof.
  induction 1 as [|p l Hp _ IH]; simpl; [reflexivity|].
  destruct Hp as (d & -> & _). simpl.
  unfold first_product in *. simpl.
  destruct (analytics_tool.py_eq (get_or d "product_id" PNone) product_id);
    [reflexivity|exact IH].
Qed.

Lemma first_product_stocked (product_id : pyval) (products : list pyval) :
  Forall stocked_record products ->
  forall p, first_product product_id products = Some p -> stocked_record p.
Proof.
  intros Hall p Hfind. apply find_some in Hfind as [Hin _].
  rewrite Forall_forall in Hall. now apply Hall.
Qed.

(** X24.  On a catalogue of well-formed records, each an object with a
    [product_id], no [error] entry and an integer stock, the inventory
    rule and the stock check agree: for a product id that is not falsy,
    [check_inventory_rules] is valid exactly when
    [check_stock_availability] says one unit is available. *)
Theorem inventory_rule_agrees_with_stock_check
    (t : tables) (product_id : pyval) (products : list pyval) :
  product_catalog t = Json (PList products) ->
  Forall stocked_record products ->
  truthy product_id = true ->
  exists out available,
    check_inventory_rules str t product_id = Ok out
    /\ check_stock_availability str t product_id 1 = Ok available
    /\ field out "valid" = Some (PBool available).
Proof.
  intros Hf Hall Hid.
  assert (Hids : Forall (has_entry "product_id") products).
  { eapply Forall_impl; [|exact Hall]. exact stocked_has_product_id. }
  unfold check_inventory_rules, check_stock_availability, get_product_info.
  rewrite Hid, Hf. cbn [negb load bind iter].
  rewrite (next_product_first _ _ Hall), (find_product_first str _ _ Hids).
  cbn [bind].
  destruct (first_product product_id products) as [p|] eqn:Hfind.
  - destruct (first_product_stocked _ _ Hall _ Hfind)
      as (d & -> & Hhas & Herr & units & Hunits).
    assert (Htruthy : truthy (PDict d) = true).
    { destruct d; [discriminate|reflexivity]. }
    rewrite Htruthy. cbn [negb py_get contains_str bind].
    rewrite Herr, Hunits. unfold gt_int, ge_int. cbn [as_num bind].
    assert (Hsame : num_gt (NInt units) (NInt 0) = num_ge (NInt units) (NInt 1)).
    { unfold num_gt, num_ge, num_lt, num_eq.
      destruct (0 <? units) eqn:E0, (1 <? units) eqn:E1, (units =? 1) eqn:E2;
        try reflexivity; lia. }
    rewrite Hsame.
    destruct (num_ge (NInt units) (NInt 1)); eexists _, _;
      repeat split; reflexivity.
  - cbn [truthy negb contains_str has_key lookup].
    eexists _, _. repeat split; reflexivity.
Qed.

End InventoryChecks.

Lemma inventory_rule_agrees_with_stock_check_witness :
  let str := fun _ : pyval => "12" in
  let shoe := PDict [("product_id", PStr "P1"); ("stock_quantity", PInt 12)] in
  let hat := PDict [("product_id", PStr "P2")] in
  let t := {| sample_customers := Absent;
              product_catalog := Json (PList [shoe; hat]);
              timing_intelligence := Absent;
              action_templates := Absent |} in
  (inventory_tool.check_stock_availability str t (PStr "P1") 1 = Ok true
   /\ inventory_tool.check_stock_availability str t (PStr "P2") 1 = Ok false)
  /\ exists out available,
       business_rules_tool.check_inventory_rules str t (PStr "P2") = Ok out
       /\ inventory_tool.check_stock_availability str t (PStr "P2") 1
          = Ok available
       /\ field out "valid" = Some (PBool available).
Proof.
  intros str shoe hat t. split; [split; reflexivity|].
  apply (inventory_rule_agrees_with_stock_check
           str t (PStr "P2") [shoe; hat] eq_refl); [|reflexivity].
  repeat first [apply Forall_nil | apply Forall_cons].
  - exists [("product_id", PStr "P1"); ("stock_quantity", PInt 12)].
    repeat split; try reflexivity. now exists 12.
  - exists [("product_id", PStr "P2")].
    repeat split; try reflexivity. now exists 0.
Defined.
